(** * Land registry application: access policies, session lifecycle, screens

    A shallow embedding of
    - the row-level-security policies and table constraints of
      [supabase/migrations/20250624164004_bronze_villa.sql],
    - the authentication provider of [contexts/AuthContext.tsx],
    - the role router of [app/index.tsx],
    - the handlers of the admin, landowner, public and notification screens,
    followed by the properties established about them. *)

From Stdlib Require Import String Ascii List Bool Arith ZArith.
From Stdlib Require Import PrimFloat.
From Stdlib Require Import Permutation Sorted Lia.
Import ListNotations.
Local Open Scope string_scope.
Local Open Scope bool_scope.

(** ** Column types *)

Module Schema.

(** [uuid] columns are compared for equality only. *)
Definition uuid := string.
(** [timestamptz] columns, as an instant on the time line. *)
Definition timestamptz := Z.
(** [decimal] columns reach the client as JavaScript numbers. *)
Definition number := PrimFloat.float.

(** [text] columns restricted by a CHECK constraint to a fixed set. *)
Inductive ownership_status := verified | pending | disputed.
Inductive document_type := deed | survey | certificate | other.
Inductive document_status := doc_pending | doc_approved | doc_rejected.
Inductive notification_type := info | warning | success | error.

(** profiles.role is kept as [text]: the client switches on it with a
    default branch. *)
Record profile := {
  p_id : uuid;
  p_email : string;
  p_full_name : string;
  p_role : string;
  p_phone : option string;
  p_created_at : timestamptz
}.

Record land_record := {
  lr_id : uuid;
  lr_title : string;
  lr_location : string;
  lr_coordinates : option string;
  lr_size : number;
  lr_size_unit : string;
  lr_ownership_status : ownership_status;
  lr_zoning : string;
  lr_price : option number;
  lr_description : option string;
  lr_owner_id : option uuid;
  lr_verified_by : option uuid;
  lr_created_at : timestamptz;
  lr_updated_at : timestamptz
}.

Record ownership_document := {
  od_id : uuid;
  od_land_record_id : option uuid;
  od_document_type : document_type;
  od_document_url : string;
  od_status : document_status;
  od_submitted_by : option uuid;
  od_reviewed_by : option uuid;
  od_notes : option string;
  od_created_at : timestamptz
}.

(** [read boolean DEFAULT false] carries no NOT NULL. *)
Record notification := {
  n_id : uuid;
  n_user_id : option uuid;
  n_title : string;
  n_message : string;
  n_type : notification_type;
  n_read : option bool;
  n_created_at : timestamptz
}.

(** The tables the screens below touch, each in storage order; transactions
    and zoning_laws, which none of them writes, are left out. *)
Record database := {
  profiles : list profile;
  land_records : list land_record;
  ownership_documents : list ownership_document;
  notifications : list notification
}.

Definition with_land_records (db : database) (t : list land_record) :=
  {| profiles := profiles db; land_records := t;
     ownership_documents := ownership_documents db;
     notifications := notifications db |}.

Definition with_ownership_documents (db : database)
    (t : list ownership_document) :=
  {| profiles := profiles db; land_records := land_records db;
     ownership_documents := t; notifications := notifications db |}.

Definition with_notifications (db : database) (t : list notification) :=
  {| profiles := profiles db; land_records := land_records db;
     ownership_documents := ownership_documents db; notifications := t |}.

(** SQL [a = b] on nullable columns inside a policy: NULL never passes. *)
Definition sql_eq (a b : option uuid) : bool :=
  match a, b with
  | Some x, Some y => String.eqb x y
  | _, _ => false
  end.

(** The [{ data, error }] pair every client call resolves to. *)
Inductive response (A : Type) := Data (a : A) | Error (message : string).
Arguments Data {A}.
Arguments Error {A}.

Definition accepted {A} (r : response A) : bool :=
  match r with Data _ => true | Error _ => false end.

Definition map_response {A B} (f : A -> B) (r : response A) : response B :=
  match r with Data a => Data (f a) | Error m => Error m end.

End Schema.
Import Schema.

(** ** Row-level security *)

Module RLS.

Inductive command := SELECT | INSERT | UPDATE | DELETE.

Definition command_eqb (a b : command) : bool :=
  match a, b with
  | SELECT, SELECT | INSERT, INSERT | UPDATE, UPDATE | DELETE, DELETE => true
  | _, _ => false
  end.

(** [CREATE POLICY name ON table FOR cmd TO authenticated USING (..)
    WITH CHECK (..)].  An expression sees the caller ([auth.uid()]), the
    database (for its sub-selects) and the row. *)
Inductive policy_for := FOR_ALL | FOR (c : command).

Definition expr (row : Type) := uuid -> database -> row -> bool.

Record policy (row : Type) := {
  pol_name : string;
  pol_for : policy_for;
  pol_using : option (expr row);
  pol_with_check : option (expr row)
}.
Arguments pol_name {row}.
Arguments pol_for {row}.
Arguments pol_using {row}.
Arguments pol_with_check {row}.

Definition rls_violation : string :=
  "new row violates row-level security policy".

Definition constraint_violation : string :=
  "update violates a key constraint".

Section Evaluation.
Context {row : Type}.

Definition applies (c : command) (p : policy row) : bool :=
  match pol_for p with
  | FOR_ALL => true
  | FOR c' => command_eqb c' c
  end.

Definition using_expr (p : policy row) : expr row :=
  match pol_using p with
  | Some e => e
  | None => fun _ _ _ => true
  end.

(** A policy written with USING only applies that expression to new rows as
    well. *)
Definition check_expr (p : policy row) : expr row :=
  match pol_with_check p with
  | Some e => e
  | None => using_expr p
  end.

(** Permissive policies are combined with OR; with row-level security
    enabled and no applicable policy the answer is no. *)
Definition rls_using (ps : list (policy row)) (c : command) : expr row :=
  fun uid db r => existsb (fun p => applies c p && using_expr p uid db r) ps.

Definition rls_check (ps : list (policy row)) (c : command) : expr row :=
  fun uid db r => existsb (fun p => applies c p && check_expr p uid db r) ps.

(** Rows a statement with a WHERE clause can reach: they must be readable and
    pass the command's own USING expressions. *)
Definition reachable (ps : list (policy row)) (c : command) : expr row :=
  fun uid db r => rls_using ps SELECT uid db r && rls_using ps c uid db r.

Definition rls_select (ps : list (policy row)) (uid : uuid) (db : database)
    (where_ : row -> bool) (t : list row) : list row :=
  filter (fun r => where_ r && rls_using ps SELECT uid db r) t.

(** The new version of an updated row must pass the UPDATE policies' WITH
    CHECK and, the statement having a WHERE clause, stay readable. *)
Definition admits (ps : list (policy row)) : expr row :=
  fun uid db r => rls_check ps UPDATE uid db r && rls_using ps SELECT uid db r.

(** UPDATE: unreachable rows are skipped silently; a reachable row whose new
    version is not admitted, or breaks a key constraint ([valid old new]),
    aborts the statement. *)
Fixpoint rls_update (ps : list (policy row)) (uid : uuid) (db : database)
    (where_ : row -> bool) (set : row -> row) (valid : row -> row -> bool)
    (t : list row) : response (list row) :=
  match t with
  | [] => Data []
  | r :: t' =>
      if where_ r && reachable ps UPDATE uid db r then
        if negb (admits ps uid db (set r)) then Error rls_violation
        else if negb (valid r (set r)) then Error constraint_violation
        else map_response (cons (set r))
                          (rls_update ps uid db where_ set valid t')
      else map_response (cons r) (rls_update ps uid db where_ set valid t')
  end.

(** The rows an UPDATE rewrites, and what it makes of each row. *)
Definition touched (ps : list (policy row)) (uid : uuid) (db : database)
    (where_ : row -> bool) (r : row) : bool :=
  where_ r && reachable ps UPDATE uid db r.

Definition rewritten (ps : list (policy row)) (uid : uuid) (db : database)
    (where_ : row -> bool) (set : row -> row) (r : row) : row :=
  if touched ps uid db where_ r then set r else r.

(** DELETE: only reachable rows are removed, the rest stay, silently. *)
Definition rls_delete (ps : list (policy row)) (uid : uuid) (db : database)
    (where_ : row -> bool) (t : list row) : list row :=
  filter (fun r => negb (where_ r && reachable ps DELETE uid db r)) t.

End Evaluation.

End RLS.
Import RLS.

(** ** The policies of the migration *)

Module Policies.

(** [EXISTS (SELECT 1 FROM profiles WHERE id = auth.uid() AND role = 'admin')].
    Profiles and land records are readable by every authenticated caller
    (policies "Users can read all profiles", "Anyone can read land records"),
    so the sub-selects of the policies see whole tables. *)
Definition is_admin (uid : uuid) (db : database) : bool :=
  existsb (fun p => String.eqb (p_id p) uid && String.eqb (p_role p) "admin")
          (profiles db).

(** [EXISTS (SELECT 1 FROM land_records lr
            WHERE lr.id = land_record_id AND lr.owner_id = auth.uid())] *)
Definition owns_referenced_land (uid : uuid) (db : database)
    (land_record_id : option uuid) : bool :=
  existsb (fun lr => sql_eq (Some (lr_id lr)) land_record_id
                     && sql_eq (lr_owner_id lr) (Some uid))
          (land_records db).

Definition land_records_policies : list (policy land_record) :=
  [ {| pol_name := "Anyone can read land records";
       pol_for := FOR SELECT;
       pol_using := Some (fun _ _ _ => true);
       pol_with_check := None |};
    {| pol_name := "Admins can manage all land records";
       pol_for := FOR_ALL;
       pol_using := Some (fun uid db _ => is_admin uid db);
       pol_with_check := None |};
    {| pol_name := "Landowners can manage their own land records";
       pol_for := FOR_ALL;
       pol_using := Some (fun uid db lr =>
         sql_eq (lr_owner_id lr) (Some uid) || is_admin uid db);
       pol_with_check := None |} ].

Definition ownership_documents_policies : list (policy ownership_document) :=
  [ {| pol_name := "Users can read documents for their land";
       pol_for := FOR SELECT;
       pol_using := Some (fun uid db d =>
         sql_eq (od_submitted_by d) (Some uid)
         || owns_referenced_land uid db (od_land_record_id d)
         || is_admin uid db);
       pol_with_check := None |};
    {| pol_name := "Users can insert documents for their land";
       pol_for := FOR INSERT;
       pol_using := None;
       pol_with_check := Some (fun uid db d =>
         sql_eq (od_submitted_by d) (Some uid)
         && owns_referenced_land uid db (od_land_record_id d)) |};
    {| pol_name := "Admins can manage all documents";
       pol_for := FOR_ALL;
       pol_using := Some (fun uid db _ => is_admin uid db);
       pol_with_check := None |} ].

Definition notifications_policies : list (policy notification) :=
  [ {| pol_name := "Users can read their own notifications";
       pol_for := FOR SELECT;
       pol_using := Some (fun uid _ n => sql_eq (n_user_id n) (Some uid));
       pol_with_check := None |};
    {| pol_name := "Users can update their own notifications";
       pol_for := FOR UPDATE;
       pol_using := Some (fun uid _ n => sql_eq (n_user_id n) (Some uid));
       pol_with_check := None |};
    {| pol_name := "System can create notifications";
       pol_for := FOR INSERT;
       pol_using := None;
       pol_with_check := Some (fun _ _ _ => true) |} ].

(** The condition for inserting a document as the specification words it, to
    be compared with what the policies compute. *)
Definition may_insert_document (uid : uuid) (db : database)
    (d : ownership_document) : Prop :=
  is_admin uid db = true
  \/ (od_submitted_by d = Some uid
      /\ exists lr, In lr (land_records db)
                    /\ od_land_record_id d = Some (lr_id lr)
                    /\ lr_owner_id lr = Some uid).

(** *** Tables without a screen of their own *)

Definition profiles_policies : list (policy profile) :=
  [ {| pol_name := "Users can read all profiles";
       pol_for := FOR SELECT;
       pol_using := Some (fun _ _ _ => true);
       pol_with_check := None |};
    {| pol_name := "Users can update own profile";
       pol_for := FOR UPDATE;
       pol_using := Some (fun uid _ p => String.eqb uid (p_id p));
       pol_with_check := None |};
    {| pol_name := "Users can insert own profile";
       pol_for := FOR INSERT;
       pol_using := None;
       pol_with_check := Some (fun uid _ p => String.eqb uid (p_id p)) |} ].

Record zoning_law := {
  z_id : uuid;
  z_zone_type : string;
  z_description : string;
  z_regulations : string;
  z_created_at : timestamptz
}.

Definition zoning_laws_policies : list (policy zoning_law) :=
  [ {| pol_name := "Anyone can read zoning laws";
       pol_for := FOR SELECT;
       pol_using := Some (fun _ _ _ => true);
       pol_with_check := None |};
    {| pol_name := "Admins can manage zoning laws";
       pol_for := FOR_ALL;
       pol_using := Some (fun uid db _ => is_admin uid db);
       pol_with_check := None |} ].

Inductive transaction_type := sale | transfer | inheritance.
Inductive transaction_status :=
  tx_pending | tx_approved | tx_completed | tx_cancelled.

Record transaction := {
  t_id : uuid;
  t_land_record_id : option uuid;
  t_from_owner : option uuid;
  t_to_owner : option uuid;
  t_transaction_type : transaction_type;
  t_amount : option number;
  t_status : transaction_status;
  t_approved_by : option uuid;
  t_created_at : timestamptz
}.

Definition transactions_policies : list (policy transaction) :=
  [ {| pol_name := "Users can read their transactions";
       pol_for := FOR SELECT;
       pol_using := Some (fun uid db t =>
         sql_eq (t_from_owner t) (Some uid)
         || sql_eq (t_to_owner t) (Some uid)
         || is_admin uid db);
       pol_with_check := None |};
    {| pol_name := "Users can create transactions";
       pol_for := FOR INSERT;
       pol_using := None;
       pol_with_check := Some (fun uid _ t =>
         sql_eq (t_from_owner t) (Some uid)
         || sql_eq (t_to_owner t) (Some uid)) |};
    {| pol_name := "Admins can manage all transactions";
       pol_for := FOR_ALL;
       pol_using := Some (fun uid db _ => is_admin uid db);
       pol_with_check := None |} ].

End Policies.
Import Policies.

(** ** Statements as the REST layer executes them *)

Module Backend.

(** What the server contributes to a new row: [gen_random_uuid()], [now()]. *)
Record server := { gen_random_uuid : uuid; now : timestamptz }.

Definition has_profile (db : database) (id : uuid) : bool :=
  existsb (fun p => String.eqb (p_id p) id) (profiles db).

Definition has_land_record (db : database) (id : uuid) : bool :=
  existsb (fun lr => String.eqb (lr_id lr) id) (land_records db).

Definition has_document_of (db : database) (land : uuid) : bool :=
  existsb (fun d => sql_eq (od_land_record_id d) (Some land))
          (ownership_documents db).

(** [REFERENCES t(id)] on a nullable column. *)
Definition references (present : uuid -> bool) (c : option uuid) : bool :=
  match c with
  | None => true
  | Some id => present id
  end.

Definition same_ref (a b : option uuid) : bool :=
  match a, b with
  | None, None => true
  | Some x, Some y => String.eqb x y
  | _, _ => false
  end.

(** On UPDATE a foreign key is looked up again only when its column changed,
    and the primary key only when the id changed. *)
Definition fk_update (present : uuid -> bool) (old new : option uuid) : bool :=
  same_ref old new || references present new.

Definition pk_update (ids : list uuid) (old new : uuid) : bool :=
  String.eqb old new || negb (existsb (String.eqb new) ids).

Definition or_default {A} (c : option A) (d : A) : A :=
  match c with Some a => a | None => d end.

(** *** ownership_documents *)

Record ownership_document_insert := {
  odi_id : option uuid;
  odi_land_record_id : option uuid;
  odi_document_type : document_type;
  odi_document_url : string;
  odi_status : option document_status;
  odi_submitted_by : option uuid;
  odi_reviewed_by : option uuid;
  odi_notes : option string;
  odi_created_at : option timestamptz
}.

Definition ownership_document_row (srv : server)
    (i : ownership_document_insert) : ownership_document :=
  {| od_id := or_default (odi_id i) (gen_random_uuid srv);
     od_land_record_id := odi_land_record_id i;
     od_document_type := odi_document_type i;
     od_document_url := odi_document_url i;
     od_status := or_default (odi_status i) doc_pending;
     od_submitted_by := odi_submitted_by i;
     od_reviewed_by := odi_reviewed_by i;
     od_notes := odi_notes i;
     od_created_at := or_default (odi_created_at i) (now srv) |}.

Definition ownership_documents_pkey (db : database)
    (d : ownership_document) : bool :=
  negb (existsb (fun d' => String.eqb (od_id d') (od_id d))
                (ownership_documents db)).

Definition ownership_documents_fkeys (db : database)
    (d : ownership_document) : bool :=
  references (has_land_record db) (od_land_record_id d)
  && references (has_profile db) (od_submitted_by d)
  && references (has_profile db) (od_reviewed_by d).

Definition insert_ownership_document (srv : server) (uid : uuid)
    (db : database) (i : ownership_document_insert) : response database :=
  let d := ownership_document_row srv i in
  if negb (rls_check ownership_documents_policies INSERT uid db d) then
    Error rls_violation
  else if negb (ownership_documents_pkey db d) then
    Error "duplicate key value violates unique constraint ownership_documents_pkey"
  else if negb (ownership_documents_fkeys db d) then
    Error "insert on table ownership_documents violates foreign key constraint"
  else
    Data (with_ownership_documents db (ownership_documents db ++ [d])).

Definition ownership_document_valid (db : database)
    (old new : ownership_document) : bool :=
  pk_update (map od_id (ownership_documents db)) (od_id old) (od_id new)
  && fk_update (has_land_record db) (od_land_record_id old)
               (od_land_record_id new)
  && fk_update (has_profile db) (od_submitted_by old) (od_submitted_by new)
  && fk_update (has_profile db) (od_reviewed_by old) (od_reviewed_by new).

Definition update_ownership_documents (uid : uuid) (db : database)
    (where_ : ownership_document -> bool)
    (set : ownership_document -> ownership_document) : response database :=
  map_response (with_ownership_documents db)
    (rls_update ownership_documents_policies uid db where_ set
                (ownership_document_valid db) (ownership_documents db)).

(** *** land_records *)

(** [lri_size] is what JSON carries for the NOT NULL column [size]: a number,
    or null. *)
Record land_record_insert := {
  lri_id : option uuid;
  lri_title : string;
  lri_location : string;
  lri_coordinates : option string;
  lri_size : option number;
  lri_size_unit : option string;
  lri_ownership_status : option ownership_status;
  lri_zoning : string;
  lri_price : option number;
  lri_description : option string;
  lri_owner_id : option uuid;
  lri_verified_by : option uuid;
  lri_created_at : option timestamptz;
  lri_updated_at : option timestamptz
}.

Definition land_record_row (srv : server) (i : land_record_insert)
    (size : number) : land_record :=
  {| lr_id := or_default (lri_id i) (gen_random_uuid srv);
     lr_title := lri_title i;
     lr_location := lri_location i;
     lr_coordinates := lri_coordinates i;
     lr_size := size;
     lr_size_unit := or_default (lri_size_unit i) "acres";
     lr_ownership_status := or_default (lri_ownership_status i) pending;
     lr_zoning := lri_zoning i;
     lr_price := lri_price i;
     lr_description := lri_description i;
     lr_owner_id := lri_owner_id i;
     lr_verified_by := lri_verified_by i;
     lr_created_at := or_default (lri_created_at i) (now srv);
     lr_updated_at := or_default (lri_updated_at i) (now srv) |}.

Definition land_records_fkeys (db : database) (lr : land_record) : bool :=
  references (has_profile db) (lr_owner_id lr)
  && references (has_profile db) (lr_verified_by lr).

Definition insert_land_record (srv : server) (uid : uuid) (db : database)
    (i : land_record_insert) : response database :=
  match lri_size i with
  | None => Error "null value in column size violates not-null constraint"
  | Some size =>
      let lr := land_record_row srv i size in
      if negb (rls_check land_records_policies INSERT uid db lr) then
        Error rls_violation
      else if has_land_record db (lr_id lr) then
        Error "duplicate key value violates unique constraint land_records_pkey"
      else if negb (land_records_fkeys db lr) then
        Error "insert on table land_records violates foreign key constraint"
      else Data (with_land_records db (land_records db ++ [lr]))
  end.

(** A land record's id may change only to an unused one, and only while no
    ownership document references it. *)
Definition land_record_valid (db : database) (old new : land_record) : bool :=
  pk_update (map lr_id (land_records db)) (lr_id old) (lr_id new)
  && (String.eqb (lr_id old) (lr_id new)
      || negb (has_document_of db (lr_id old)))
  && fk_update (has_profile db) (lr_owner_id old) (lr_owner_id new)
  && fk_update (has_profile db) (lr_verified_by old) (lr_verified_by new).

Definition update_land_records (uid : uuid) (db : database)
    (where_ : land_record -> bool) (set : land_record -> land_record)
    : response database :=
  map_response (with_land_records db)
    (rls_update land_records_policies uid db where_ set
                (land_record_valid db) (land_records db)).

(** *** notifications *)

Record notification_insert := {
  ni_id : option uuid;
  ni_user_id : option uuid;
  ni_title : string;
  ni_message : string;
  ni_type : option notification_type;
  ni_read : option bool;
  ni_created_at : option timestamptz
}.

Definition notification_row (srv : server) (i : notification_insert)
    : notification :=
  {| n_id := or_default (ni_id i) (gen_random_uuid srv);
     n_user_id := ni_user_id i;
     n_title := ni_title i;
     n_message := ni_message i;
     n_type := or_default (ni_type i) info;
     n_read := Some (or_default (ni_read i) false);
     n_created_at := or_default (ni_created_at i) (now srv) |}.

Definition insert_notification (srv : server) (uid : uuid) (db : database)
    (i : notification_insert) : response database :=
  let n := notification_row srv i in
  if negb (rls_check notifications_policies INSERT uid db n) then
    Error rls_violation
  else if existsb (fun n' => String.eqb (n_id n') (n_id n)) (notifications db)
  then Error "duplicate key value violates unique constraint notifications_pkey"
  else if negb (references (has_profile db) (n_user_id n)) then
    Error "insert on table notifications violates foreign key constraint"
  else Data (with_notifications db (notifications db ++ [n])).

Definition notification_valid (db : database) (old new : notification) : bool :=
  pk_update (map n_id (notifications db)) (n_id old) (n_id new)
  && fk_update (has_profile db) (n_user_id old) (n_user_id new).

Definition update_notifications (uid : uuid) (db : database)
    (where_ : notification -> bool) (set : notification -> notification)
    : response database :=
  map_response (with_notifications db)
    (rls_update notifications_policies uid db where_ set
                (notification_valid db) (notifications db)).

(** A DELETE never errors on this table: nothing references it. *)
Definition delete_notifications (uid : uuid) (db : database)
    (where_ : notification -> bool) : response database :=
  Data (with_notifications db
          (rls_delete notifications_policies uid db where_ (notifications db))).

(** [ORDER BY key DESC].  The server leaves the order of rows with equal
    keys open; here they come in the order of the list. *)
Fixpoint insert_desc {A} (key : A -> Z) (x : A) (l : list A) : list A :=
  match l with
  | [] => [x]
  | y :: l' =>
      if (key x <? key y)%Z then y :: insert_desc key x l' else x :: y :: l'
  end.

Definition order_desc {A} (key : A -> Z) (l : list A) : list A :=
  fold_right (insert_desc key) [] l.

(** *** profiles *)

Definition with_profiles (db : database) (t : list profile) : database :=
  {| profiles := t; land_records := land_records db;
     ownership_documents := ownership_documents db;
     notifications := notifications db |}.

(** [CHECK (role IN ('admin', 'landowner', 'public'))] *)
Definition role_allowed (role : string) : bool :=
  String.eqb role "admin" || String.eqb role "landowner"
  || String.eqb role "public".

(** [id] has no default; [created_at] has. *)
Record profile_insert := {
  pi_id : uuid;
  pi_email : string;
  pi_full_name : string;
  pi_role : string;
  pi_phone : option string;
  pi_created_at : option timestamptz
}.

Definition profile_row (srv : server) (i : profile_insert) : profile :=
  {| p_id := pi_id i; p_email := pi_email i; p_full_name := pi_full_name i;
     p_role := pi_role i; p_phone := pi_phone i;
     p_created_at := or_default (pi_created_at i) (now srv) |}.

(** The reference of [id] to the authentication service's users holds for
    every row that passes the policy: its id is the signed-in caller's. *)
Definition insert_profile (srv : server) (uid : uuid) (db : database)
    (i : profile_insert) : response database :=
  let p := profile_row srv i in
  if negb (rls_check profiles_policies INSERT uid db p) then
    Error rls_violation
  else if negb (role_allowed (p_role p)) then
    Error "new row for relation profiles violates check constraint"
  else if has_profile db (p_id p) then
    Error "duplicate key value violates unique constraint profiles_pkey"
  else Data (with_profiles db (profiles db ++ [p])).

Definition profile_valid (db : database) (old new : profile) : bool :=
  pk_update (map p_id (profiles db)) (p_id old) (p_id new)
  && role_allowed (p_role new).

Definition update_profiles (uid : uuid) (db : database)
    (where_ : profile -> bool) (set : profile -> profile) : response database :=
  map_response (with_profiles db)
    (rls_update profiles_policies uid db where_ set (profile_valid db)
                (profiles db)).

(** *** Deleting land records *)

(** [land_record_id uuid REFERENCES land_records(id) ON DELETE CASCADE]: the
    documents of a deleted land record go with it, whoever could read them
    (and so would its transactions, a table not kept here). *)
Definition deleted_lands (uid : uuid) (db : database)
    (where_ : land_record -> bool) : list land_record :=
  filter (fun lr => where_ lr && reachable land_records_policies DELETE uid db lr)
         (land_records db).

Definition refers_to (gone : list land_record) (d : ownership_document) : bool :=
  existsb (fun lr => sql_eq (od_land_record_id d) (Some (lr_id lr))) gone.

Definition delete_land_records (uid : uuid) (db : database)
    (where_ : land_record -> bool) : response database :=
  Data {| profiles := profiles db;
          land_records :=
            rls_delete land_records_policies uid db where_ (land_records db);
          ownership_documents :=
            filter (fun d => negb (refers_to (deleted_lands uid db where_) d))
                   (ownership_documents db);
          notifications := notifications db |}.

End Backend.
Import Backend.

(** ** The JavaScript the screens rely on *)

Module Js.

(** Built-ins of the platform whose results the screens only pass on. *)
Class Runtime := {
  parseFloat : string -> number;
  toLowerCase : string -> string
}.

(** Truthiness of a string and of a number. *)
Definition truthy_string (s : string) : bool := negb (String.eqb s "").

Definition truthy_number (x : number) : bool :=
  negb (PrimFloat.eqb x 0%float || PrimFloat.is_nan x).

(** [a || b] on strings, [s || null]. *)
Definition or_else (a b : string) : string := if truthy_string a then a else b.

Definition or_null (s : string) : option string :=
  if truthy_string s then Some s else None.

(** [s.includes(sub)] *)
Fixpoint includes (s sub : string) : bool :=
  String.prefix sub s
  || match s with
     | EmptyString => false
     | String _ s' => includes s' sub
     end.

(** [a >= b] and [a <= b] on numbers: false as soon as one side is NaN. *)
Definition ge (a b : number) : bool := PrimFloat.leb b a.
Definition le (a b : number) : bool := PrimFloat.leb a b.

(** JSON.stringify writes NaN and the infinities as null, and negative zero
    as 0. *)
Definition json_number (x : number) : option number :=
  if PrimFloat.is_nan x || PrimFloat.is_infinity x then None
  else if PrimFloat.eqb x 0%float then Some 0%float
  else Some x.

(** A template literal prints a missing value as [undefined]. *)
Definition interpolate (s : option string) : string :=
  match s with
  | Some v => v
  | None => "undefined"
  end.

End Js.
Import Js.

(** ** The client and what the user sees of it *)

Module Client.

Inductive ui_event :=
| Alert (title message : string)
| ConsoleError (label : string)
| Request (table : string) (c : command).

(** The world a handler runs in: the signed-in identity ([auth.uid()] of its
    token), the stored tables, the values the server draws for the next
    inserted row, the fate of the coming requests on the network ([Some m]: the
    request fails with message [m] before it reaches the tables; none left:
    delivered), and what has happened so far. *)
Record world := {
  w_uid : uuid;
  w_db : database;
  w_server : server;
  w_net : list (option string);
  w_log : list ui_event
}.

Definition log (e : ui_event) (w : world) : world :=
  {| w_uid := w_uid w; w_db := w_db w; w_server := w_server w;
     w_net := w_net w; w_log := w_log w ++ [e] |}.

Definition sent (table : string) (c : command) (w : world) : world :=
  {| w_uid := w_uid w; w_db := w_db w; w_server := w_server w;
     w_net := tl (w_net w); w_log := w_log w ++ [Request table c] |}.

Definition store (db : database) (w : world) : world :=
  {| w_uid := w_uid w; w_db := db; w_server := w_server w;
     w_net := w_net w; w_log := w_log w |}.

(** [await supabase.from(table).select(..)...] *)
Definition query {A} (table : string)
    (q : uuid -> database -> response A) (w : world) : response A * world :=
  match hd None (w_net w) with
  | Some m => (Error m, sent table SELECT w)
  | None => (q (w_uid w) (w_db w), sent table SELECT w)
  end.

(** [await supabase.from(table).insert(..)], [.update(..)], [.delete()] *)
Definition mutate (table : string) (c : command)
    (stmt : uuid -> database -> response database) (w : world)
    : response unit * world :=
  match hd None (w_net w) with
  | Some m => (Error m, sent table c w)
  | None =>
      match stmt (w_uid w) (w_db w) with
      | Data db' => (Data tt, store db' (sent table c w))
      | Error m => (Error m, sent table c w)
      end
  end.


(** What a handler, started in [w], added to the log. *)
Definition trace_of {S} (w : world) (r : S * world) : list ui_event :=
  skipn (length (w_log w)) (w_log (snd r)).

Definition alerts (l : list ui_event) : list (string * string) :=
  flat_map (fun e => match e with Alert t m => [(t, m)] | _ => [] end) l.

Definition requests (l : list ui_event) : list (string * command) :=
  flat_map (fun e => match e with Request t c => [(t, c)] | _ => [] end) l.


End Client.
Import Client.

(** ** Notifications screen *)

Module NotificationsScreen.

Record state := {
  ns_notifications : list notification;
  ns_loading : bool
}.

(** [.select('*').eq('user_id', profile?.id).order('created_at', desc)];
    an undefined id is no uuid, and the statement is refused. *)
Definition select_notifications (user_id : option uuid) (uid : uuid)
    (db : database) : response (list notification) :=
  match user_id with
  | None => Error "invalid input syntax for type uuid"
  | Some id =>
      Data (order_desc n_created_at
              (rls_select notifications_policies uid db
                 (fun n => sql_eq (n_user_id n) (Some id)) (notifications db)))
  end.

Definition fetchNotifications (profile : option profile) (st : state)
    (w : world) : state * world :=
  let '(r, w1) :=
    query "notifications" (select_notifications (option_map p_id profile)) w in
  match r with
  | Data data => ({| ns_notifications := data; ns_loading := false |}, w1)
  | Error _ =>
      ({| ns_notifications := ns_notifications st; ns_loading := false |},
       log (Alert "Error" "Failed to load notifications")
           (log (ConsoleError "Error fetching notifications:") w1))
  end.

(** [{ ...notif, read: true }] and the patch [{ read: true }] *)
Definition mark_read (n : notification) : notification :=
  {| n_id := n_id n; n_user_id := n_user_id n; n_title := n_title n;
     n_message := n_message n; n_type := n_type n; n_read := Some true;
     n_created_at := n_created_at n |}.

Definition with_list (st : state) (l : list notification) : state :=
  {| ns_notifications := l; ns_loading := ns_loading st |}.

Definition markAsRead (notificationId : uuid) (st : state) (w : world)
    : state * world :=
  let '(r, w1) :=
    mutate "notifications" UPDATE
      (fun uid db =>
         update_notifications uid db
           (fun n => String.eqb (n_id n) notificationId) mark_read) w in
  match r with
  | Data _ =>
      (with_list st
         (map (fun notif =>
                 if String.eqb (n_id notif) notificationId
                 then mark_read notif else notif)
              (ns_notifications st)), w1)
  | Error _ =>
      (st, log (ConsoleError "Error marking notification as read:") w1)
  end.

Definition deleteNotification (notificationId : uuid) (st : state)
    (w : world) : state * world :=
  let '(r, w1) :=
    mutate "notifications" DELETE
      (fun uid db =>
         delete_notifications uid db
           (fun n => String.eqb (n_id n) notificationId)) w in
  match r with
  | Data _ =>
      (with_list st
         (filter (fun notif => negb (String.eqb (n_id notif) notificationId))
                 (ns_notifications st)), w1)
  | Error _ =>
      (st, log (Alert "Error" "Failed to delete notification")
               (log (ConsoleError "Error deleting notification:") w1))
  end.

(** [!n.read]: a null flag counts as unread. *)
Definition unread (n : notification) : bool :=
  negb (or_default (n_read n) false).

Definition unread_ids (l : list notification) : list uuid :=
  map n_id (filter unread l).

Definition id_in (ids : list uuid) (n : notification) : bool :=
  existsb (String.eqb (n_id n)) ids.

Definition markAllAsRead (st : state) (w : world) : state * world :=
  let unreadIds := unread_ids (ns_notifications st) in
  match unreadIds with
  | [] => (st, w)
  | _ :: _ =>
      let '(r, w1) :=
        mutate "notifications" UPDATE
          (fun uid db => update_notifications uid db (id_in unreadIds) mark_read)
          w in
      match r with
      | Data _ => (with_list st (map mark_read (ns_notifications st)), w1)
      | Error _ =>
          (st, log (Alert "Error" "Failed to mark all notifications as read")
                   (log (ConsoleError "Error marking all as read:") w1))
      end
  end.

(** What the statement of markAllAsRead makes of a stored row. *)
Definition marked (uid : uuid) (ids : list uuid) (n : notification)
    : notification :=
  if id_in ids n && sql_eq (n_user_id n) (Some uid) then mark_read n else n.

(** [notifications.filter(n => !n.read).length]; the mark-all button and the
    counter are rendered when it is positive. *)
Definition unreadCount (st : state) : nat :=
  length (filter unread (ns_notifications st)).

End NotificationsScreen.

(** ** Rows with their embedded resources *)

Module Views.

(** [land_records (id, title, location)] *)
Record land_ref := { l_id : uuid; l_title : string; l_location : string }.

(** [profiles:column (id, full_name, email)] *)
Record profile_ref := { pr_id : uuid; pr_full_name : string; pr_email : string }.

Definition land_ref_of (lr : land_record) : land_ref :=
  {| l_id := lr_id lr; l_title := lr_title lr; l_location := lr_location lr |}.

Definition profile_ref_of (p : profile) : profile_ref :=
  {| pr_id := p_id p; pr_full_name := p_full_name p; pr_email := p_email p |}.

(** The row a many-to-one embedding resolves to, if the caller can read it. *)
Definition embed_land (uid : uuid) (db : database) (id : option uuid)
    : option land_ref :=
  option_map land_ref_of
    (hd_error (rls_select land_records_policies uid db
                 (fun lr => sql_eq (Some (lr_id lr)) id) (land_records db))).

(** Every authenticated caller reads all profiles. *)
Definition embed_profile (db : database) (id : option uuid)
    : option profile_ref :=
  option_map profile_ref_of
    (find (fun p => sql_eq (Some (p_id p)) id) (profiles db)).

Record document := {
  doc_row : ownership_document;
  doc_land_records : option land_ref;
  doc_profiles : option profile_ref
}.

Record land := {
  land_row : land_record;
  land_profiles : option profile_ref
}.

Definition document_of (uid : uuid) (db : database) (d : ownership_document)
    : document :=
  {| doc_row := d;
     doc_land_records := embed_land uid db (od_land_record_id d);
     doc_profiles := embed_profile db (od_submitted_by d) |}.

Definition land_of (db : database) (lr : land_record) : land :=
  {| land_row := lr; land_profiles := embed_profile db (lr_owner_id lr) |}.

End Views.
Import Views.

(** ** Admin screen: documents *)

Module AdminDocumentsScreen.

Inductive filter_ := all | only (s : document_status).

Inductive action := approved | rejected.

Record state := {
  ad_documents : list document;
  ad_loading : bool;
  ad_filter : filter_
}.

Definition status_eqb (a b : document_status) : bool :=
  match a, b with
  | doc_pending, doc_pending | doc_approved, doc_approved
  | doc_rejected, doc_rejected => true
  | _, _ => false
  end.

Definition matches (f : filter_) (d : ownership_document) : bool :=
  match f with
  | all => true
  | only s => status_eqb (od_status d) s
  end.

Definition select_documents (f : filter_) (uid : uuid) (db : database)
    : response (list document) :=
  Data (map (document_of uid db)
          (order_desc od_created_at
             (rls_select ownership_documents_policies uid db (matches f)
                         (ownership_documents db)))).

Definition fetchDocuments (st : state) (w : world) : state * world :=
  let '(r, w1) := query "ownership_documents" (select_documents (ad_filter st)) w in
  match r with
  | Data data =>
      ({| ad_documents := data; ad_loading := false;
          ad_filter := ad_filter st |}, w1)
  | Error _ =>
      ({| ad_documents := ad_documents st; ad_loading := false;
          ad_filter := ad_filter st |},
       log (Alert "Error" "Failed to load documents")
           (log (ConsoleError "Error fetching documents:") w1))
  end.

Definition action_status (a : action) : document_status :=
  match a with approved => doc_approved | rejected => doc_rejected end.

Definition action_text (a : action) : string :=
  match a with approved => "approved" | rejected => "rejected" end.

Definition document_type_text (t : document_type) : string :=
  match t with
  | deed => "deed" | survey => "survey"
  | certificate => "certificate" | other => "other"
  end.

(** [{ status: action, reviewed_by: profile?.id, notes: notes || null }];
    an undefined [reviewed_by] is left out of the patch. *)
Definition review (a : action) (reviewed_by : option uuid) (notes : option string)
    (d : ownership_document) : ownership_document :=
  {| od_id := od_id d;
     od_land_record_id := od_land_record_id d;
     od_document_type := od_document_type d;
     od_document_url := od_document_url d;
     od_status := action_status a;
     od_submitted_by := od_submitted_by d;
     od_reviewed_by :=
       match reviewed_by with Some id => Some id | None => od_reviewed_by d end;
     od_notes := match notes with Some s => or_null s | None => None end;
     od_created_at := od_created_at d |}.

Definition notification_for (a : action) (document : document)
    : notification_insert :=
  {| ni_id := None;
     ni_user_id := od_submitted_by (doc_row document);
     ni_title := "Document " ++ action_text a;
     ni_message :=
       "Your " ++ document_type_text (od_document_type (doc_row document))
       ++ " document for "
       ++ interpolate (option_map l_title (doc_land_records document))
       ++ " has been " ++ action_text a ++ ".";
     ni_type := Some (match a with approved => success | rejected => warning end);
     ni_read := None;
     ni_created_at := None |}.

(** The list searched for the document is the one the handler was created
    with, not the one the re-fetch it starts brings back; the outcome of the
    notification insert is not looked at. *)
Definition handleDocumentAction (profile : option profile) (documentId : uuid)
    (a : action) (notes : option string) (st : state) (w : world)
    : state * world :=
  let '(r, w1) :=
    mutate "ownership_documents" UPDATE
      (fun uid db =>
         update_ownership_documents uid db
           (fun d => String.eqb (od_id d) documentId)
           (review a (option_map p_id profile) notes)) w in
  match r with
  | Error m =>
      (st, log (Alert "Error" (or_else m "Failed to update document"))
               (log (ConsoleError "Error updating document:") w1))
  | Data _ =>
      let w2 :=
        log (Alert "Success" ("Document " ++ action_text a ++ " successfully"))
            w1 in
      let '(st3, w3) := fetchDocuments st w2 in
      match find (fun doc => String.eqb (od_id (doc_row doc)) documentId)
                 (ad_documents st) with
      | Some document =>
          let '(_, w4) :=
            mutate "notifications" INSERT
              (fun uid db =>
                 insert_notification (w_server w3) uid db
                                     (notification_for a document)) w3 in
          (st3, w4)
      | None => (st3, w3)
      end
  end.

(** What the review statement makes of a stored document. *)
Definition reviewed (documentId : uuid) (a : action) (reviewed_by : option uuid)
    (notes : option string) (d : ownership_document) : ownership_document :=
  if String.eqb (od_id d) documentId then review a reviewed_by notes d else d.

End AdminDocumentsScreen.

(** ** The add-land form, shared by the landowner and the admin screens *)

Module LandForm.

Record form_data := {
  title : string;
  location : string;
  coordinates : string;
  size : string;
  size_unit : string;
  zoning : string;
  price : string;
  description : string
}.

Definition resetForm : form_data :=
  {| title := ""; location := ""; coordinates := ""; size := "";
     size_unit := "acres"; zoning := ""; price := ""; description := "" |}.

(** [!formData.title || !formData.location || !formData.size || !formData.zoning] *)
Definition incomplete (f : form_data) : bool :=
  negb (truthy_string (title f)) || negb (truthy_string (location f))
  || negb (truthy_string (size f)) || negb (truthy_string (zoning f)).

Section Payload.
Context `{Runtime}.

(** The fields both screens send alike. *)
Definition payload (f : form_data) (owner_id verified_by : option uuid)
    (status : ownership_status) : land_record_insert :=
  {| lri_id := None;
     lri_title := title f;
     lri_location := location f;
     lri_coordinates := or_null (coordinates f);
     lri_size := json_number (parseFloat (size f));
     lri_size_unit := Some (size_unit f);
     lri_ownership_status := Some status;
     lri_zoning := zoning f;
     lri_price :=
       if truthy_string (price f) then json_number (parseFloat (price f))
       else None;
     lri_description := or_null (description f);
     lri_owner_id := owner_id;
     lri_verified_by := verified_by;
     lri_created_at := None;
     lri_updated_at := None |}.

End Payload.

End LandForm.
Import LandForm.

(** ** Landowner screen: dashboard *)

Module LandownerDashboard.

Record state := {
  ld_lands : list land_record;
  ld_loading : bool;
  ld_showAddModal : bool;
  ld_formData : form_data
}.

(** [.select('*').eq('owner_id', profile?.id).order('created_at', desc)] *)
Definition select_my_lands (owner_id : option uuid) (uid : uuid)
    (db : database) : response (list land_record) :=
  match owner_id with
  | None => Error "invalid input syntax for type uuid"
  | Some id =>
      Data (order_desc lr_created_at
              (rls_select land_records_policies uid db
                 (fun lr => sql_eq (lr_owner_id lr) (Some id))
                 (land_records db)))
  end.

Definition fetchMyLands (profile : option profile) (st : state) (w : world)
    : state * world :=
  let '(r, w1) :=
    query "land_records" (select_my_lands (option_map p_id profile)) w in
  match r with
  | Data data =>
      ({| ld_lands := data; ld_loading := false;
          ld_showAddModal := ld_showAddModal st;
          ld_formData := ld_formData st |}, w1)
  | Error _ =>
      ({| ld_lands := ld_lands st; ld_loading := false;
          ld_showAddModal := ld_showAddModal st;
          ld_formData := ld_formData st |},
       log (Alert "Error" "Failed to load your land records")
           (log (ConsoleError "Error fetching lands:") w1))
  end.

Section Handlers.
Context `{Runtime}.

(** [{ ..., owner_id: profile?.id, ownership_status: 'pending' }] *)
Definition new_land (profile : option profile) (f : form_data)
    : land_record_insert :=
  payload f (option_map p_id profile) None pending.

Definition handleAddLand (profile : option profile) (st : state) (w : world)
    : state * world :=
  if incomplete (ld_formData st) then
    (st, log (Alert "Error" "Please fill in all required fields") w)
  else
    let '(r, w1) :=
      mutate "land_records" INSERT
        (fun uid db =>
           insert_land_record (w_server w) uid db
                              (new_land profile (ld_formData st))) w in
    match r with
    | Error m =>
        (st, log (Alert "Error" (or_else m "Failed to add land record"))
                 (log (ConsoleError "Error adding land:") w1))
    | Data _ =>
        fetchMyLands profile
          {| ld_lands := ld_lands st; ld_loading := ld_loading st;
             ld_showAddModal := false; ld_formData := resetForm |}
          (log (Alert "Success" "Land record submitted for verification") w1)
    end.

End Handlers.

Record stats := {
  total : nat;
  n_verified : nat;
  n_pending : nat;
  n_disputed : nat
}.

Definition has_status (s : ownership_status) (l : land_record) : bool :=
  match lr_ownership_status l, s with
  | verified, verified | pending, pending | disputed, disputed => true
  | _, _ => false
  end.

(** [{ total: lands.length,
       verified: lands.filter(l => l.ownership_status === 'verified').length,
       pending: ..., disputed: ... }] *)
Definition dashboard_stats (st : state) : stats :=
  {| total := length (ld_lands st);
     n_verified := length (filter (has_status verified) (ld_lands st));
     n_pending := length (filter (has_status pending) (ld_lands st));
     n_disputed := length (filter (has_status disputed) (ld_lands st)) |}.

End LandownerDashboard.

(** ** Landowner screen: documents *)

Module LandownerDocumentsScreen.

Record doc_form := {
  df_land_record_id : string;
  df_document_type : document_type;
  df_document_url : string;
  df_notes : string
}.

Definition resetForm : doc_form :=
  {| df_land_record_id := ""; df_document_type := deed;
     df_document_url := ""; df_notes := "" |}.

Record state := {
  dd_documents : list document;
  dd_myLands : list land_record;
  dd_loading : bool;
  dd_showAddModal : bool;
  dd_formData : doc_form
}.

Definition with_documents (st : state) (l : list document) (loading : bool)
    : state :=
  {| dd_documents := l; dd_myLands := dd_myLands st; dd_loading := loading;
     dd_showAddModal := dd_showAddModal st; dd_formData := dd_formData st |}.

(** [.select('*, land_records (..)').eq('submitted_by', profile?.id)
     .order('created_at', desc)] *)
Definition select_my_documents (submitted_by : option uuid) (uid : uuid)
    (db : database) : response (list document) :=
  match submitted_by with
  | None => Error "invalid input syntax for type uuid"
  | Some id =>
      Data (map (fun d =>
                   {| doc_row := d;
                      doc_land_records := embed_land uid db (od_land_record_id d);
                      doc_profiles := None |})
              (order_desc od_created_at
                 (rls_select ownership_documents_policies uid db
                    (fun d => sql_eq (od_submitted_by d) (Some id))
                    (ownership_documents db))))
  end.

Definition fetchDocuments (profile : option profile) (st : state) (w : world)
    : state * world :=
  let '(r, w1) :=
    query "ownership_documents"
          (select_my_documents (option_map p_id profile)) w in
  match r with
  | Data data => (with_documents st data false, w1)
  | Error _ =>
      (with_documents st (dd_documents st) false,
       log (Alert "Error" "Failed to load documents")
           (log (ConsoleError "Error fetching documents:") w1))
  end.

(** [.select('*').eq('owner_id', profile?.id).order('title')] *)
Fixpoint insert_by_title (x : land_record) (l : list land_record)
    : list land_record :=
  match l with
  | [] => [x]
  | y :: l' =>
      if String.ltb (lr_title y) (lr_title x) then y :: insert_by_title x l'
      else x :: y :: l'
  end.

Definition select_my_lands (owner_id : option uuid) (uid : uuid)
    (db : database) : response (list land_record) :=
  match owner_id with
  | None => Error "invalid input syntax for type uuid"
  | Some id =>
      Data (fold_right insert_by_title []
              (rls_select land_records_policies uid db
                 (fun lr => sql_eq (lr_owner_id lr) (Some id))
                 (land_records db)))
  end.

(** No alert here, and no [finally]. *)
Definition fetchMyLands (profile : option profile) (st : state) (w : world)
    : state * world :=
  let '(r, w1) :=
    query "land_records" (select_my_lands (option_map p_id profile)) w in
  match r with
  | Data data =>
      ({| dd_documents := dd_documents st; dd_myLands := data;
          dd_loading := dd_loading st; dd_showAddModal := dd_showAddModal st;
          dd_formData := dd_formData st |}, w1)
  | Error _ => (st, log (ConsoleError "Error fetching lands:") w1)
  end.

(** [{ land_record_id, document_type, document_url,
       submitted_by: profile?.id, notes: notes || null }] *)
Definition new_document (profile : option profile) (f : doc_form)
    : ownership_document_insert :=
  {| odi_id := None;
     odi_land_record_id := Some (df_land_record_id f);
     odi_document_type := df_document_type f;
     odi_document_url := df_document_url f;
     odi_status := None;
     odi_submitted_by := option_map p_id profile;
     odi_reviewed_by := None;
     odi_notes := or_null (df_notes f);
     odi_created_at := None |}.

Definition handleSubmitDocument (profile : option profile) (st : state)
    (w : world) : state * world :=
  if negb (truthy_string (df_land_record_id (dd_formData st)))
     || negb (truthy_string (df_document_url (dd_formData st))) then
    (st, log (Alert "Error"
                    "Please select a land record and provide document URL") w)
  else
    let '(r, w1) :=
      mutate "ownership_documents" INSERT
        (fun uid db =>
           insert_ownership_document (w_server w) uid db
                                     (new_document profile (dd_formData st))) w in
    match r with
    | Error m =>
        (st, log (Alert "Error" (or_else m "Failed to submit document"))
                 (log (ConsoleError "Error submitting document:") w1))
    | Data _ =>
        fetchDocuments profile
          {| dd_documents := dd_documents st; dd_myLands := dd_myLands st;
             dd_loading := dd_loading st; dd_showAddModal := false;
             dd_formData := resetForm |}
          (log (Alert "Success" "Document submitted for review") w1)
    end.

Record stats := {
  total : nat;
  n_approved : nat;
  n_pending : nat;
  n_rejected : nat
}.

Definition has_status (s : document_status) (d : document) : bool :=
  AdminDocumentsScreen.status_eqb (od_status (doc_row d)) s.

(** [{ total: documents.length,
       approved: documents.filter(d => d.status === 'approved').length,
       pending: ..., rejected: ... }] *)
Definition documents_stats (st : state) : stats :=
  {| total := length (dd_documents st);
     n_approved := length (filter (has_status doc_approved) (dd_documents st));
     n_pending := length (filter (has_status doc_pending) (dd_documents st));
     n_rejected := length (filter (has_status doc_rejected) (dd_documents st)) |}.

End LandownerDocumentsScreen.

(** ** Admin screen: lands *)

Module AdminLandsScreen.

Record state := {
  al_lands : list land;
  al_loading : bool;
  al_showAddModal : bool;
  al_formData : form_data
}.

Inductive verdict := set_verified | set_disputed.

Definition verdict_status (v : verdict) : ownership_status :=
  match v with set_verified => verified | set_disputed => disputed end.

Definition verdict_text (v : verdict) : string :=
  match v with set_verified => "verified" | set_disputed => "disputed" end.

(** [.select('*, profiles:owner_id (..)').order('created_at', desc)] *)
Definition select_lands (uid : uuid) (db : database) : response (list land) :=
  Data (map (land_of db)
          (order_desc lr_created_at
             (rls_select land_records_policies uid db (fun _ => true)
                         (land_records db)))).

Definition fetchLands (st : state) (w : world) : state * world :=
  let '(r, w1) := query "land_records" select_lands w in
  match r with
  | Data data =>
      ({| al_lands := data; al_loading := false;
          al_showAddModal := al_showAddModal st;
          al_formData := al_formData st |}, w1)
  | Error _ =>
      ({| al_lands := al_lands st; al_loading := false;
          al_showAddModal := al_showAddModal st;
          al_formData := al_formData st |},
       log (Alert "Error" "Failed to load land records")
           (log (ConsoleError "Error fetching lands:") w1))
  end.

(** [{ ownership_status: status, verified_by: profile?.id,
       updated_at: new Date().toISOString() }] *)
Definition verify (v : verdict) (verifier : option uuid) (clock : timestamptz)
    (lr : land_record) : land_record :=
  {| lr_id := lr_id lr; lr_title := lr_title lr; lr_location := lr_location lr;
     lr_coordinates := lr_coordinates lr; lr_size := lr_size lr;
     lr_size_unit := lr_size_unit lr;
     lr_ownership_status := verdict_status v;
     lr_zoning := lr_zoning lr; lr_price := lr_price lr;
     lr_description := lr_description lr; lr_owner_id := lr_owner_id lr;
     lr_verified_by :=
       match verifier with Some id => Some id | None => lr_verified_by lr end;
     lr_created_at := lr_created_at lr; lr_updated_at := clock |}.

Definition handleVerifyLand (profile : option profile) (clock : timestamptz)
    (landId : uuid) (v : verdict) (st : state) (w : world) : state * world :=
  let '(r, w1) :=
    mutate "land_records" UPDATE
      (fun uid db =>
         update_land_records uid db (fun lr => String.eqb (lr_id lr) landId)
                             (verify v (option_map p_id profile) clock)) w in
  match r with
  | Error m =>
      (st, log (Alert "Error" (or_else m "Failed to update land record"))
               (log (ConsoleError "Error updating land:") w1))
  | Data _ =>
      fetchLands st
        (log (Alert "Success"
                    ("Land record " ++ verdict_text v ++ " successfully")) w1)
  end.

Section Handlers.
Context `{Runtime}.

(** [{ ..., verified_by: profile?.id, ownership_status: 'verified' }] *)
Definition new_land (profile : option profile) (f : form_data)
    : land_record_insert :=
  payload f None (option_map p_id profile) verified.

Definition handleAddLand (profile : option profile) (st : state) (w : world)
    : state * world :=
  if incomplete (al_formData st) then
    (st, log (Alert "Error" "Please fill in all required fields") w)
  else
    let '(r, w1) :=
      mutate "land_records" INSERT
        (fun uid db =>
           insert_land_record (w_server w) uid db
                              (new_land profile (al_formData st))) w in
    match r with
    | Error m =>
        (st, log (Alert "Error" (or_else m "Failed to add land record"))
                 (log (ConsoleError "Error adding land:") w1))
    | Data _ =>
        fetchLands
          {| al_lands := al_lands st; al_loading := al_loading st;
             al_showAddModal := false; al_formData := resetForm |}
          (log (Alert "Success" "Land record added successfully") w1)
    end.

End Handlers.

(** The button pressed in a two-button dialog. *)
Inductive choice := dismiss | confirm.

Definition double_quote : string := String (ascii_of_nat 34) EmptyString.

Definition delete_question (landTitle : string) : string :=
  "Are you sure you want to delete " ++ double_quote ++ landTitle
  ++ double_quote ++ "? This action cannot be undone.".

(** The dialog is shown first; only its Delete button reaches the tables. *)
Definition handleDeleteLand (pressed : choice) (landId landTitle : string)
    (st : state) (w : world) : state * world :=
  let w0 := log (Alert "Delete Land Record" (delete_question landTitle)) w in
  match pressed with
  | dismiss => (st, w0)
  | confirm =>
      let '(r, w1) :=
        mutate "land_records" DELETE
          (fun uid db =>
             delete_land_records uid db
               (fun lr => String.eqb (lr_id lr) landId)) w0 in
      match r with
      | Error m =>
          (st, log (Alert "Error" (or_else m "Failed to delete land record"))
                   (log (ConsoleError "Error deleting land:") w1))
      | Data _ =>
          fetchLands st
            (log (Alert "Success" "Land record deleted successfully") w1)
      end
  end.

Section Search.
Context `{Runtime}.

(** [lands.filter(land => land.title.toLowerCase().includes(..) || ..)],
    computed at every render, with no test of the query being empty. *)
Definition filteredLands (lands : list land) (searchQuery : string)
    : list land :=
  filter (fun land =>
            includes (toLowerCase (lr_title (land_row land)))
                     (toLowerCase searchQuery)
            || includes (toLowerCase (lr_location (land_row land)))
                        (toLowerCase searchQuery)
            || includes (toLowerCase (lr_zoning (land_row land)))
                        (toLowerCase searchQuery))
         lands.

End Search.

End AdminLandsScreen.

(** ** Public screen: search *)

Module PublicSearchScreen.

Record filters := {
  minPrice : string;
  maxPrice : string;
  minSize : string;
  maxSize : string;
  f_zoning : string;
  f_status : string
}.

Definition no_filters : filters :=
  {| minPrice := ""; maxPrice := ""; minSize := ""; maxSize := "";
     f_zoning := ""; f_status := "verified" |}.

Record state := {
  ps_lands : list land;
  ps_filteredLands : list land;
  ps_loading : bool;
  ps_searchQuery : string;
  ps_filters : filters
}.

Definition is_verified (lr : land_record) : bool :=
  match lr_ownership_status lr with verified => true | _ => false end.

(** [.select('*, profiles:owner_id (..)').eq('ownership_status', 'verified')
     .order('created_at', desc)] *)
Definition select_verified (uid : uuid) (db : database) : response (list land) :=
  Data (map (land_of db)
          (order_desc lr_created_at
             (rls_select land_records_policies uid db is_verified
                         (land_records db)))).

Definition fetchLands (st : state) (w : world) : state * world :=
  let '(r, w1) := query "land_records" select_verified w in
  match r with
  | Data data =>
      ({| ps_lands := data; ps_filteredLands := ps_filteredLands st;
          ps_loading := false; ps_searchQuery := ps_searchQuery st;
          ps_filters := ps_filters st |}, w1)
  | Error _ =>
      ({| ps_lands := ps_lands st; ps_filteredLands := ps_filteredLands st;
          ps_loading := false; ps_searchQuery := ps_searchQuery st;
          ps_filters := ps_filters st |},
       log (Alert "Error" "Failed to load land records")
           (log (ConsoleError "Error fetching lands:") w1))
  end.

Section Filtering.
Context `{Runtime}.

Definition search_hit (searchQuery : string) (l : land) : bool :=
  includes (toLowerCase (lr_title (land_row l))) (toLowerCase searchQuery)
  || includes (toLowerCase (lr_location (land_row l))) (toLowerCase searchQuery)
  || includes (toLowerCase (lr_zoning (land_row l))) (toLowerCase searchQuery).

(** [land.price && land.price >= parseFloat(filters.minPrice)] *)
Definition price_at_least (bound : string) (l : land) : bool :=
  match lr_price (land_row l) with
  | None => false
  | Some p => truthy_number p && ge p (parseFloat bound)
  end.

Definition price_at_most (bound : string) (l : land) : bool :=
  match lr_price (land_row l) with
  | None => false
  | Some p => truthy_number p && le p (parseFloat bound)
  end.

Definition size_at_least (bound : string) (l : land) : bool :=
  ge (lr_size (land_row l)) (parseFloat bound).

Definition size_at_most (bound : string) (l : land) : bool :=
  le (lr_size (land_row l)) (parseFloat bound).

Definition zoning_hit (z : string) (l : land) : bool :=
  includes (toLowerCase (lr_zoning (land_row l))) (toLowerCase z).

(** [if (text) filtered = filtered.filter(test)] *)
Definition filter_if (text : string) (test : string -> land -> bool)
    (filtered : list land) : list land :=
  if truthy_string text then filter (test text) filtered else filtered.

Definition filtered_lands (lands : list land) (searchQuery : string)
    (f : filters) : list land :=
  let filtered := lands in
  let filtered := filter_if searchQuery search_hit filtered in
  let filtered := filter_if (minPrice f) price_at_least filtered in
  let filtered := filter_if (maxPrice f) price_at_most filtered in
  let filtered := filter_if (minSize f) size_at_least filtered in
  let filtered := filter_if (maxSize f) size_at_most filtered in
  let filtered := filter_if (f_zoning f) zoning_hit filtered in
  filtered.

Definition applyFilters (st : state) : state :=
  {| ps_lands := ps_lands st;
     ps_filteredLands :=
       filtered_lands (ps_lands st) (ps_searchQuery st) (ps_filters st);
     ps_loading := ps_loading st; ps_searchQuery := ps_searchQuery st;
     ps_filters := ps_filters st |}.

End Filtering.

Definition clearFilters (st : state) : state :=
  {| ps_lands := ps_lands st; ps_filteredLands := ps_filteredLands st;
     ps_loading := ps_loading st; ps_searchQuery := ps_searchQuery st;
     ps_filters := no_filters |}.

(** [land?.owner_id] as a condition. *)
Definition owner_of (l : option land) : option uuid :=
  match l with
  | Some l' =>
      match lr_owner_id (land_row l') with
      | Some o => if truthy_string o then Some o else None
      | None => None
      end
  | None => None
  end.

Definition verification_request (profile : option profile) (owner : uuid)
    (l : land) : notification_insert :=
  {| ni_id := None;
     ni_user_id := Some owner;
     ni_title := "Ownership Verification Request";
     ni_message :=
       interpolate (option_map p_full_name profile)
       ++ " has requested ownership verification for your land: "
       ++ lr_title (land_row l);
     ni_type := Some info;
     ni_read := None;
     ni_created_at := None |}.

Definition verification_question : string :=
  "This will send a request to verify the ownership of this land. The owner will be notified.".

(** The dialog is shown first; its Send Request button looks the land up in
    the screen's list and, if it has an owner, inserts the notification and
    reports success without looking at the insert's outcome. *)
Definition requestOwnershipVerification (pressed : AdminLandsScreen.choice)
    (profile : option profile) (landId : uuid) (st : state) (w : world)
    : state * world :=
  let w0 := log (Alert "Request Ownership Verification" verification_question) w in
  match pressed with
  | AdminLandsScreen.dismiss => (st, w0)
  | AdminLandsScreen.confirm =>
      let land :=
        find (fun l => String.eqb (lr_id (land_row l)) landId) (ps_lands st) in
      match land, owner_of land with
      | Some l, Some owner =>
          let '(_, w1) :=
            mutate "notifications" INSERT
              (fun uid db =>
                 insert_notification (w_server w0) uid db
                                     (verification_request profile owner l)) w0 in
          (st, log (Alert "Success" "Verification request sent to the land owner")
                   w1)
      | _, _ => (st, w0)
      end
  end.

End PublicSearchScreen.

(** ** Authentication provider *)

Module AuthProvider.

Record user := { u_id : uuid }.
Record session := { s_user : user }.

(** The provider's four state cells, and the number of [fetchProfile] calls
    whose query is still awaited. *)
Record state := {
  a_session : option session;
  a_user : option user;
  a_profile : option profile;
  a_loading : bool;
  a_fetching : nat
}.

Definition initial : state :=
  {| a_session := None; a_user := None; a_profile := None;
     a_loading := true; a_fetching := 0 |}.

(** How the query of [fetchProfile] ends: a row, an error in the reply, or an
    exception. *)
Inductive fetch_outcome := Fetched (data : profile) | Refused | Thrown.

(** What the provider reacts to: the two ways the initial [getSession] ends,
    a call of the [onAuthStateChange] listener (sign-in, sign-out and token
    refresh all arrive this way: [signIn], [signUp] and [signOut] write none
    of the state cells themselves), the point where [updateProfile], its
    update done, re-fetches the profile, and the end of a profile query. *)
Inductive event :=
| SessionResolved (s : option session)
| SessionRejected
| AuthStateChange (s : option session)
| ProfileUpdated
| ProfileFetchSettled (o : fetch_outcome).

Definition setSession (s : option session) (st : state) : state :=
  {| a_session := s; a_user := option_map s_user s;
     a_profile := a_profile st; a_loading := a_loading st;
     a_fetching := a_fetching st |}.

Definition setProfile (p : option profile) (st : state) : state :=
  {| a_session := a_session st; a_user := a_user st; a_profile := p;
     a_loading := a_loading st; a_fetching := a_fetching st |}.

Definition setLoading (b : bool) (st : state) : state :=
  {| a_session := a_session st; a_user := a_user st;
     a_profile := a_profile st; a_loading := b;
     a_fetching := a_fetching st |}.

(** [fetchProfile] up to its [await]: [setLoading(true)], query sent. *)
Definition fetchProfile_start (st : state) : state :=
  {| a_session := a_session st; a_user := a_user st;
     a_profile := a_profile st; a_loading := true;
     a_fetching := S (a_fetching st) |}.

(** [fetchProfile] from its [await] on: [setProfile(data)] unless the query
    failed, then [finally { setLoading(false) }]. *)
Definition fetchProfile_settle (o : fetch_outcome) (st : state) : state :=
  let st1 :=
    match o with
    | Fetched data => setProfile (Some data) st
    | Refused | Thrown => st
    end in
  {| a_session := a_session st1; a_user := a_user st1;
     a_profile := a_profile st1; a_loading := false;
     a_fetching := pred (a_fetching st1) |}.

(** One reaction; [None] when the event cannot occur in the state (a settling
    fetch that was never started).  [updateProfile] tests [user] before it
    awaits its update and calls [fetchProfile] with the id it read then, so
    its re-fetch can arrive in any state, also after a sign-out. *)
Definition react (st : state) (e : event) : option state :=
  match e with
  | SessionResolved s =>
      let st1 := setSession s st in
      match a_user st1 with
      | Some _ => Some (fetchProfile_start st1)
      | None => Some (setLoading false st1)
      end
  | SessionRejected => Some (setLoading false st)
  | AuthStateChange s =>
      let st1 := setSession s st in
      match a_user st1 with
      | Some _ => Some (fetchProfile_start st1)
      | None => Some (setLoading false (setProfile None st1))
      end
  | ProfileUpdated => Some (fetchProfile_start st)
  | ProfileFetchSettled o =>
      match a_fetching st with
      | O => None
      | S _ => Some (fetchProfile_settle o st)
      end
  end.

Fixpoint run (st : state) (es : list event) : option state :=
  match es with
  | [] => Some st
  | e :: es' =>
      match react st e with
      | Some st' => run st' es'
      | None => None
      end
  end.

(** The events that bring a session with a user. *)
Definition carries_user (e : event) : bool :=
  match e with
  | SessionResolved (Some _) | AuthStateChange (Some _) => true
  | _ => false
  end.

End AuthProvider.
Import AuthProvider.

(** ** Index screen: the role router *)

Module IndexScreen.

Inductive route := auth_ | admin_ | landowner_ | public_.

Definition path (r : route) : string :=
  match r with
  | auth_ => "/auth"
  | admin_ => "/(admin)"
  | landowner_ => "/(landowner)"
  | public_ => "/(public)"
  end.

(** The body of the effect: the route handed to [router.replace], if any. *)
Definition redirect (loading : bool) (session : option session)
    (profile : option profile) : option route :=
  if loading then None
  else
    match session, profile with
    | Some _, Some p =>
        if String.eqb (p_role p) "admin" then Some admin_
        else if String.eqb (p_role p) "landowner" then Some landowner_
        else if String.eqb (p_role p) "public" then Some public_
        else Some auth_
    | _, _ => Some auth_
    end.

(** What is rendered: an activity indicator with a caption, either way. *)
Inductive view := Spinner (caption : string).

Definition render (loading : bool) : view :=
  if loading then Spinner "Loading..." else Spinner "Redirecting...".

Definition IndexScreen (st : AuthProvider.state) : view * option route :=
  (render (a_loading st),
   redirect (a_loading st) (a_session st) (a_profile st)).

End IndexScreen.
Import IndexScreen.

(** ** Sample data *)

Module Fixtures.

Definition lower (c : ascii) : ascii :=
  let n := nat_of_ascii c in
  if ((65 <=? n) && (n <=? 90))%nat then ascii_of_nat (n + 32) else c.

Definition digit (c : ascii) : option number :=
  match nat_of_ascii c - 48, (48 <=? nat_of_ascii c)%nat with
  | 0, true => Some 0%float | 1, _ => Some 1%float | 2, _ => Some 2%float
  | 3, _ => Some 3%float | 4, _ => Some 4%float | 5, _ => Some 5%float
  | 6, _ => Some 6%float | 7, _ => Some 7%float | 8, _ => Some 8%float
  | 9, _ => Some 9%float | _, _ => None
  end.

Fixpoint digits (acc : number) (s : string) : number :=
  match s with
  | EmptyString => acc
  | String c s' =>
      match digit c with
      | Some d => digits (PrimFloat.add (PrimFloat.mul acc 10%float) d) s'
      | None => acc
      end
  end.

(** A runtime for the examples: ASCII case folding, and a [parseFloat] that
    reads a leading unsigned decimal integer (NaN when there is none). *)
#[local] Instance ascii_runtime : Runtime := {
  parseFloat s :=
    match s with
    | EmptyString => PrimFloat.nan
    | String c _ =>
        match digit c with
        | Some _ => digits 0%float s
        | None => PrimFloat.nan
        end
    end;
  toLowerCase s := string_of_list_ascii (map lower (list_ascii_of_string s))
}.

Definition srv0 : server := {| gen_random_uuid := "new"; now := 100%Z |}.

Definition mk_profile (id role : string) : profile :=
  {| p_id := id; p_email := id ++ "@example.org"; p_full_name := id;
     p_role := role; p_phone := None; p_created_at := 0%Z |}.

Definition mk_land (id title : string) (owner : option uuid)
    (st : ownership_status) : land_record :=
  {| lr_id := id; lr_title := title; lr_location := "Kano";
     lr_coordinates := None; lr_size := 2%float;
     lr_size_unit := "acres"; lr_ownership_status := st;
     lr_zoning := "Residential"; lr_price := Some 500%float;
     lr_description := None;
     lr_owner_id := owner; lr_verified_by := None;
     lr_created_at := 1%Z; lr_updated_at := 1%Z |}.

Definition mk_doc (id : uuid) (land by_ : option uuid) (st : document_status)
    : ownership_document :=
  {| od_id := id; od_land_record_id := land; od_document_type := deed;
     od_document_url := "https://files/deed.pdf"; od_status := st;
     od_submitted_by := by_; od_reviewed_by := None; od_notes := None;
     od_created_at := 2%Z |}.

Definition mk_doc_insert (land by_ : option uuid) : ownership_document_insert :=
  {| odi_id := None; odi_land_record_id := land; odi_document_type := deed;
     odi_document_url := "https://files/deed.pdf"; odi_status := None;
     odi_submitted_by := by_; odi_reviewed_by := None; odi_notes := None;
     odi_created_at := None |}.

Definition mk_notification (id : uuid) (to : option uuid) (read : option bool)
    : notification :=
  {| n_id := id; n_user_id := to; n_title := "Document approved";
     n_message := "Your deed document for Plot A has been approved.";
     n_type := success; n_read := read; n_created_at := 3%Z |}.

(** One admin, two landowners; a pending parcel of the first landowner with a
    pending deed; three notifications, two of them for the first landowner. *)
Definition db0 : database :=
  {| profiles := [mk_profile "root" "admin"; mk_profile "u" "landowner";
                  mk_profile "v" "landowner"];
     land_records := [mk_land "plotA" "Plot A" (Some "u") pending];
     ownership_documents :=
       [mk_doc "deedA" (Some "plotA") (Some "u") doc_pending];
     notifications :=
       [mk_notification "n1" (Some "u") (Some false);
        mk_notification "n2" (Some "v") (Some false);
        mk_notification "n3" (Some "u") None] |}.

(** The patch [{ ownership_status: s }]. *)
Definition status_patch (s : ownership_status) (lr : land_record)
    : land_record :=
  {| lr_id := lr_id lr; lr_title := lr_title lr; lr_location := lr_location lr;
     lr_coordinates := lr_coordinates lr; lr_size := lr_size lr;
     lr_size_unit := lr_size_unit lr; lr_ownership_status := s;
     lr_zoning := lr_zoning lr; lr_price := lr_price lr;
     lr_description := lr_description lr; lr_owner_id := lr_owner_id lr;
     lr_verified_by := lr_verified_by lr; lr_created_at := lr_created_at lr;
     lr_updated_at := lr_updated_at lr |}.

(** The patch [{ role: r }]. *)
Definition role_patch (r : string) (p : profile) : profile :=
  {| p_id := p_id p; p_email := p_email p; p_full_name := p_full_name p;
     p_role := r; p_phone := p_phone p; p_created_at := p_created_at p |}.

Definition mk_form (title size price : string) : form_data :=
  {| title := title; location := "Kano"; coordinates := ""; size := size;
     size_unit := "acres"; zoning := "Residential"; price := price;
     description := "" |}.

Definition world0 (uid : uuid) (net : list (option string)) : world :=
  {| w_uid := uid; w_db := db0; w_server := srv0; w_net := net; w_log := [] |}.

End Fixtures.
Import Fixtures.

(** * Properties *)

(** ** Row-level security, in general *)

Section RlsFacts.
Context {row : Type}.
Variables (ps : list (policy row)) (uid : uuid) (db : database).
Variables (where_ : row -> bool) (set : row -> row).
Variable valid : row -> row -> bool.

Lemma rls_update_shape (t t' : list row) :
  rls_update ps uid db where_ set valid t = Data t' ->
  t' = map (rewritten ps uid db where_ set) t.
Proof.
  revert t'. induction t as [|r t IH]; intros t' Hu; simpl in Hu.
  - injection Hu as <-. reflexivity.
  - unfold rewritten at 1, touched. simpl.
    destruct (where_ r && reachable ps UPDATE uid db r).
    + destruct (admits ps uid db (set r)); simpl in Hu; [|discriminate].
      destruct (valid r (set r)); simpl in Hu; [|discriminate].
      destruct (rls_update ps uid db where_ set valid t) as [u|m];
        simpl in Hu; [|discriminate].
      injection Hu as <-. f_equal. apply IH. reflexivity.
    + destruct (rls_update ps uid db where_ set valid t) as [u|m];
        simpl in Hu; [|discriminate].
      injection Hu as <-. f_equal. apply IH. reflexivity.
Qed.

Lemma rls_update_accepts (t : list row) :
  (forall r, In r t -> touched ps uid db where_ r = true ->
             admits ps uid db (set r) = true /\ valid r (set r) = true) ->
  rls_update ps uid db where_ set valid t
  = Data (map (rewritten ps uid db where_ set) t).
Proof.
  induction t as [|r t IH]; intros Hok; simpl; [reflexivity|].
  unfold rewritten at 1, touched.
  rewrite IH by (intros r' Hin; apply Hok; right; exact Hin).
  destruct (where_ r && reachable ps UPDATE uid db r) eqn:Ht;
    [|reflexivity].
  destruct (Hok r (or_introl eq_refl) Ht) as [-> ->]. reflexivity.
Qed.

Lemma rls_delete_without_policy (t : list row) :
  (forall r, rls_using ps DELETE uid db r = false) ->
  rls_delete ps uid db where_ t = t.
Proof.
  intros Hno. unfold rls_delete, reachable.
  induction t as [|r t IH]; simpl; [reflexivity|].
  rewrite Hno, andb_false_r, andb_false_r. simpl. f_equal. exact IH.
Qed.

End RlsFacts.

Lemma sql_eq_true (a b : option uuid) :
  sql_eq a b = true <-> exists x, a = Some x /\ b = Some x.
Proof.
  destruct a as [x|], b as [y|]; simpl; split;
    try discriminate; try (intros (z & H1 & H2); discriminate).
  - intros H. apply String.eqb_eq in H. subst. eauto.
  - intros (z & H1 & H2). injection H1 as ->. injection H2 as ->.
    apply String.eqb_refl.
Qed.

Lemma sql_eq_some (a : option uuid) (x : uuid) :
  sql_eq a (Some x) = true <-> a = Some x.
Proof.
  rewrite sql_eq_true. split.
  - intros (y & Ha & Hy). injection Hy as <-. exact Ha.
  - intros Ha. eauto.
Qed.

Lemma Forall2_map_of {A} (R : A -> A -> Prop) (f : A -> A) (l : list A) :
  (forall x, In x l -> R x (f x)) -> Forall2 R l (map f l).
Proof.
  induction l as [|x l IH]; intros Hf; simpl; constructor.
  - apply Hf. left. reflexivity.
  - apply IH. intros y Hy. apply Hf. right. exact Hy.
Qed.

Lemma same_ref_refl (a : option uuid) : same_ref a a = true.
Proof. destruct a; simpl; [apply String.eqb_refl|reflexivity]. Qed.

Lemma pk_update_same (ids : list uuid) (id : uuid) : pk_update ids id id = true.
Proof. unfold pk_update. rewrite String.eqb_refl. reflexivity. Qed.

Lemma fk_update_same (present : uuid -> bool) (a : option uuid) :
  fk_update present a a = true.
Proof. unfold fk_update. rewrite same_ref_refl. reflexivity. Qed.

Lemma is_admin_has_profile (uid : uuid) (db : database) :
  is_admin uid db = true -> has_profile db uid = true.
Proof.
  unfold is_admin, has_profile. rewrite !existsb_exists.
  intros (p & Hin & H). apply andb_true_iff in H as [H _]. eauto.
Qed.

(** ** C1: inserting ownership documents *)

Lemma owns_referenced_land_true uid db l :
  owns_referenced_land uid db l = true <->
  exists lr, In lr (land_records db) /\ l = Some (lr_id lr)
             /\ lr_owner_id lr = Some uid.
Proof.
  unfold owns_referenced_land. rewrite existsb_exists. split.
  - intros (lr & Hin & H). apply andb_true_iff in H as [H1 H2].
    apply sql_eq_true in H1 as (x & Hx & Hl).
    apply sql_eq_some in H2.
    injection Hx as <-. eauto.
  - intros (lr & Hin & -> & Ho). exists lr. split; [exact Hin|].
    apply andb_true_iff. split; apply sql_eq_true; eauto.
Qed.

Lemma documents_insert_check uid db d :
  rls_check ownership_documents_policies INSERT uid db d = true <->
  may_insert_document uid db d.
Proof.
  unfold rls_check, may_insert_document. cbn.
  rewrite orb_false_r, orb_true_iff, andb_true_iff.
  rewrite sql_eq_some, owns_referenced_land_true. tauto.
Qed.

Lemma insert_document_accepted srv uid db i :
  accepted (insert_ownership_document srv uid db i) =
  rls_check ownership_documents_policies INSERT uid db
            (ownership_document_row srv i)
  && ownership_documents_pkey db (ownership_document_row srv i)
  && ownership_documents_fkeys db (ownership_document_row srv i).
Proof.
  unfold insert_ownership_document.
  destruct (rls_check _ _ _ _ _); simpl; [|reflexivity].
  destruct (ownership_documents_pkey _ _); simpl; [|reflexivity].
  destruct (ownership_documents_fkeys _ _); reflexivity.
Qed.

(** C1, as stated, fails: the admin [root] inserts a document whose
    [land_record_id] names no land record; the policies let it through and
    the foreign key of the column rejects it. *)
Lemma admin_insert_dangling_land_rejected :
  is_admin "root" db0 = true
  /\ accepted (insert_ownership_document srv0 "root" db0
                 (mk_doc_insert (Some "nowhere") (Some "root"))) = false.
Proof. split; reflexivity. Qed.

(** C1 (amended): an insert into ownership_documents passes row-level
    security if and only if the caller is an admin, or the row's submitted_by
    is the caller and its land_record_id names a land record whose owner_id is
    the caller; it is accepted if and only if it passes row-level security,
    its primary key is unused and its references are null or name existing
    rows; so a non-admin submitting a document for a land record they do not
    own is rejected. *)
Theorem insert_document_policy srv uid db i :
  let d := ownership_document_row srv i in
  (rls_check ownership_documents_policies INSERT uid db d = true
     <-> may_insert_document uid db d)
  /\ (accepted (insert_ownership_document srv uid db i) = true
     <-> may_insert_document uid db d
         /\ ownership_documents_pkey db d = true
         /\ ownership_documents_fkeys db d = true)
  /\ (accepted (insert_ownership_document srv uid db i) = false
     <-> ~ may_insert_document uid db d
         \/ ownership_documents_pkey db d = false
         \/ ownership_documents_fkeys db d = false)
  /\ (is_admin uid db = false ->
      owns_referenced_land uid db (od_land_record_id d) = false ->
      accepted (insert_ownership_document srv uid db i) = false).
Proof.
  intros d. pose proof (documents_insert_check uid db d) as Hc.
  split; [exact Hc|]. split; [|split].
  - rewrite insert_document_accepted. fold d.
    rewrite !andb_true_iff, Hc. tauto.
  - rewrite insert_document_accepted. fold d. rewrite <- Hc.
    destruct (rls_check ownership_documents_policies INSERT uid db d),
             (ownership_documents_pkey db d),
             (ownership_documents_fkeys db d); simpl; intuition congruence.
  - intros Ha Ho. rewrite insert_document_accepted. fold d.
    destruct (rls_check ownership_documents_policies INSERT uid db d) eqn:E;
      [|reflexivity].
    destruct (proj1 Hc eq_refl) as [Hadm|(_ & Hl)]; [congruence|].
    apply owns_referenced_land_true in Hl. congruence.
Qed.

(** The owner's insert goes through, another landowner's does not. *)
Example owner_inserts_document :
  accepted (insert_ownership_document srv0 "u" db0
              (mk_doc_insert (Some "plotA") (Some "u"))) = true
  /\ accepted (insert_ownership_document srv0 "v" db0
                 (mk_doc_insert (Some "plotA") (Some "v"))) = false.
Proof. split; reflexivity. Qed.

(** Through the landowner's documents screen: [v] submits a deed for the
    parcel of [u]; the insert is refused and the table keeps its one row. *)
Example stranger_submission_refused :
  let st :=
    {| LandownerDocumentsScreen.dd_documents := [];
       LandownerDocumentsScreen.dd_myLands := [];
       LandownerDocumentsScreen.dd_loading := false;
       LandownerDocumentsScreen.dd_showAddModal := true;
       LandownerDocumentsScreen.dd_formData :=
         {| LandownerDocumentsScreen.df_land_record_id := "plotA";
            LandownerDocumentsScreen.df_document_type := survey;
            LandownerDocumentsScreen.df_document_url := "https://files/s.pdf";
            LandownerDocumentsScreen.df_notes := "" |} |} in
  let w' :=
    snd (LandownerDocumentsScreen.handleSubmitDocument
           (Some (mk_profile "v" "landowner")) st (world0 "v" [])) in
  alerts (w_log w') = [("Error", rls_violation)]
  /\ map od_id (ownership_documents (w_db w')) = ["deedA"].
Proof. vm_compute. split; reflexivity. Qed.

(** ** Notifications: what the policies grant *)

Import NotificationsScreen.

Lemma notifications_select uid db n :
  rls_using notifications_policies SELECT uid db n
  = sql_eq (n_user_id n) (Some uid).
Proof. unfold rls_using. cbn. rewrite !orb_false_r. reflexivity. Qed.

Lemma notifications_update uid db n :
  rls_using notifications_policies UPDATE uid db n
  = sql_eq (n_user_id n) (Some uid).
Proof. unfold rls_using. cbn. rewrite !orb_false_r. reflexivity. Qed.

Lemma notifications_update_check uid db n :
  rls_check notifications_policies UPDATE uid db n
  = sql_eq (n_user_id n) (Some uid).
Proof. unfold rls_check. cbn. rewrite !orb_false_r. reflexivity. Qed.

Lemma notifications_insert_check uid db n :
  rls_check notifications_policies INSERT uid db n = true.
Proof. reflexivity. Qed.

Lemma notifications_delete uid db n :
  rls_using notifications_policies DELETE uid db n = false.
Proof. reflexivity. Qed.

Lemma with_notifications_same db : with_notifications db (notifications db) = db.
Proof. destruct db. reflexivity. Qed.

Lemma delete_notifications_noop uid db where_ :
  delete_notifications uid db where_ = Data db.
Proof.
  unfold delete_notifications.
  rewrite rls_delete_without_policy by (intros r; apply notifications_delete).
  rewrite with_notifications_same. reflexivity.
Qed.

(** ** C10: notifications cannot be deleted *)

(** C10: the policies of the notifications table let a caller read and
    update exactly the rows addressed to it and insert any row, and there is no
    policy for DELETE; so a delete statement of any authenticated caller
    removes no row, and deleteNotification leaves the stored tables as they
    were while (its request delivered) it drops the item from the screen's
    list. *)
Theorem notifications_never_deleted uid db where_ notificationId st w :
  (forall n, rls_using notifications_policies SELECT uid db n
             = sql_eq (n_user_id n) (Some uid))
  /\ (forall n, rls_using notifications_policies UPDATE uid db n
                = sql_eq (n_user_id n) (Some uid))
  /\ (forall n, rls_check notifications_policies INSERT uid db n = true)
  /\ filter (applies DELETE) notifications_policies = []
  /\ (forall n, rls_using notifications_policies DELETE uid db n = false)
  /\ delete_notifications uid db where_ = Data db
  /\ w_db (snd (deleteNotification notificationId st w)) = w_db w
  /\ ns_notifications (fst (deleteNotification notificationId st w))
     = match hd None (w_net w) with
       | None =>
           filter (fun notif => negb (String.eqb (n_id notif) notificationId))
                  (ns_notifications st)
       | Some _ => ns_notifications st
       end.
Proof.
  repeat split; intros;
    auto using notifications_select, notifications_update,
               notifications_delete, delete_notifications_noop.
  - unfold deleteNotification, mutate.
    destruct (hd None (w_net w)); [reflexivity|].
    rewrite delete_notifications_noop. reflexivity.
  - unfold deleteNotification, mutate.
    destruct (hd None (w_net w)); [reflexivity|].
    rewrite delete_notifications_noop. reflexivity.
Qed.

(** The first notification of [u] survives their own delete request. *)
Example delete_keeps_row :
  let '(st, w) :=
    deleteNotification "n1"
      {| ns_notifications := [mk_notification "n1" (Some "u") (Some false)];
         ns_loading := false |} (world0 "u" []) in
  ns_notifications st = [] /\ notifications (w_db w) = notifications db0
  /\ alerts (w_log w) = [].
Proof. repeat split. Qed.

(** ** C6: marking all notifications read *)

Lemma update_notifications_mark uid db ids :
  update_notifications uid db (id_in ids) mark_read
  = Data (with_notifications db (map (marked uid ids) (notifications db))).
Proof.
  unfold update_notifications.
  rewrite rls_update_accepts.
  - simpl. do 2 f_equal. apply map_ext. intros n.
    unfold rewritten, touched, reachable, marked.
    rewrite notifications_select, notifications_update.
    destruct (id_in ids n), (sql_eq (n_user_id n) (Some uid)); reflexivity.
  - intros n _ Ht. unfold touched, reachable in Ht.
    rewrite notifications_select, notifications_update in Ht.
    unfold admits. rewrite notifications_update_check, notifications_select.
    unfold notification_valid. simpl.
    rewrite pk_update_same, fk_update_same.
    destruct (sql_eq (n_user_id n) (Some uid)); [split; reflexivity|].
    rewrite !andb_false_r in Ht. discriminate.
Qed.

Lemma marked_nil uid (t : list notification) : map (marked uid []) t = t.
Proof. induction t as [|n t IH]; simpl; [|rewrite IH]; reflexivity. Qed.

Lemma id_in_true ids n : id_in ids n = true <-> In (n_id n) ids.
Proof.
  unfold id_in. rewrite existsb_exists. split.
  - intros (x & Hin & He). apply String.eqb_eq in He. subst. exact Hin.
  - intros Hin. exists (n_id n). split; [exact Hin|apply String.eqb_refl].
Qed.

Lemma unread_true (n : notification) :
  unread n = true <-> n_read n <> Some true.
Proof.
  unfold unread. destruct (n_read n) as [[|]|]; simpl; split;
    intros H; try reflexivity; try discriminate.
  contradiction H. reflexivity.
Qed.

Lemma unread_id_listed (l : list notification) (m n : notification) :
  In m l -> n_id m = n_id n -> n_read m <> Some true ->
  id_in (unread_ids l) n = true.
Proof.
  intros Hin Hid Hr. apply id_in_true. rewrite <- Hid. unfold unread_ids.
  apply in_map, filter_In. split; [exact Hin|]. apply unread_true. exact Hr.
Qed.

(** C6: markAllAsRead, run by the signed-in user with its request delivered,
    rewrites the stored notifications row by row: every row of that user
    whose id is that of an entry unread in the fetched list has read = true
    afterwards, every row of another user stays as it is, read changes in no
    row but to true, no field other than read changes in any row, and no
    other table changes; when the request fails no row changes. *)
Theorem mark_all_as_read_effect st w :
  let uid := w_uid w in
  let ids := unread_ids (ns_notifications st) in
  let db' := w_db (snd (markAllAsRead st w)) in
  (hd None (w_net w) = None ->
   Forall2 (fun n n' =>
              (n_user_id n = Some uid ->
               (exists m, In m (ns_notifications st) /\ n_id m = n_id n
                          /\ n_read m <> Some true) ->
               n_read n' = Some true)
              /\ (n_user_id n <> Some uid -> n' = n)
              /\ (n_read n' <> n_read n ->
                  n_read n' = Some true /\ n_user_id n = Some uid)
              /\ n_id n' = n_id n /\ n_user_id n' = n_user_id n
              /\ n_title n' = n_title n /\ n_message n' = n_message n
              /\ n_type n' = n_type n /\ n_created_at n' = n_created_at n)
           (notifications (w_db w)) (notifications db'))
  /\ notifications db'
     = match hd None (w_net w) with
       | None => map (marked uid ids) (notifications (w_db w))
       | Some _ => notifications (w_db w)
       end
  /\ (forall n, n_user_id n = Some uid -> In (n_id n) ids ->
                marked uid ids n = mark_read n /\ n_read (mark_read n) = Some true)
  /\ (forall n, n_user_id n <> Some uid -> marked uid ids n = n)
  /\ (forall n, let n' := marked uid ids n in
                n_id n' = n_id n /\ n_user_id n' = n_user_id n
                /\ n_title n' = n_title n /\ n_message n' = n_message n
                /\ n_type n' = n_type n /\ n_created_at n' = n_created_at n)
  /\ profiles db' = profiles (w_db w)
  /\ land_records db' = land_records (w_db w)
  /\ ownership_documents db' = ownership_documents (w_db w).
Proof.
  intros uid ids db'.
  assert (Hdb : db' = match ids, hd None (w_net w) with
                      | _ :: _, None =>
                          with_notifications (w_db w)
                            (map (marked uid ids) (notifications (w_db w)))
                      | _, _ => w_db w
                      end).
  { unfold db', markAllAsRead. fold ids. destruct ids as [|i ids'] eqn:E;
      [reflexivity|].
    unfold mutate. destruct (hd None (w_net w)); [reflexivity|].
    rewrite update_notifications_mark. reflexivity. }
  assert (Hrows : notifications db'
                  = match hd None (w_net w) with
                    | None => map (marked uid ids) (notifications (w_db w))
                    | Some _ => notifications (w_db w)
                    end).
  { rewrite Hdb. destruct ids; destruct (hd None (w_net w)); simpl;
      try reflexivity. symmetry. apply marked_nil. }
  assert (Hother : forall n, n_user_id n <> Some uid -> marked uid ids n = n).
  { intros n Hu. unfold marked.
    destruct (sql_eq (n_user_id n) (Some uid)) eqn:E.
    - apply sql_eq_some in E. contradiction.
    - rewrite andb_false_r. reflexivity. }
  split; [|split; [exact Hrows|split; [|split; [exact Hother|split]]]].
  - intros Hnet. rewrite Hrows, Hnet. apply Forall2_map_of. intros n _.
    split; [|split; [exact (Hother n)|split]].
    + intros Hu (m & Hin & Hid & Hr). unfold marked. fold ids.
      unfold ids at 1. rewrite (unread_id_listed _ m n Hin Hid Hr).
      apply sql_eq_some in Hu. rewrite Hu. reflexivity.
    + unfold marked.
      destruct (id_in ids n && sql_eq (n_user_id n) (Some uid)) eqn:E.
      * intros _. split; [reflexivity|].
        apply andb_true_iff in E as [_ E]. apply sql_eq_some. exact E.
      * intros Hne. contradiction Hne. reflexivity.
    + unfold marked.
      destruct (id_in ids n && sql_eq (n_user_id n) (Some uid));
        repeat split; reflexivity.
  - intros n Hu Hin. unfold marked.
    apply id_in_true in Hin. rewrite Hin.
    apply sql_eq_some in Hu. rewrite Hu. split; reflexivity.
  - intros n. unfold marked. simpl.
    destruct (id_in ids n && sql_eq (n_user_id n) (Some uid)); simpl;
      repeat split; reflexivity.
  - rewrite Hdb. destruct ids; destruct (hd None (w_net w)); simpl;
      repeat split; reflexivity.
Qed.

(** On the sample tables: both rows of [u] become read, the row of [v] stays
    unread. *)
Example mark_all_sample :
  map n_read
      (notifications (w_db (snd (markAllAsRead
         {| ns_notifications :=
              [mk_notification "n1" (Some "u") (Some false);
               mk_notification "n3" (Some "u") None];
            ns_loading := false |} (world0 "u" [])))))
  = [Some true; Some false; Some true].
Proof. reflexivity. Qed.

(** ** C2: reviewing a document notifies its submitter *)

Import AdminDocumentsScreen.

Lemma includes_unfold (s sub : string) :
  includes s sub
  = String.prefix sub s
    || match s with
       | EmptyString => false
       | String _ s' => includes s' sub
       end.
Proof. destruct s; reflexivity. Qed.

Lemma prefix_append (t y : string) : String.prefix t (t ++ y) = true.
Proof.
  induction t as [|c t IH]; simpl; [destruct y; reflexivity|].
  destruct (ascii_dec c c) as [_|Hne]; [exact IH|]. contradiction Hne.
  reflexivity.
Qed.

Lemma includes_skip (x s t : string) :
  includes s t = true -> includes (x ++ s) t = true.
Proof.
  intros Hs. induction x as [|c x IH]; simpl; [exact Hs|].
  rewrite IH. apply orb_true_r.
Qed.

Lemma includes_head (t y : string) : includes (t ++ y) t = true.
Proof. rewrite includes_unfold, prefix_append. reflexivity. Qed.

Lemma notification_mentions_title srv a doc l :
  doc_land_records doc = Some l ->
  includes (n_message (notification_row srv (notification_for a doc)))
           (l_title l) = true.
Proof.
  intros Hl. unfold notification_for, notification_row.
  cbn [n_message ni_message]. rewrite Hl. cbn [option_map interpolate].
  apply (includes_skip "Your "), includes_skip,
        (includes_skip " document for "), includes_head.
Qed.

(** The land record embedded in a fetched document is the stored one its
    [land_record_id] names. *)
Lemma embedded_land_stored uid db id l :
  embed_land uid db id = Some l ->
  exists lr, In lr (land_records db) /\ id = Some (lr_id lr)
             /\ l = land_ref_of lr.
Proof.
  unfold embed_land.
  destruct (rls_select land_records_policies uid db
              (fun lr => sql_eq (Some (lr_id lr)) id) (land_records db))
    as [|lr t] eqn:E; simpl; [discriminate|].
  intros Hl. injection Hl as <-.
  assert (Hin : In lr (lr :: t)) by (left; reflexivity).
  rewrite <- E in Hin. unfold rls_select in Hin.
  apply filter_In in Hin as [Hin Hw]. apply andb_true_iff in Hw as [Hw _].
  apply sql_eq_true in Hw as (x & Hx & Hid). injection Hx as <-.
  exists lr. repeat split; assumption.
Qed.

Lemma admin_reviews uid db documentId a reviewed_by notes :
  is_admin uid db = true ->
  references (has_profile db) reviewed_by = true ->
  update_ownership_documents uid db
    (fun d => String.eqb (od_id d) documentId) (review a reviewed_by notes)
  = Data (with_ownership_documents db
            (map (reviewed documentId a reviewed_by notes)
                 (ownership_documents db))).
Proof.
  intros Ha Hr. unfold update_ownership_documents.
  assert (Hreach : forall d,
             reachable ownership_documents_policies UPDATE uid db d = true).
  { intros d. unfold reachable, rls_using. cbn. rewrite Ha.
    rewrite !orb_true_r. reflexivity. }
  rewrite rls_update_accepts.
  - simpl. do 2 f_equal. apply map_ext. intros d.
    unfold rewritten, touched, reviewed. rewrite Hreach, andb_true_r.
    reflexivity.
  - intros d _ _. split.
    + unfold admits, rls_check, rls_using. cbn. rewrite Ha.
      rewrite !orb_true_r. reflexivity.
    + unfold ownership_document_valid. simpl.
      rewrite pk_update_same, !fk_update_same. simpl.
      unfold fk_update. destruct reviewed_by as [id|].
      * simpl in Hr. simpl. rewrite Hr. apply orb_true_r.
      * rewrite same_ref_refl. reflexivity.
Qed.

Lemma has_profile_with_documents db t :
  has_profile (with_ownership_documents db t) = has_profile db.
Proof. reflexivity. Qed.

Lemma find_by_id (l : list document) (doc : document) :
  In doc l ->
  NoDup (map (fun d => od_id (doc_row d)) l) ->
  find (fun d => String.eqb (od_id (doc_row d)) (od_id (doc_row doc))) l
  = Some doc.
Proof.
  induction l as [|d l IH]; intros Hin Hnd; [contradiction|].
  simpl in *. inversion Hnd as [|? ? Hnotin Hnd']; subst.
  destruct Hin as [->|Hin].
  - rewrite String.eqb_refl. reflexivity.
  - destruct (String.eqb (od_id (doc_row d)) (od_id (doc_row doc))) eqn:E.
    + apply String.eqb_eq in E. exfalso. apply Hnotin. rewrite E.
      apply (in_map (fun d => od_id (doc_row d))). exact Hin.
    + apply IH; assumption.
Qed.

Lemma handleDocumentAction_delivered profile a notes st w doc :
  w_net w = [] ->
  is_admin (w_uid w) (w_db w) = true ->
  references (has_profile (w_db w)) (option_map p_id profile) = true ->
  In doc (ad_documents st) ->
  NoDup (map (fun d => od_id (doc_row d)) (ad_documents st)) ->
  references (has_profile (w_db w)) (od_submitted_by (doc_row doc)) = true ->
  existsb (fun n => String.eqb (n_id n) (gen_random_uuid (w_server w)))
          (notifications (w_db w)) = false ->
  snd (handleDocumentAction profile (od_id (doc_row doc)) a notes st w)
  = {| w_uid := w_uid w;
       w_db :=
         with_notifications
           (with_ownership_documents (w_db w)
              (map (reviewed (od_id (doc_row doc)) a (option_map p_id profile)
                             notes)
                   (ownership_documents (w_db w))))
           (notifications (w_db w)
            ++ [notification_row (w_server w) (notification_for a doc)])%list;
       w_server := w_server w;
       w_net := [];
       w_log :=
         (w_log w
          ++ [Request "ownership_documents" UPDATE;
              Alert "Success" ("Document " ++ action_text a ++ " successfully");
              Request "ownership_documents" SELECT;
              Request "notifications" INSERT])%list |}.
Proof.
  intros Hnet Hadmin Hrev Hin Hnd Hsub Hfresh.
  destruct w as [uid db srv net lg]. simpl in *. subst net.
  unfold handleDocumentAction, mutate at 1. simpl.
  rewrite (admin_reviews _ _ (od_id (doc_row doc)) a _ notes Hadmin Hrev).
  unfold fetchDocuments, query. simpl.
  rewrite (find_by_id _ _ Hin Hnd).
  unfold mutate. simpl. unfold insert_notification.
  rewrite notifications_insert_check. simpl.
  rewrite Hfresh. simpl. rewrite has_profile_with_documents, Hsub.
  cbn [negb snd fst w_db store sent log notifications with_notifications
       with_ownership_documents ownership_documents w_log w_uid w_server
       w_net tl].
  unfold store, sent, log. simpl. rewrite <- !app_assoc. reflexivity.
Qed.

(** C2: when the signed-in admin marks a document of the review list approved
    or rejected (requests delivered), the stored document takes that status and
    exactly one notification row is inserted; its user_id is the document's
    submitted_by; on approval its type is success and its message contains
    the title of the document's land record, on rejection its type is
    warning. *)
Theorem document_action_notifies profile a notes st w doc :
  w_net w = [] ->
  is_admin (w_uid w) (w_db w) = true ->
  references (has_profile (w_db w)) (option_map p_id profile) = true ->
  In doc (ad_documents st) ->
  NoDup (map (fun d => od_id (doc_row d)) (ad_documents st)) ->
  references (has_profile (w_db w)) (od_submitted_by (doc_row doc)) = true ->
  existsb (fun n => String.eqb (n_id n) (gen_random_uuid (w_server w)))
          (notifications (w_db w)) = false ->
  let documentId := od_id (doc_row doc) in
  let w' := snd (handleDocumentAction profile documentId a notes st w) in
  exists n,
    notifications (w_db w') = (notifications (w_db w) ++ [n])%list
    /\ n_user_id n = od_submitted_by (doc_row doc)
    /\ n_type n = match a with approved => success | rejected => warning end
    /\ n_message n
       = "Your " ++ document_type_text (od_document_type (doc_row doc))
         ++ " document for "
         ++ interpolate (option_map l_title (doc_land_records doc))
         ++ " has been " ++ action_text a ++ "."
    /\ (forall l, doc_land_records doc = Some l ->
                  includes (n_message n) (l_title l) = true)
    /\ ownership_documents (w_db w')
       = map (reviewed documentId a (option_map p_id profile) notes)
             (ownership_documents (w_db w))
    /\ requests (w_log w')
       = (requests (w_log w)
          ++ [("ownership_documents", UPDATE); ("ownership_documents", SELECT);
              ("notifications", INSERT)])%list.
Proof.
  intros Hnet Hadmin Hrev Hin Hnd Hsub Hfresh documentId w'.
  exists (notification_row (w_server w) (notification_for a doc)).
  unfold w', documentId.
  rewrite (handleDocumentAction_delivered profile a notes st w doc)
    by assumption.
  cbn [w_db w_log notifications ownership_documents with_notifications
       with_ownership_documents].
  split; [reflexivity|]. split; [reflexivity|].
  split; [destruct a; reflexivity|]. split; [reflexivity|].
  split; [intros l Hl; apply notification_mentions_title; exact Hl|].
  split; [reflexivity|].
  unfold requests. rewrite !flat_map_app. simpl. reflexivity.
Qed.

(** The scenario of the specification: the admin approves the pending deed
    that [u] submitted for "Plot A". *)
Lemma document_action_notifies_scenario :
  let st :=
    {| ad_documents := [document_of "root" db0
                          (mk_doc "deedA" (Some "plotA") (Some "u") doc_pending)];
       ad_loading := false; ad_filter := only doc_pending |} in
  let w' :=
    snd (handleDocumentAction (Some (mk_profile "root" "admin")) "deedA"
           approved None st (world0 "root" [])) in
  exists n,
    notifications (w_db w') = (notifications db0 ++ [n])%list
    /\ n_user_id n = Some "u"
    /\ n_type n = success
    /\ n_message n = "Your deed document for Plot A has been approved.".
Proof.
  intros st w'.
  destruct (document_action_notifies (Some (mk_profile "root" "admin"))
              approved None st (world0 "root" [])
              (document_of "root" db0
                 (mk_doc "deedA" (Some "plotA") (Some "u") doc_pending)))
    as (n & H1 & H2 & H3 & H4 & _).
  - reflexivity.
  - reflexivity.
  - reflexivity.
  - left. reflexivity.
  - repeat constructor. simpl. intros [].
  - reflexivity.
  - reflexivity.
  - exists n. repeat split; assumption.
Defined.

(** ** C3: who can change a land record's status *)

Lemma land_records_update_using uid db lr :
  rls_using land_records_policies UPDATE uid db lr = true ->
  is_admin uid db = true \/ lr_owner_id lr = Some uid.
Proof.
  unfold rls_using. cbn. rewrite orb_false_r. intros H.
  apply orb_true_iff in H as [H|H]; [left; exact H|].
  apply orb_true_iff in H as [H|H]; [right|left; exact H].
  apply sql_eq_some. exact H.
Qed.

(** C3, as stated, fails: the landowner [u], who is no admin, sets the status
    of their own pending parcel to verified, and the update goes through. *)
Lemma owner_verifies_own_land :
  is_admin "u" db0 = false
  /\ map lr_ownership_status (land_records db0) = [pending]
  /\ match update_land_records "u" db0
             (fun lr => String.eqb (lr_id lr) "plotA") (status_patch verified) with
     | Data db' => map lr_ownership_status (land_records db')
     | Error _ => []
     end = [verified].
Proof. repeat split. Qed.

(** C3 (amended): an accepted update of land_records changes a record (its
    ownership_status in particular) only when the caller has the admin role or
    is the record's owner_id; a caller who is neither leaves every field of
    the record as it was. *)
Theorem land_status_update_policy uid db where_ set db' :
  update_land_records uid db where_ set = Data db' ->
  Forall2 (fun lr lr' =>
             (lr_ownership_status lr' <> lr_ownership_status lr ->
              is_admin uid db = true \/ lr_owner_id lr = Some uid)
             /\ (is_admin uid db = false -> lr_owner_id lr <> Some uid ->
                 lr' = lr))
          (land_records db) (land_records db').
Proof.
  unfold update_land_records. intros Hu.
  destruct (rls_update land_records_policies uid db where_ set
              (land_record_valid db) (land_records db)) as [t'|m] eqn:E;
    simpl in Hu; [|discriminate].
  injection Hu as <-. apply rls_update_shape in E. subst t'. simpl.
  apply Forall2_map_of. intros lr _. unfold rewritten, touched.
  destruct (where_ lr && reachable land_records_policies UPDATE uid db lr)
    eqn:Ht.
  - apply andb_true_iff in Ht as [_ Hr]. unfold reachable in Hr.
    apply andb_true_iff in Hr as [_ Hr].
    apply land_records_update_using in Hr. split.
    + intros _. exact Hr.
    + intros Hna Hno. destruct Hr as [Hr|Hr]; [congruence|contradiction].
  - split; [intros Hne; contradiction Hne|]; reflexivity.
Qed.

(** On the sample tables: the owner's change is one the theorem allows. *)
Lemma land_status_update_policy_sample :
  Forall2 (fun lr lr' =>
             (lr_ownership_status lr' <> lr_ownership_status lr ->
              is_admin "u" db0 = true \/ lr_owner_id lr = Some "u")
             /\ (is_admin "u" db0 = false -> lr_owner_id lr <> Some "u" ->
                 lr' = lr))
          (land_records db0)
          [status_patch verified (mk_land "plotA" "Plot A" (Some "u") pending)].
Proof.
  apply (land_status_update_policy "u" db0
           (fun lr => String.eqb (lr_id lr) "plotA") (status_patch verified)
           (with_land_records db0
              [status_patch verified
                 (mk_land "plotA" "Plot A" (Some "u") pending)])).
  reflexivity.
Defined.

(** A landowner who does not own the parcel changes nothing, silently. *)
Example stranger_cannot_verify :
  update_land_records "v" db0 (fun lr => String.eqb (lr_id lr) "plotA")
                      (status_patch verified)
  = Data (with_land_records db0 (land_records db0)).
Proof. reflexivity. Qed.

(** ** C4: the status of a newly added land record *)

Lemma fetchMyLands_keeps_db profile st w :
  w_db (snd (LandownerDashboard.fetchMyLands profile st w)) = w_db w.
Proof.
  unfold LandownerDashboard.fetchMyLands, query.
  destruct (hd None (w_net w)); [reflexivity|].
  destruct (LandownerDashboard.select_my_lands _ _ _); reflexivity.
Qed.

Lemma fetchLands_keeps_db st w :
  w_db (snd (AdminLandsScreen.fetchLands st w)) = w_db w.
Proof.
  unfold AdminLandsScreen.fetchLands, query.
  destruct (hd None (w_net w)); reflexivity.
Qed.

Lemma insert_land_record_row srv uid db i db' :
  insert_land_record srv uid db i = Data db' ->
  exists size,
    lri_size i = Some size
    /\ db' = with_land_records db
               (land_records db ++ [land_record_row srv i size])%list.
Proof.
  unfold insert_land_record. destruct (lri_size i) as [size|]; [|discriminate].
  destruct (rls_check _ _ _ _ _); simpl; [|discriminate].
  destruct (has_land_record _ _); simpl; [discriminate|].
  destruct (land_records_fkeys _ _); simpl; [|discriminate].
  intros Hd. injection Hd as <-. eauto.
Qed.

(** C4: whatever the form holds and whoever is signed in, the landowner
    dashboard's add operation stores at most one new land record, and that
    record has ownership_status pending and the landowner's profile id as
    owner_id; the admin screen's add operation stores at most one new land
    record, and that record has ownership_status verified and the admin's
    profile id as verified_by. *)
Theorem add_land_status `{Runtime} profile st_owner st_admin w :
  (let db' := w_db (snd (LandownerDashboard.handleAddLand profile st_owner w)) in
   land_records db' = land_records (w_db w)
   \/ exists lr,
        land_records db' = (land_records (w_db w) ++ [lr])%list
        /\ lr_ownership_status lr = pending
        /\ lr_owner_id lr = option_map p_id profile)
  /\ (let db' := w_db (snd (AdminLandsScreen.handleAddLand profile st_admin w)) in
      land_records db' = land_records (w_db w)
      \/ exists lr,
           land_records db' = (land_records (w_db w) ++ [lr])%list
           /\ lr_ownership_status lr = verified
           /\ lr_verified_by lr = option_map p_id profile).
Proof.
  split; intros db'; subst db'.
  - unfold LandownerDashboard.handleAddLand.
    destruct (incomplete _); [left; reflexivity|].
    unfold mutate. destruct (hd None (w_net w)); [left; reflexivity|].
    destruct (insert_land_record _ _ _ _) as [db1|m] eqn:E; [|left; reflexivity].
    rewrite fetchMyLands_keeps_db. simpl.
    apply insert_land_record_row in E as (size & _ & ->). right.
    eexists. split; [reflexivity|]. split; reflexivity.
  - unfold AdminLandsScreen.handleAddLand.
    destruct (incomplete _); [left; reflexivity|].
    unfold mutate. destruct (hd None (w_net w)); [left; reflexivity|].
    destruct (insert_land_record _ _ _ _) as [db1|m] eqn:E; [|left; reflexivity].
    rewrite fetchLands_keeps_db. simpl.
    apply insert_land_record_row in E as (size & _ & ->). right.
    eexists. split; [reflexivity|]. split; reflexivity.
Qed.

(** Both operations do store a record on the sample tables. *)
Example landowner_adds_pending_land :
  let st :=
    {| LandownerDashboard.ld_lands := []; LandownerDashboard.ld_loading := false;
       LandownerDashboard.ld_showAddModal := true;
       LandownerDashboard.ld_formData := mk_form "Plot B" "3" "" |} in
  let w' :=
    snd (@LandownerDashboard.handleAddLand ascii_runtime
           (Some (mk_profile "u" "landowner")) st (world0 "u" [])) in
  map (fun lr => (lr_id lr, lr_ownership_status lr, lr_owner_id lr))
      (land_records (w_db w'))
  = [("plotA", pending, Some "u"); ("new", pending, Some "u")]
  /\ alerts (w_log w') = [("Success", "Land record submitted for verification")].
Proof. vm_compute. split; reflexivity. Qed.

Example admin_adds_verified_land :
  let st :=
    {| AdminLandsScreen.al_lands := []; AdminLandsScreen.al_loading := false;
       AdminLandsScreen.al_showAddModal := true;
       AdminLandsScreen.al_formData := mk_form "Plot C" "12" "900" |} in
  let w' :=
    snd (@AdminLandsScreen.handleAddLand ascii_runtime
           (Some (mk_profile "root" "admin")) st (world0 "root" [])) in
  map (fun lr => (lr_id lr, lr_ownership_status lr, lr_verified_by lr))
      (land_records (w_db w'))
  = [("plotA", pending, None); ("new", verified, Some "root")].
Proof. vm_compute. reflexivity. Qed.

(** ** C5: the routing decision *)

(** C5: what the index screen shows and where it redirects depends on
    loading, session and profile only; while loading it shows a spinner and
    redirects nowhere; once loaded it redirects to the authentication screen
    when the session or the profile is missing, and otherwise to the admin,
    landowner or public screens exactly when the role is admin, landowner or
    public, and to the authentication screen for any other role. *)
Theorem index_routing session profile :
  (forall loading u u' f f',
      IndexScreen {| a_session := session; a_user := u; a_profile := profile;
                     a_loading := loading; a_fetching := f |}
      = IndexScreen {| a_session := session; a_user := u'; a_profile := profile;
                       a_loading := loading; a_fetching := f' |})
  /\ render true = Spinner "Loading..."
  /\ redirect true session profile = None
  /\ redirect false None profile = Some auth_
  /\ redirect false session None = Some auth_
  /\ (forall s p,
        (redirect false (Some s) (Some p) = Some admin_
           <-> p_role p = "admin")
        /\ (redirect false (Some s) (Some p) = Some landowner_
           <-> p_role p = "landowner")
        /\ (redirect false (Some s) (Some p) = Some public_
           <-> p_role p = "public")
        /\ (redirect false (Some s) (Some p) = Some auth_
           <-> p_role p <> "admin" /\ p_role p <> "landowner"
               /\ p_role p <> "public")).
Proof.
  split; [reflexivity|]. split; [reflexivity|].
  split; [reflexivity|]. split; [reflexivity|].
  split; [destruct session; reflexivity|].
  intros s p. unfold redirect.
  destruct (String.eqb_spec (p_role p) "admin") as [Ha|Ha];
    [rewrite Ha; repeat split; try discriminate; try reflexivity;
     intros (H1 & _); contradiction H1; reflexivity|].
  destruct (String.eqb_spec (p_role p) "landowner") as [Hl|Hl];
    [rewrite Hl; repeat split; try discriminate; try reflexivity;
     intros (_ & H1 & _); contradiction H1; reflexivity|].
  destruct (String.eqb_spec (p_role p) "public") as [Hp|Hp];
    [rewrite Hp; repeat split; try discriminate; try reflexivity;
     intros (_ & _ & H1); contradiction H1; reflexivity|].
  repeat split; try discriminate; try contradiction; assumption.
Qed.

Example routes_by_role :
  map (fun r => option_map path
                  (redirect false (Some {| s_user := {| u_id := "x" |} |})
                            (Some (mk_profile "x" r))))
      ["admin"; "landowner"; "public"; "surveyor"]
  = [Some "/(admin)"; Some "/(landowner)"; Some "/(public)"; Some "/auth"].
Proof. reflexivity. Qed.

(** ** C7: the public search *)

Import PublicSearchScreen.

Lemma In_insert_desc {A} (key : A -> Z) (x y : A) (l : list A) :
  In y (insert_desc key x l) <-> y = x \/ In y l.
Proof.
  induction l as [|z l IH]; simpl.
  - intuition.
  - destruct (key x <? key z)%Z; simpl; rewrite ?IH; intuition.
Qed.

Lemma In_order_desc {A} (key : A -> Z) (y : A) (l : list A) :
  In y (order_desc key l) <-> In y l.
Proof.
  induction l as [|x l IH]; simpl; [reflexivity|].
  rewrite In_insert_desc, IH. intuition.
Qed.


Section FilterFacts.
Context `{Runtime}.


Lemma filter_if_empty test (l : list land) : filter_if "" test l = l.
Proof. reflexivity. Qed.

End FilterFacts.


(** With the sample runtime: a search for "plot" and a price floor of 100. *)
Example search_sample :
  let a := land_of db0 (mk_land "a" "Plot A" (Some "u") verified) in
  let b := land_of db0 (mk_land "b" "Farm B" (Some "v") verified) in
  map (fun l => lr_id (land_row l))
      (@filtered_lands ascii_runtime [a; b] "plot"
         {| minPrice := "100"; maxPrice := ""; minSize := ""; maxSize := "";
            f_zoning := "res"; f_status := "verified" |}) = ["a"]
  /\ map (fun l => lr_id (land_row l))
         (@filtered_lands ascii_runtime [a; b] ""
            {| minPrice := "900"; maxPrice := ""; minSize := ""; maxSize := "";
               f_zoning := ""; f_status := "verified" |}) = [].
Proof. vm_compute. split; reflexivity. Qed.

(** ** C8: what a failed request leads to *)

Lemma skipn_length_app {A} (l x : list A) : skipn (length l) (l ++ x) = x.
Proof. induction l as [|a l IH]; simpl; [reflexivity|exact IH]. Qed.











(** A refusal by the tables takes the same path as a failure on the network:
    [v] adds a land record under [u]'s profile. *)
Example refused_insert_alerted :
  let st :=
    {| LandownerDashboard.ld_lands := []; LandownerDashboard.ld_loading := false;
       LandownerDashboard.ld_showAddModal := true;
       LandownerDashboard.ld_formData := mk_form "Plot B" "3" "" |} in
  let w := world0 "v" [] in
  trace_of w (@LandownerDashboard.handleAddLand ascii_runtime
                (Some (mk_profile "u" "landowner")) st w)
  = [Request "land_records" INSERT; ConsoleError "Error adding land:";
     Alert "Error" rls_violation].
Proof. vm_compute. reflexivity. Qed.

(** The insert of the notification after a review is not watched at all:
    when it fails, nothing is logged and nothing is shown for it. *)
Example notification_insert_failure_silent :
  let st :=
    {| ad_documents := [document_of "root" db0
                          (mk_doc "deedA" (Some "plotA") (Some "u") doc_pending)];
       ad_loading := false; ad_filter := only doc_pending |} in
  let w := world0 "root" [None; None; Some "Network request failed"] in
  let w' :=
    snd (handleDocumentAction (Some (mk_profile "root" "admin")) "deedA"
           approved None st w) in
  w_log w'
  = [Request "ownership_documents" UPDATE;
     Alert "Success" "Document approved successfully";
     Request "ownership_documents" SELECT; Request "notifications" INSERT]
  /\ notifications (w_db w') = notifications db0.
Proof. vm_compute. split; reflexivity. Qed.

(** The re-fetch after a statement that went through is watched like any
    fetch: the admin's update is stored, and the failure of the re-fetch is
    written to the console and shown once. *)
Example refetch_failure_alerted :
  let st :=
    {| AdminLandsScreen.al_lands := []; AdminLandsScreen.al_loading := false;
       AdminLandsScreen.al_showAddModal := false;
       AdminLandsScreen.al_formData := resetForm |} in
  let w := world0 "root" [None; Some "Network request failed"] in
  let r :=
    AdminLandsScreen.handleVerifyLand (Some (mk_profile "root" "admin")) 7%Z
      "plotA" AdminLandsScreen.set_verified st w in
  trace_of w r
  = [Request "land_records" UPDATE;
     Alert "Success" "Land record verified successfully";
     Request "land_records" SELECT;
     ConsoleError "Error fetching lands:";
     Alert "Error" "Failed to load land records"]
  /\ map lr_ownership_status (land_records (w_db (snd r))) = [verified].
Proof. vm_compute. split; reflexivity. Qed.

(** A delete that fails on the network removes nothing and is shown with the
    platform's message. *)
Example delete_failure_alerted :
  let st :=
    {| AdminLandsScreen.al_lands := []; AdminLandsScreen.al_loading := false;
       AdminLandsScreen.al_showAddModal := false;
       AdminLandsScreen.al_formData := resetForm |} in
  let w := world0 "root" [Some "Network request failed"] in
  let r :=
    AdminLandsScreen.handleDeleteLand AdminLandsScreen.confirm "plotA" "Plot A"
      st w in
  alerts (trace_of w r)
  = [("Delete Land Record", AdminLandsScreen.delete_question "Plot A");
     ("Error", "Network request failed")]
  /\ requests (trace_of w r) = [("land_records", DELETE)]
  /\ w_db (snd r) = db0.
Proof. vm_compute. repeat split. Qed.

(** ** C9: the loading flag *)

(** C9, as stated, fails: a session-change event without a user (a sign-out,
    or the listener's first call when nothing was persisted) and a rejected
    session check both clear the flag. *)
Lemma loading_cleared_without_fetch :
  a_loading initial = true
  /\ option_map a_loading (react initial (AuthStateChange None)) = Some false
  /\ option_map a_loading (react initial SessionRejected) = Some false.
Proof. repeat split. Qed.

(** C9 (amended): the loading flag is true from initialization; a reaction
    of the provider turns it from true to false only when the initial session
    check resolves with no user or is rejected, when a session change arrives
    with no user, or when a profile fetch settles (with a row, an error or an
    exception), and each of these, when it occurs, leaves it false; while the
    flag is true the index screen shows its spinner and redirects nowhere. *)
Theorem loading_flag :
  a_loading initial = true
  /\ (forall st e st',
        react st e = Some st' -> a_loading st = true -> a_loading st' = false ->
        e = SessionResolved None \/ e = SessionRejected
        \/ e = AuthStateChange None \/ exists o, e = ProfileFetchSettled o)
  /\ (forall st e st',
        react st e = Some st' ->
        (e = SessionResolved None \/ e = SessionRejected
         \/ e = AuthStateChange None \/ exists o, e = ProfileFetchSettled o) ->
        a_loading st' = false)
  /\ (forall st, a_loading st = true ->
                 IndexScreen st = (Spinner "Loading...", None)).
Proof.
  split; [reflexivity|]. split; [|split].
  - intros st e st' Hr Ht Hf. destruct e as [s| |s| |o]; simpl in Hr.
    + destruct s as [s|]; simpl in Hr; injection Hr as <-;
        [simpl in Hf; discriminate|left; reflexivity].
    + right. left. reflexivity.
    + destruct s as [s|]; simpl in Hr; injection Hr as <-;
        [simpl in Hf; discriminate|right; right; left; reflexivity].
    + injection Hr as <-. simpl in Hf. discriminate.
    + right. right. right. exists o. reflexivity.
  - intros st e st' Hr [->|[->|[->|(o & ->)]]]; simpl in Hr.
    + injection Hr as <-. reflexivity.
    + injection Hr as <-. reflexivity.
    + injection Hr as <-. reflexivity.
    + destruct (a_fetching st); [discriminate|]. injection Hr as <-.
      reflexivity.
  - intros st Ht. unfold IndexScreen, render, redirect. rewrite Ht.
    reflexivity.
Qed.

(** A start with a persisted session: the flag stays true until the profile
    fetch settles, and the role router waits for it. *)
Example loading_until_profile :
  let s := {| s_user := {| u_id := "u" |} |} in
  let p := mk_profile "u" "landowner" in
  option_map IndexScreen (run initial [SessionResolved (Some s)])
  = Some (Spinner "Loading...", None)
  /\ option_map IndexScreen
       (run initial [SessionResolved (Some s); ProfileFetchSettled (Fetched p)])
     = Some (Spinner "Redirecting...", Some landowner_)
  /\ option_map IndexScreen
       (run initial [SessionResolved (Some s); ProfileFetchSettled Refused])
     = Some (Spinner "Redirecting...", Some auth_).
Proof. repeat split. Qed.

(** * Further properties *)

(** ** Updates, row by row *)

Section RlsRows.
Context {row : Type}.
Variables (ps : list (policy row)) (uid : uuid) (db : database).
Variables (where_ : row -> bool) (set : row -> row).
Variable valid : row -> row -> bool.

(** An accepted UPDATE leaves a row alone or replaces a row it could reach by
    a new version that passed both the policies and the keys. *)
Lemma rls_update_rows (t t' : list row) :
  rls_update ps uid db where_ set valid t = Data t' ->
  Forall2 (fun r r' =>
             (touched ps uid db where_ r = false /\ r' = r)
             \/ (touched ps uid db where_ r = true /\ r' = set r
                 /\ admits ps uid db (set r) = true
                 /\ valid r (set r) = true))
          t t'.
Proof.
  revert t'. induction t as [|r t IH]; intros t' Hu; simpl in Hu.
  - injection Hu as <-. constructor.
  - destruct (where_ r && reachable ps UPDATE uid db r) eqn:Ht.
    + destruct (admits ps uid db (set r)) eqn:Ha; simpl in Hu; [|discriminate].
      destruct (valid r (set r)) eqn:Hv; simpl in Hu; [|discriminate].
      destruct (rls_update ps uid db where_ set valid t) as [u|m];
        simpl in Hu; [|discriminate].
      injection Hu as <-. constructor; [|apply IH; reflexivity].
      right. unfold touched. repeat split; assumption || reflexivity.
    + destruct (rls_update ps uid db where_ set valid t) as [u|m];
        simpl in Hu; [|discriminate].
      injection Hu as <-. constructor; [|apply IH; reflexivity].
      left. unfold touched. split; assumption || reflexivity.
Qed.

Lemma rls_update_untouched (t : list row) :
  (forall r, In r t -> touched ps uid db where_ r = false) ->
  rls_update ps uid db where_ set valid t = Data t.
Proof.
  intros Hno. rewrite rls_update_accepts.
  - f_equal. rewrite <- (map_id t) at 2. apply map_ext_in. intros r Hr.
    unfold rewritten. rewrite (Hno r Hr). reflexivity.
  - intros r Hr Ht. rewrite (Hno r Hr) in Ht. discriminate.
Qed.

End RlsRows.

(** ** Profiles *)

Lemma profiles_insert_check uid db p :
  rls_check profiles_policies INSERT uid db p = String.eqb uid (p_id p).
Proof. unfold rls_check. cbn. rewrite orb_false_r. reflexivity. Qed.

Lemma profiles_update_using uid db p :
  reachable profiles_policies UPDATE uid db p = String.eqb uid (p_id p).
Proof. unfold reachable, rls_using. cbn. rewrite orb_false_r. reflexivity. Qed.

Lemma profiles_update_admits uid db p :
  admits profiles_policies uid db p = String.eqb uid (p_id p).
Proof.
  unfold admits, rls_check, rls_using. cbn.
  rewrite orb_false_r, andb_true_r. reflexivity.
Qed.

(** X1: a profile row is inserted exactly when its id is the caller's own,
    its role is one of admin, landowner and public, and the caller has no
    profile yet. *)
Theorem profile_insert_policy srv uid db i :
  accepted (insert_profile srv uid db i) = true
  <-> pi_id i = uid /\ role_allowed (pi_role i) = true
      /\ has_profile db uid = false.
Proof.
  unfold insert_profile. rewrite profiles_insert_check. simpl.
  destruct (String.eqb_spec uid (pi_id i)) as [<-|Hne]; simpl.
  - destruct (role_allowed (pi_role i)); simpl.
    + destruct (has_profile db uid); simpl; intuition congruence.
    + intuition congruence.
  - split; [discriminate|]. intros (He & _). congruence.
Qed.

Example profile_insert_sample :
  accepted (insert_profile srv0 "w" db0
              {| pi_id := "w"; pi_email := "w@example.org";
                 pi_full_name := "W"; pi_role := "public"; pi_phone := None;
                 pi_created_at := None |}) = true
  /\ accepted (insert_profile srv0 "w" db0
                 {| pi_id := "w"; pi_email := "w@example.org";
                    pi_full_name := "W"; pi_role := "surveyor";
                    pi_phone := None; pi_created_at := None |}) = false
  /\ accepted (insert_profile srv0 "w" db0
                 {| pi_id := "x"; pi_email := "w@example.org";
                    pi_full_name := "W"; pi_role := "public";
                    pi_phone := None; pi_created_at := None |}) = false.
Proof. repeat split. Qed.

(** X2: an accepted update of profiles leaves every row of another user as
    it was, never changes an id, and leaves every changed row with a role
    among admin, landowner and public. *)
Theorem profile_update_policy uid db where_ set db' :
  update_profiles uid db where_ set = Data db' ->
  Forall2 (fun p p' =>
             (p_id p <> uid -> p' = p)
             /\ p_id p' = p_id p
             /\ (p' = p \/ role_allowed (p_role p') = true))
          (profiles db) (profiles db').
Proof.
  unfold update_profiles. intros Hu.
  destruct (rls_update profiles_policies uid db where_ set (profile_valid db)
              (profiles db)) as [t'|m] eqn:E; simpl in Hu; [|discriminate].
  injection Hu as <-. apply rls_update_rows in E. simpl.
  eapply Forall2_impl; [|exact E]. intros p p' [[_ ->]|(Ht & -> & Ha & Hv)].
  - repeat split; auto.
  - unfold touched in Ht. apply andb_true_iff in Ht as [_ Hr].
    rewrite profiles_update_using in Hr. apply String.eqb_eq in Hr.
    rewrite profiles_update_admits in Ha. apply String.eqb_eq in Ha.
    unfold profile_valid in Hv. apply andb_true_iff in Hv as [_ Hv].
    split; [intros Hne; congruence|]. split; [congruence|right; exact Hv].
Qed.

Lemma profile_update_policy_sample :
  Forall2 (fun p p' =>
             (p_id p <> "u" -> p' = p)
             /\ p_id p' = p_id p
             /\ (p' = p \/ role_allowed (p_role p') = true))
          (profiles db0)
          [mk_profile "root" "admin"; mk_profile "u" "public";
           mk_profile "v" "landowner"].
Proof.
  apply (profile_update_policy "u" db0 (fun _ => true) (role_patch "public")
           (with_profiles db0
              [mk_profile "root" "admin"; mk_profile "u" "public";
               mk_profile "v" "landowner"])).
  reflexivity.
Defined.

Lemma existsb_map {A} (f : A -> A) (P : A -> bool) (l : list A) :
  existsb P (map f l) = existsb (fun x => P (f x)) l.
Proof. induction l as [|x l IH]; simpl; [|rewrite IH]; reflexivity. Qed.

(** X3: the update policy of profiles selects rows, not columns: every
    caller who has a profile can set their own role to admin, no other row
    changes, and from then on the admin policies count the caller as admin. *)
Theorem own_role_update uid db :
  has_profile db uid = true ->
  exists db',
    update_profiles uid db (fun p => String.eqb (p_id p) uid)
                    (role_patch "admin") = Data db'
    /\ is_admin uid db' = true
    /\ profiles db'
       = map (fun p => if String.eqb (p_id p) uid then role_patch "admin" p
                       else p) (profiles db).
Proof.
  intros Hp. eexists. unfold update_profiles.
  rewrite rls_update_accepts.
  - simpl. split; [reflexivity|]. split.
    + unfold is_admin. simpl. rewrite existsb_map.
      unfold has_profile in Hp. apply existsb_exists in Hp as (p & Hin & He).
      apply existsb_exists. exists p. split; [exact Hin|].
      unfold rewritten, touched. rewrite profiles_update_using.
      apply String.eqb_eq in He. rewrite He, !String.eqb_refl. simpl.
      rewrite He, String.eqb_refl. reflexivity.
    + apply map_ext. intros p. unfold rewritten, touched.
      rewrite profiles_update_using, (String.eqb_sym uid).
      destruct (String.eqb (p_id p) uid); reflexivity.
  - intros p _ Ht. unfold touched in Ht. apply andb_true_iff in Ht as [_ Hr].
    rewrite profiles_update_using in Hr.
    rewrite profiles_update_admits. simpl. rewrite Hr.
    unfold profile_valid. simpl. rewrite pk_update_same. split; reflexivity.
Qed.

Lemma own_role_update_sample :
  exists db',
    update_profiles "v" db0 (fun p => String.eqb (p_id p) "v")
                    (role_patch "admin") = Data db'
    /\ is_admin "v" db' = true
    /\ profiles db'
       = map (fun p => if String.eqb (p_id p) "v" then role_patch "admin" p
                       else p) (profiles db0).
Proof. apply (own_role_update "v" db0). reflexivity. Defined.

(** ** Zoning laws and transactions *)

(** X4: every caller reads all zoning laws; a caller who is no admin can
    insert none and their updates and deletes leave the table as it is, while
    an admin's statements reach every row. *)
Theorem zoning_laws_access uid db where_ set valid (t : list zoning_law) :
  rls_select zoning_laws_policies uid db (fun _ => true) t = t
  /\ (forall z, rls_check zoning_laws_policies INSERT uid db z
                = is_admin uid db)
  /\ (forall z, reachable zoning_laws_policies UPDATE uid db z
                = is_admin uid db)
  /\ (forall z, reachable zoning_laws_policies DELETE uid db z
                = is_admin uid db)
  /\ (is_admin uid db = false ->
      rls_update zoning_laws_policies uid db where_ set valid t = Data t
      /\ rls_delete zoning_laws_policies uid db where_ t = t).
Proof.
  assert (Hi : forall z, rls_check zoning_laws_policies INSERT uid db z
                         = is_admin uid db).
  { intros z. unfold rls_check. cbn. rewrite orb_false_r. reflexivity. }
  assert (Hr : forall c z,
                 reachable zoning_laws_policies c uid db z
                 = match c with SELECT => true | _ => is_admin uid db end).
  { intros c z. unfold reachable, rls_using.
    destruct c; cbn; rewrite ?orb_false_r; reflexivity. }
  split; [|split; [exact Hi|split; [|split]]].
  - unfold rls_select. induction t as [|z t IH]; [reflexivity|].
    cbn. f_equal. exact IH.
  - intros z. apply (Hr UPDATE).
  - intros z. apply (Hr DELETE).
  - intros Hna. split.
    + apply rls_update_untouched. intros z _. unfold touched.
      rewrite (Hr UPDATE), Hna. apply andb_false_r.
    + unfold rls_delete. induction t as [|z t IH]; simpl; [reflexivity|].
      rewrite (Hr DELETE), Hna, andb_false_r. simpl.
      f_equal. exact IH.
Qed.

(** X5: a transaction can be inserted exactly by one of its two parties or
    by an admin and read exactly by the same callers; a party who is no admin
    can neither update nor delete it. *)
Theorem transactions_access uid db where_ set valid (t : transaction)
    (table : list transaction) :
  (rls_check transactions_policies INSERT uid db t = true
   <-> t_from_owner t = Some uid \/ t_to_owner t = Some uid
       \/ is_admin uid db = true)
  /\ (rls_using transactions_policies SELECT uid db t = true
      <-> t_from_owner t = Some uid \/ t_to_owner t = Some uid
          \/ is_admin uid db = true)
  /\ (is_admin uid db = false ->
      rls_update transactions_policies uid db where_ set valid table
      = Data table
      /\ rls_delete transactions_policies uid db where_ table = table).
Proof.
  split; [|split].
  - unfold rls_check. cbn. rewrite orb_false_r, !orb_true_iff, !sql_eq_some.
    tauto.
  - unfold rls_using. cbn. rewrite orb_false_r, !orb_true_iff, !sql_eq_some.
    tauto.
  - intros Hna.
    assert (Hr : forall c x, c = UPDATE \/ c = DELETE ->
                   reachable transactions_policies c uid db x = false).
    { intros c x [-> | ->]; unfold reachable, rls_using; cbn;
        rewrite Hna, ?orb_false_r; apply andb_false_r. }
    split.
    + apply rls_update_untouched. intros x _. unfold touched.
      rewrite Hr by (left; reflexivity). apply andb_false_r.
    + unfold rls_delete. induction table as [|x l IH]; simpl; [reflexivity|].
      rewrite Hr by (right; reflexivity). rewrite andb_false_r. simpl.
      f_equal. exact IH.
Qed.

(** ** Ordering of fetched rows *)

Section OrderDesc.
Context {A : Type}.
Variable key : A -> Z.

Lemma insert_desc_perm (x : A) (l : list A) :
  Permutation (insert_desc key x l) (x :: l).
Proof.
  induction l as [|y l IH]; simpl; [reflexivity|].
  destruct (key x <? key y)%Z; [|reflexivity].
  rewrite IH. apply perm_swap.
Qed.

Lemma order_desc_perm (l : list A) : Permutation (order_desc key l) l.
Proof.
  induction l as [|x l IH]; simpl; [reflexivity|].
  rewrite insert_desc_perm, IH. reflexivity.
Qed.

Lemma insert_desc_sorted (x : A) (l : list A) :
  StronglySorted (fun a b => (key b <= key a)%Z) l ->
  StronglySorted (fun a b => (key b <= key a)%Z) (insert_desc key x l).
Proof.
  induction l as [|y l IH]; intros Hs; simpl.
  - constructor; constructor.
  - inversion Hs as [|? ? Hs' Hall]; subst.
    destruct (key x <? key y)%Z eqn:E.
    + apply Z.ltb_lt in E. constructor; [apply IH, Hs'|].
      apply Forall_forall. intros z Hz. apply In_insert_desc in Hz.
      destruct Hz as [->|Hz]; [lia|].
      rewrite Forall_forall in Hall. apply Hall, Hz.
    + apply Z.ltb_ge in E. constructor; [exact Hs|].
      constructor; [exact E|].
      eapply Forall_impl; [|exact Hall]. simpl. intros z Hz. lia.
Qed.

Lemma order_desc_sorted (l : list A) :
  StronglySorted (fun a b => (key b <= key a)%Z) (order_desc key l).
Proof.
  induction l as [|x l IH]; simpl; [constructor|].
  apply insert_desc_sorted, IH.
Qed.

Lemma order_desc_map (f : A -> A) (l : list A) :
  (forall x, key (f x) = key x) ->
  order_desc key (map f l) = map f (order_desc key l).
Proof.
  intros Hk. induction l as [|x l IH]; simpl; [reflexivity|].
  rewrite IH. generalize (order_desc key l) as s.
  induction s as [|y s IHs]; simpl; [reflexivity|].
  rewrite !Hk. destruct (key x <? key y)%Z; simpl; [|reflexivity].
  f_equal. exact IHs.
Qed.

(** With no two keys equal there is one descending order only, whatever is
    done with ties. *)
Lemma sorted_perm_unique (l1 : list A) : forall l2,
  StronglySorted (fun a b => (key b <= key a)%Z) l1 ->
  StronglySorted (fun a b => (key b <= key a)%Z) l2 ->
  Permutation l1 l2 ->
  NoDup (map key l1) ->
  l1 = l2.
Proof.
  induction l1 as [|a l1 IH]; intros l2 Hs1 Hs2 Hp Hnd.
  - apply Permutation_nil in Hp. symmetry. exact Hp.
  - destruct l2 as [|b l2];
      [apply Permutation_sym, Permutation_nil in Hp; discriminate|].
    inversion Hs1 as [|? ? Hs1' Ha]; subst.
    inversion Hs2 as [|? ? Hs2' Hb]; subst.
    inversion Hnd as [|? ? Hnotin Hnd']; subst.
    assert (Hab : a = b).
    { assert (Hina : In a (b :: l2))
        by (apply (Permutation_in _ Hp); left; reflexivity).
      destruct Hina as [Hba|Hina]; [symmetry; exact Hba|].
      assert (Hinb : In b (a :: l1))
        by (apply (Permutation_in _ (Permutation_sym Hp)); left; reflexivity).
      destruct Hinb as [Hab|Hinb]; [exact Hab|].
      exfalso. apply Hnotin.
      rewrite Forall_forall in Ha, Hb.
      pose proof (Ha b Hinb) as H1. pose proof (Hb a Hina) as H2.
      assert (He : key a = key b) by lia. rewrite He.
      apply in_map. exact Hinb. }
    subst b. f_equal. apply IH; try assumption.
    apply (Permutation_cons_inv Hp).
Qed.

Lemma sorted_map (f : A -> A) (l : list A) :
  (forall x, key (f x) = key x) ->
  StronglySorted (fun a b => (key b <= key a)%Z) l ->
  StronglySorted (fun a b => (key b <= key a)%Z) (map f l).
Proof.
  intros Hk. induction 1 as [|a l Hs IH Ha]; simpl; constructor.
  - exact IH.
  - rewrite Forall_forall in *. intros y Hy.
    apply in_map_iff in Hy as (x & <- & Hx). rewrite !Hk. apply Ha, Hx.
Qed.

End OrderDesc.

(** ** The notifications screen, further *)

(** X6: fetchNotifications always ends the loading state; when its request
    is delivered the screen's list holds exactly the stored notifications
    addressed to both the signed-in user and the profile asked for (so none
    when the two differ), each as often as stored, newest first; when the
    request fails the list stays as it was. *)
Theorem fetched_notifications p st w :
  let uid := w_uid w in
  let st' := fst (fetchNotifications (Some p) st w) in
  ns_loading st' = false
  /\ match hd None (w_net w) with
     | Some _ => ns_notifications st' = ns_notifications st
     | None =>
         Permutation (ns_notifications st')
           (filter (fun n => sql_eq (n_user_id n) (Some (p_id p))
                             && sql_eq (n_user_id n) (Some uid))
                   (notifications (w_db w)))
         /\ (forall n, In n (ns_notifications st') <->
                       In n (notifications (w_db w))
                       /\ n_user_id n = Some uid /\ p_id p = uid)
         /\ StronglySorted (fun a b => (n_created_at b <= n_created_at a)%Z)
                           (ns_notifications st')
     end.
Proof.
  intros uid st'. unfold st', fetchNotifications, query.
  destruct (hd None (w_net w)); simpl; [split; reflexivity|].
  split; [reflexivity|].
  assert (Hf : rls_select notifications_policies uid (w_db w)
                 (fun n => sql_eq (n_user_id n) (Some (p_id p)))
                 (notifications (w_db w))
               = filter (fun n => sql_eq (n_user_id n) (Some (p_id p))
                                  && sql_eq (n_user_id n) (Some uid))
                        (notifications (w_db w))).
  { unfold rls_select. apply filter_ext. intros n.
    rewrite notifications_select. reflexivity. }
  fold uid. rewrite Hf. split; [apply order_desc_perm|]. split.
  - intros n. rewrite In_order_desc, filter_In, andb_true_iff, !sql_eq_some.
    split.
    + intros (Hin & Hp & Hu). repeat split; congruence.
    + intros (Hin & Hu & Hp). repeat split; congruence.
  - apply order_desc_sorted.
Qed.

Example fetched_notifications_sample :
  map n_id (ns_notifications (fst (fetchNotifications
     (Some (mk_profile "u" "landowner"))
     {| ns_notifications := []; ns_loading := true |} (world0 "u" []))))
  = ["n1"; "n3"]
  /\ ns_notifications (fst (fetchNotifications
       (Some (mk_profile "v" "landowner"))
       {| ns_notifications := []; ns_loading := true |} (world0 "u" [])))
     = [].
Proof. split; reflexivity. Qed.

Lemma rls_update_where {row} (ps : list (policy row)) uid db
    (w1 w2 : row -> bool) set valid (t : list row) :
  (forall r, w1 r = w2 r) ->
  rls_update ps uid db w1 set valid t = rls_update ps uid db w2 set valid t.
Proof.
  intros Hw. induction t as [|r t IH]; simpl; [reflexivity|].
  rewrite Hw, IH. reflexivity.
Qed.

Lemma update_notifications_one uid db id :
  update_notifications uid db (fun n => String.eqb (n_id n) id) mark_read
  = Data (with_notifications db (map (marked uid [id]) (notifications db))).
Proof.
  rewrite <- update_notifications_mark. unfold update_notifications.
  f_equal. apply rls_update_where. intros n. unfold id_in. simpl.
  rewrite orb_false_r. reflexivity.
Qed.

(** X7: markAsRead, its request delivered, leaves every stored notification
    with the given id that is addressed to the signed-in user with read =
    true, changes read in no other stored row and no other field in any,
    never changes another table, and leaves the entry with that id in the
    screen's list with read = true whether or not a stored row was changed;
    when the request fails, neither the tables nor the list change. *)
Theorem mark_as_read_effect id st w :
  let uid := w_uid w in
  let st' := fst (markAsRead id st w) in
  let db' := w_db (snd (markAsRead id st w)) in
  match hd None (w_net w) with
  | None =>
      Forall2 (fun n n' =>
                 (n_id n = id -> n_user_id n = Some uid ->
                  n_read n' = Some true)
                 /\ (n_read n' <> n_read n ->
                     n_id n = id /\ n_user_id n = Some uid)
                 /\ (n_id n <> id \/ n_user_id n <> Some uid -> n' = n)
                 /\ n_id n' = n_id n /\ n_user_id n' = n_user_id n
                 /\ n_title n' = n_title n /\ n_message n' = n_message n
                 /\ n_type n' = n_type n /\ n_created_at n' = n_created_at n)
              (notifications (w_db w)) (notifications db')
      /\ Forall2 (fun m m' =>
                    (n_id m = id -> n_read m' = Some true)
                    /\ (n_id m <> id -> m' = m)
                    /\ n_id m' = n_id m /\ n_user_id m' = n_user_id m
                    /\ n_title m' = n_title m /\ n_message m' = n_message m
                    /\ n_type m' = n_type m
                    /\ n_created_at m' = n_created_at m)
                 (ns_notifications st) (ns_notifications st')
      /\ notifications db' = map (marked uid [id]) (notifications (w_db w))
      /\ ns_notifications st'
         = map (fun notif => if String.eqb (n_id notif) id
                             then mark_read notif else notif)
               (ns_notifications st)
  | Some _ => notifications db' = notifications (w_db w) /\ st' = st
  end
  /\ (forall n, n_user_id n <> Some uid -> marked uid [id] n = n)
  /\ (forall n, n_id n <> id -> marked uid [id] n = n)
  /\ profiles db' = profiles (w_db w)
  /\ land_records db' = land_records (w_db w)
  /\ ownership_documents db' = ownership_documents (w_db w).
Proof.
  intros uid st' db'. subst uid.
  assert (Hother : forall n, n_user_id n <> Some (w_uid w) ->
                             marked (w_uid w) [id] n = n).
  { intros n Hn. unfold marked.
    destruct (sql_eq (n_user_id n) (Some (w_uid w))) eqn:E;
      [apply sql_eq_some in E; contradiction|].
    rewrite andb_false_r. reflexivity. }
  assert (Hid : forall n, n_id n <> id -> marked (w_uid w) [id] n = n).
  { intros n Hn. unfold marked, id_in. simpl.
    destruct (String.eqb_spec (n_id n) id); [contradiction|reflexivity]. }
  unfold st', db', markAsRead, mutate.
  destruct (hd None (w_net w)).
  - simpl. repeat split; try reflexivity; assumption.
  - rewrite update_notifications_one.
    cbn [fst snd w_db store sent notifications with_notifications with_list
         ns_notifications profiles land_records ownership_documents].
    split; [|repeat split; try reflexivity; assumption].
    split; [|split; [|split; reflexivity]].
    + apply Forall2_map_of. intros n _.
      split; [|split; [|split]].
      * intros Hn Hu. unfold marked, id_in. simpl.
        rewrite Hn, String.eqb_refl. apply sql_eq_some in Hu. rewrite Hu.
        reflexivity.
      * intros Hne.
        destruct (String.eqb_spec (n_id n) id) as [He|He];
          [|exfalso; apply Hne; f_equal; exact (Hid n He)].
        split; [exact He|].
        destruct (sql_eq (n_user_id n) (Some (w_uid w))) eqn:E;
          [apply sql_eq_some; exact E|].
        exfalso. apply Hne. f_equal. apply Hother. intros Hu.
        apply sql_eq_some in Hu. rewrite E in Hu. discriminate.
      * intros [Hn|Hu]; [apply Hid; exact Hn|apply Hother; exact Hu].
      * unfold marked.
        match goal with |- context [if ?c then _ else _] => destruct c end;
          repeat split; reflexivity.
    + apply Forall2_map_of. intros m _.
      destruct (String.eqb_spec (n_id m) id) as [He|He].
      * repeat split; try reflexivity. intros Hne. contradiction.
      * repeat split; try reflexivity. intros Hm. contradiction.
Qed.

(** [u] taps a notification addressed to [v]: the list shows it as read, the
    stored row stays unread. *)
Example mark_as_read_of_another :
  let '(st', w') :=
    markAsRead "n2"
      {| ns_notifications := [mk_notification "n2" (Some "v") (Some false)];
         ns_loading := false |} (world0 "u" []) in
  map n_read (ns_notifications st') = [Some true]
  /\ map n_read (notifications (w_db w')) = [Some false; Some false; None]
  /\ w_log w' = [Request "notifications" UPDATE].
Proof. repeat split. Qed.

Lemma none_unread_after_mark (l : list notification) :
  filter unread (map mark_read l) = [].
Proof. induction l as [|n l IH]; simpl; [reflexivity|exact IH]. Qed.

(** X8: after a markAllAsRead whose request was delivered the screen's list
    is as long as before, its unread counter is zero, and a second
    markAllAsRead sends nothing and changes nothing. *)
Theorem mark_all_clears_counter st w :
  hd None (w_net w) = None ->
  let st' := fst (markAllAsRead st w) in
  let w' := snd (markAllAsRead st w) in
  unreadCount st' = 0
  /\ length (ns_notifications st') = length (ns_notifications st)
  /\ markAllAsRead st' w' = (st', w').
Proof.
  intros Hnet st' w'. subst st' w'.
  destruct (unread_ids (ns_notifications st)) as [|i ids] eqn:E.
  - assert (Hm : markAllAsRead st w = (st, w))
      by (unfold markAllAsRead; rewrite E; reflexivity).
    rewrite !Hm. simpl. rewrite Hm. unfold unreadCount.
    unfold unread_ids in E. apply map_eq_nil in E. rewrite E.
    repeat split.
  - assert (Hm : markAllAsRead st w
                 = (with_list st (map mark_read (ns_notifications st)),
                    store (with_notifications (w_db w)
                             (map (marked (w_uid w) (i :: ids))
                                  (notifications (w_db w))))
                          (sent "notifications" UPDATE w))).
    { unfold markAllAsRead, mutate.
      rewrite E, Hnet, update_notifications_mark. reflexivity. }
    rewrite !Hm. simpl. unfold unreadCount, markAllAsRead, unread_ids. simpl.
    rewrite none_unread_after_mark, length_map. repeat split.
Qed.

Lemma mark_all_clears_counter_sample :
  let st := {| ns_notifications := notifications db0; ns_loading := false |} in
  let st' := fst (markAllAsRead st (world0 "u" [])) in
  let w' := snd (markAllAsRead st (world0 "u" [])) in
  unreadCount st' = 0
  /\ length (ns_notifications st') = length (ns_notifications st)
  /\ markAllAsRead st' w' = (st', w').
Proof.
  apply (mark_all_clears_counter
           {| ns_notifications := notifications db0; ns_loading := false |}
           (world0 "u" [])).
  reflexivity.
Defined.

Lemma filter_map_same {A} (P : A -> bool) (f : A -> A) (l : list A) :
  (forall x, P (f x) = P x) -> filter P (map f l) = map f (filter P l).
Proof.
  intros Hp. induction l as [|x l IH]; simpl; [reflexivity|].
  rewrite Hp. destruct (P x); simpl; rewrite IH; reflexivity.
Qed.

Lemma mark_read_of_read (n : notification) :
  unread n = false -> mark_read n = n.
Proof.
  destruct n as [i u t m ty r c]. unfold unread, mark_read. simpl.
  destruct r as [[|]|]; simpl; intros Hr; try discriminate. reflexivity.
Qed.

(** What the statement of markAllAsRead makes of the caller's rows is what
    the screen makes of its list. *)
Lemma marked_listed uid (l : list notification) (n : notification) :
  In n l -> n_user_id n = Some uid ->
  marked uid (unread_ids l) n = mark_read n.
Proof.
  intros Hin Hu. unfold marked.
  destruct (id_in (unread_ids l) n && sql_eq (n_user_id n) (Some uid)) eqn:Hm;
    [reflexivity|].
  symmetry. apply mark_read_of_read.
  destruct (unread n) eqn:Hun; [|reflexivity].
  apply unread_true in Hun.
  rewrite (unread_id_listed l n n Hin eq_refl Hun) in Hm.
  apply sql_eq_some in Hu. rewrite Hu in Hm. discriminate.
Qed.

Lemma own_notifications_readable uid db t :
  rls_select notifications_policies uid db
             (fun n => sql_eq (n_user_id n) (Some uid)) t
  = filter (fun n => sql_eq (n_user_id n) (Some uid)) t.
Proof.
  unfold rls_select. apply filter_ext. intros n.
  rewrite notifications_select. apply andb_diag.
Qed.

(** X9: when the screen's list holds the notifications the table has for
    the signed-in user, in descending order of created_at, and no two of them
    were created at the same time, the list markAllAsRead leaves on the
    screen is the list a fetchNotifications right after it loads: the local
    marking and the stored one agree. *)
Theorem mark_all_agrees_with_refetch p st w :
  w_net w = [] ->
  p_id p = w_uid w ->
  Permutation (ns_notifications st)
              (filter (fun n => sql_eq (n_user_id n) (Some (w_uid w)))
                      (notifications (w_db w))) ->
  StronglySorted (fun a b => (n_created_at b <= n_created_at a)%Z)
                 (ns_notifications st) ->
  NoDup (map n_created_at (ns_notifications st)) ->
  let st1 := fst (markAllAsRead st w) in
  let w1 := snd (markAllAsRead st w) in
  ns_notifications (fst (fetchNotifications (Some p) st1 w1))
  = ns_notifications st1.
Proof.
  intros Hnet Hp Hperm Hsort Hnd st1 w1. unfold st1, w1.
  destruct w as [uid db srv net lg].
  cbn [w_uid w_db w_net] in Hnet, Hp, Hperm. subst net.
  unfold markAllAsRead.
  destruct (unread_ids (ns_notifications st)) as [|i ids] eqn:E.
  - unfold fetchNotifications, query.
    cbn [fst snd hd w_net w_uid w_db option_map select_notifications
         ns_notifications].
    rewrite Hp, own_notifications_readable. symmetry.
    apply (sorted_perm_unique n_created_at); try assumption.
    + apply order_desc_sorted.
    + rewrite Hperm. symmetry. apply order_desc_perm.
  - rewrite <- E. unfold mutate.
    cbn [fst snd hd w_net w_uid w_db]. rewrite update_notifications_mark.
    unfold fetchNotifications, query.
    cbn [fst snd hd tl w_net w_uid w_db option_map store sent with_list
         ns_notifications select_notifications notifications
         with_notifications].
    rewrite Hp, own_notifications_readable. symmetry.
    apply (sorted_perm_unique n_created_at).
    + apply sorted_map; [reflexivity|exact Hsort].
    + apply order_desc_sorted.
    + rewrite order_desc_perm.
      rewrite filter_map_same
        by (intros n; unfold marked;
            match goal with |- context [if ?c then _ else _] => destruct c end;
            reflexivity).
      rewrite <- Hperm.
      rewrite (map_ext_in (marked uid (unread_ids (ns_notifications st))) mark_read); [reflexivity|].
      intros n Hn. apply marked_listed; [exact Hn|].
      apply (Permutation_in _ Hperm), filter_In in Hn.
      apply sql_eq_some, Hn.
    + rewrite map_map. cbn [mark_read n_created_at]. exact Hnd.
Qed.

Lemma mark_all_agrees_with_refetch_sample :
  let later :=
    {| n_id := "n5"; n_user_id := Some "u"; n_title := "Document rejected";
       n_message := "Your survey document for Plot A has been rejected.";
       n_type := warning; n_read := None; n_created_at := 5%Z |} in
  let st :=
    {| ns_notifications := [later; mk_notification "n1" (Some "u") (Some false)];
       ns_loading := false |} in
  let w :=
    {| w_uid := "u";
       w_db := with_notifications db0
                 [mk_notification "n1" (Some "u") (Some false);
                  mk_notification "n2" (Some "v") (Some false); later];
       w_server := srv0; w_net := []; w_log := [] |} in
  let st1 := fst (markAllAsRead st w) in
  let w1 := snd (markAllAsRead st w) in
  ns_notifications (fst (fetchNotifications
                           (Some (mk_profile "u" "landowner")) st1 w1))
  = ns_notifications st1.
Proof.
  intros later st w.
  apply (mark_all_agrees_with_refetch (mk_profile "u" "landowner") st w).
  - reflexivity.
  - reflexivity.
  - apply perm_swap.
  - repeat constructor; cbn; lia.
  - repeat constructor; cbn; intuition discriminate.
Defined.

(** ** The admin's land screen, further *)

Lemma with_land_records_same db : with_land_records db (land_records db) = db.
Proof. destruct db. reflexivity. Qed.

Lemma land_records_reach uid db c lr :
  c = UPDATE \/ c = DELETE ->
  reachable land_records_policies c uid db lr
  = is_admin uid db || sql_eq (lr_owner_id lr) (Some uid).
Proof.
  intros [-> | ->]; unfold reachable, rls_using; cbn;
    rewrite orb_false_r;
    destruct (is_admin uid db), (sql_eq (lr_owner_id lr) (Some uid));
    reflexivity.
Qed.


Import AdminLandsScreen.

Lemma fetchLands_log st w :
  w_log (snd (fetchLands st w))
  = (w_log w
     ++ Request "land_records" SELECT
        :: match hd None (w_net w) with
           | None => []
           | Some _ => [ConsoleError "Error fetching lands:";
                        Alert "Error" "Failed to load land records"]
           end)%list.
Proof.
  unfold fetchLands, query, select_lands.
  destruct (hd None (w_net w)); simpl; rewrite <- ?app_assoc; reflexivity.
Qed.




(** X11: when a caller who is neither admin nor owner of the record runs
    handleVerifyLand and the requests are delivered, no table changes, no
    error comes back, and success is reported all the same, followed by the
    re-fetch. *)
Theorem verify_land_by_stranger profile clock landId v st w :
  w_net w = [] ->
  is_admin (w_uid w) (w_db w) = false ->
  (forall lr, In lr (land_records (w_db w)) -> lr_id lr = landId ->
              lr_owner_id lr <> Some (w_uid w)) ->
  w_db (snd (handleVerifyLand profile clock landId v st w)) = w_db w
  /\ trace_of w (handleVerifyLand profile clock landId v st w)
     = [Request "land_records" UPDATE;
        Alert "Success" ("Land record " ++ verdict_text v ++ " successfully");
        Request "land_records" SELECT].
Proof.
  intros Hnet Hna Hown.
  assert (Hu : update_land_records (w_uid w) (w_db w)
                 (fun lr => String.eqb (lr_id lr) landId)
                 (verify v (option_map p_id profile) clock)
               = Data (w_db w)).
  { unfold update_land_records. rewrite rls_update_untouched.
    - simpl. rewrite with_land_records_same. reflexivity.
    - intros lr Hin. unfold touched.
      rewrite land_records_reach by (left; reflexivity). rewrite Hna. simpl.
      destruct (String.eqb_spec (lr_id lr) landId) as [He|]; [|reflexivity].
      destruct (sql_eq (lr_owner_id lr) (Some (w_uid w))) eqn:E;
        [|reflexivity].
      apply sql_eq_some in E. exfalso. exact (Hown lr Hin He E). }
  unfold trace_of, handleVerifyLand, mutate. rewrite Hnet. cbn [hd].
  rewrite Hu, fetchLands_keeps_db, fetchLands_log. split; [reflexivity|].
  cbn [w_log w_net log store sent hd tl]. rewrite Hnet. cbn [tl hd].
  rewrite <- !app_assoc. apply skipn_length_app.
Qed.

Lemma verify_land_by_stranger_sample :
  let r :=
    handleVerifyLand (Some (mk_profile "v" "landowner")) 7%Z "plotA"
      set_verified
      {| al_lands := []; al_loading := false; al_showAddModal := false;
         al_formData := LandForm.resetForm |} (world0 "v" []) in
  w_db (snd r) = db0
  /\ trace_of (world0 "v" []) r
     = [Request "land_records" UPDATE;
        Alert "Success" "Land record verified successfully";
        Request "land_records" SELECT].
Proof.
  apply (verify_land_by_stranger (Some (mk_profile "v" "landowner")) 7%Z
           "plotA" set_verified
           {| al_lands := []; al_loading := false; al_showAddModal := false;
              al_formData := LandForm.resetForm |} (world0 "v" [])).
  - reflexivity.
  - reflexivity.
  - intros lr [<-|[]] _. discriminate.
Defined.

Lemma admin_deletes_lands uid db landId :
  is_admin uid db = true ->
  rls_delete land_records_policies uid db
             (fun lr => String.eqb (lr_id lr) landId) (land_records db)
  = filter (fun lr => negb (String.eqb (lr_id lr) landId)) (land_records db)
  /\ deleted_lands uid db (fun lr => String.eqb (lr_id lr) landId)
     = filter (fun lr => String.eqb (lr_id lr) landId) (land_records db).
Proof.
  intros Ha. unfold rls_delete, deleted_lands.
  split; apply filter_ext; intros lr;
    rewrite land_records_reach by (right; reflexivity);
    rewrite Ha, andb_true_r; reflexivity.
Qed.

(** X12: handleDeleteLand first asks; dismissed, it sends no request and
    changes no table.  Confirmed by an admin, its request delivered, it
    removes the land records with that id and the ownership documents
    referring to them, keeps every other land record and document, and
    documents that referred to stored land records before still do. *)
Theorem delete_land_cascades pressed landId landTitle st w :
  let r := handleDeleteLand pressed landId landTitle st w in
  let db := w_db w in
  let db' := w_db (snd r) in
  hd (Request "" SELECT) (trace_of w r)
  = Alert "Delete Land Record" (delete_question landTitle)
  /\ match pressed with
     | dismiss => requests (trace_of w r) = [] /\ db' = db
     | confirm =>
         hd None (w_net w) = None -> is_admin (w_uid w) db = true ->
         has_land_record db' landId = false
         /\ (forall lr, lr_id lr <> landId ->
                        (In lr (land_records db') <-> In lr (land_records db)))
         /\ (forall d, In d (ownership_documents db') ->
                       In d (ownership_documents db)
                       /\ (od_land_record_id d = Some landId ->
                           has_land_record db landId = false))
         /\ (forall d, In d (ownership_documents db) ->
                       od_land_record_id d <> Some landId ->
                       In d (ownership_documents db'))
         /\ ((forall d, In d (ownership_documents db) ->
                        references (has_land_record db) (od_land_record_id d)
                        = true) ->
             forall d, In d (ownership_documents db') ->
                       references (has_land_record db') (od_land_record_id d)
                       = true)
         /\ profiles db' = profiles db
         /\ notifications db' = notifications db
     end.
Proof.
  cbv zeta. split.
  - unfold trace_of, handleDeleteLand. destruct pressed.
    + cbn [snd w_log log]. rewrite skipn_length_app. reflexivity.
    + unfold mutate. cbn [w_net log hd].
      destruct (hd None (w_net w)) as [m|].
      * cbn [snd w_log log sent]. rewrite <- !app_assoc, skipn_length_app.
        reflexivity.
      * unfold delete_land_records. rewrite fetchLands_log.
        cbn [w_log log sent store]. rewrite <- !app_assoc, skipn_length_app.
        reflexivity.
  - destruct pressed.
    + unfold trace_of, handleDeleteLand. cbn [snd w_log log w_db].
      rewrite skipn_length_app. split; reflexivity.
    + intros Hnet Ha.
      assert (Hdb : w_db (snd (handleDeleteLand confirm landId landTitle st w))
                    = {| profiles := profiles (w_db w);
                         land_records :=
                           filter (fun lr => negb (String.eqb (lr_id lr) landId))
                                  (land_records (w_db w));
                         ownership_documents :=
                           filter (fun d => negb (refers_to
                                     (filter (fun lr => String.eqb (lr_id lr) landId)
                                             (land_records (w_db w))) d))
                                  (ownership_documents (w_db w));
                         notifications := notifications (w_db w) |}).
      { unfold handleDeleteLand, mutate. cbn [w_net log hd w_uid w_db].
        rewrite Hnet. unfold delete_land_records.
        destruct (admin_deletes_lands (w_uid w) (w_db w) landId Ha) as [-> ->].
        rewrite fetchLands_keeps_db. reflexivity. }
      rewrite Hdb. cbn [profiles land_records ownership_documents notifications].
      assert (Hgone : forall d,
                 refers_to (filter (fun lr => String.eqb (lr_id lr) landId)
                                   (land_records (w_db w))) d = true
                 <-> od_land_record_id d = Some landId
                     /\ has_land_record (w_db w) landId = true).
      { intros d. unfold refers_to, has_land_record.
        rewrite !existsb_exists. split.
        - intros (lr & Hin & He). apply filter_In in Hin as [Hin Hid].
          apply String.eqb_eq in Hid. apply sql_eq_some in He.
          split; [rewrite He, Hid; reflexivity|]. exists lr.
          split; [exact Hin|]. apply String.eqb_eq, Hid.
        - intros (Hd & lr & Hin & Hid). exists lr. split.
          + apply filter_In. split; assumption.
          + apply String.eqb_eq in Hid. apply sql_eq_some.
            rewrite Hd, Hid. reflexivity. }
      split; [|split; [|split; [|split; [|split; [|split; reflexivity]]]]].
      * unfold has_land_record. cbn [land_records].
        destruct (existsb _ _) eqn:E; [|reflexivity].
        apply existsb_exists in E as (lr & Hin & Hid).
        apply filter_In in Hin as [_ Hin]. rewrite Hid in Hin. discriminate.
      * intros lr Hne. rewrite filter_In. split; [tauto|].
        intros Hin. split; [exact Hin|].
        destruct (String.eqb_spec (lr_id lr) landId); [contradiction|reflexivity].
      * intros d Hd. apply filter_In in Hd as [Hin Hk]. split; [exact Hin|].
        intros Hl. destruct (has_land_record (w_db w) landId) eqn:E;
          [|reflexivity].
        assert (Ht : refers_to (filter (fun lr => String.eqb (lr_id lr) landId)
                                       (land_records (w_db w))) d = true)
          by (apply Hgone; split; [exact Hl|first [exact E|reflexivity]]).
        rewrite Ht in Hk. discriminate.
      * intros d Hin Hne. apply filter_In. split; [exact Hin|].
        destruct (refers_to _ d) eqn:E; [|reflexivity].
        apply Hgone in E as [E _]. contradiction.
      * intros Hint d Hd. apply filter_In in Hd as [Hin Hk].
        specialize (Hint d Hin).
        destruct (od_land_record_id d) as [l|] eqn:El; [|reflexivity].
        simpl in Hint |- *. unfold has_land_record in Hint |- *.
        cbn [land_records]. apply existsb_exists in Hint as (lr & Hlr & Hid).
        apply existsb_exists. exists lr. split; [|exact Hid].
        apply filter_In. split; [exact Hlr|].
        destruct (String.eqb_spec (lr_id lr) landId) as [He|]; [|reflexivity].
        apply String.eqb_eq in Hid.
        assert (Ht : refers_to (filter (fun lr => String.eqb (lr_id lr) landId)
                                       (land_records (w_db w))) d = true).
        { apply Hgone. split; [rewrite El, <- Hid, He; reflexivity|].
          unfold has_land_record.
          apply existsb_exists. exists lr. split; [exact Hlr|].
          apply String.eqb_eq, He. }
        rewrite Ht in Hk. discriminate.
Qed.

(** The admin deletes the sample parcel: its deed goes with it. *)
Example delete_land_sample :
  let w' :=
    snd (handleDeleteLand confirm "plotA" "Plot A"
           {| al_lands := []; al_loading := false; al_showAddModal := false;
              al_formData := LandForm.resetForm |} (world0 "root" [])) in
  land_records (w_db w') = [] /\ ownership_documents (w_db w') = []
  /\ requests (w_log w')
     = [("land_records", DELETE); ("land_records", SELECT)].
Proof. repeat split. Qed.

(** ** The public search screen, further *)

Lemma find_land_by_id (l : list land) (x : land) :
  In x l ->
  NoDup (map (fun y => lr_id (land_row y)) l) ->
  find (fun y => String.eqb (lr_id (land_row y)) (lr_id (land_row x))) l
  = Some x.
Proof.
  induction l as [|y l IH]; intros Hin Hnd; [contradiction|].
  simpl in *. inversion Hnd as [|? ? Hnotin Hnd']; subst.
  destruct Hin as [->|Hin].
  - rewrite String.eqb_refl. reflexivity.
  - destruct (String.eqb (lr_id (land_row y)) (lr_id (land_row x))) eqn:E.
    + apply String.eqb_eq in E. exfalso. apply Hnotin. rewrite E.
      apply (in_map (fun y => lr_id (land_row y))). exact Hin.
    + apply IH; assumption.
Qed.

(** X13: requestOwnershipVerification first asks.  Dismissed, or for a land
    that is not in the screen's list or has no owner, it sends nothing, shows
    nothing more and changes no table.  Otherwise it sends one notification
    insert and then reports success, whatever became of the insert. *)
Theorem verification_request_flow pressed profile landId st w :
  let r := requestOwnershipVerification pressed profile landId st w in
  let land :=
    find (fun l => String.eqb (lr_id (land_row l)) landId) (ps_lands st) in
  fst r = st
  /\ match pressed, owner_of land with
     | confirm, Some _ =>
         trace_of w r
         = [Alert "Request Ownership Verification" verification_question;
            Request "notifications" INSERT;
            Alert "Success" "Verification request sent to the land owner"]
     | _, _ =>
         trace_of w r
         = [Alert "Request Ownership Verification" verification_question]
         /\ w_db (snd r) = w_db w
     end.
Proof.
  cbv zeta. unfold requestOwnershipVerification, trace_of.
  destruct pressed.
  - cbn [fst snd w_log log w_db]. rewrite skipn_length_app. repeat split.
  - destruct (find _ (ps_lands st)) as [l|] eqn:Ef.
    + destruct (owner_of (Some l)) as [o|] eqn:Eo.
      * unfold mutate. cbn [w_net log hd].
        destruct (hd None (w_net w)) as [m|].
        -- cbn [fst snd w_log log sent]. split; [reflexivity|].
           rewrite <- !app_assoc. apply skipn_length_app.
        -- destruct (insert_notification _ _ _ _);
             cbn [fst snd w_log log sent store]; (split; [reflexivity|]);
             rewrite <- !app_assoc; apply skipn_length_app.
      * cbn [fst snd w_log log w_db]. rewrite skipn_length_app. repeat split.
    + cbn [owner_of fst snd w_log log w_db]. rewrite skipn_length_app.
      repeat split.
Qed.

(** X14: a verification request that is confirmed and delivered, for a land
    of the screen's list whose owner has a profile, stores exactly one new
    notification: addressed to the owner, of type info, unread, and naming the
    requester and the land's title. *)
Theorem verification_request_notifies profile l owner st w :
  hd None (w_net w) = None ->
  In l (ps_lands st) ->
  NoDup (map (fun y => lr_id (land_row y)) (ps_lands st)) ->
  lr_owner_id (land_row l) = Some owner ->
  owner <> "" ->
  has_profile (w_db w) owner = true ->
  existsb (fun n => String.eqb (n_id n) (gen_random_uuid (w_server w)))
          (notifications (w_db w)) = false ->
  let w' :=
    snd (requestOwnershipVerification confirm profile (lr_id (land_row l))
           st w) in
  exists n,
    notifications (w_db w') = (notifications (w_db w) ++ [n])%list
    /\ n_user_id n = Some owner
    /\ n_type n = info
    /\ n_read n = Some false
    /\ n_message n
       = interpolate (option_map p_full_name profile)
         ++ " has requested ownership verification for your land: "
         ++ lr_title (land_row l)
    /\ includes (n_message n) (lr_title (land_row l)) = true.
Proof.
  intros Hnet Hin Hnd Ho Hne Hp Hfresh w'.
  exists (notification_row (w_server w) (verification_request profile owner l)).
  unfold w', requestOwnershipVerification.
  rewrite (find_land_by_id _ _ Hin Hnd). unfold owner_of. rewrite Ho.
  assert (Ht : truthy_string owner = true).
  { unfold truthy_string. destruct (String.eqb_spec owner ""); [contradiction|].
    reflexivity. }
  rewrite Ht. unfold mutate. cbn [w_net log hd w_uid w_db w_server].
  rewrite Hnet. unfold insert_notification.
  rewrite notifications_insert_check. cbn [negb].
  cbn [n_id notification_row verification_request ni_id or_default].
  rewrite Hfresh.
  change (n_user_id (notification_row (w_server w)
                       (verification_request profile owner l)))
    with (Some owner).
  cbn [references]. rewrite Hp.
  cbn [negb snd w_db store log sent notifications with_notifications].
  split; [reflexivity|]. split; [reflexivity|]. split; [reflexivity|].
  split; [reflexivity|]. split; [reflexivity|].
  cbn [n_message ni_message].
  apply includes_skip.
  apply (includes_skip " has requested ownership verification for your land: ").
  rewrite <- (includes_head (lr_title (land_row l)) "") at 1.
  f_equal. clear. induction (lr_title (land_row l)) as [|c s IH];
    simpl; [reflexivity|]. f_equal. exact IH.
Qed.

Lemma verification_request_notifies_sample :
  let st :=
    {| ps_lands := [land_of db0 (mk_land "plotA" "Plot A" (Some "u") verified)];
       ps_filteredLands := []; ps_loading := false; ps_searchQuery := "";
       ps_filters := no_filters |} in
  let w' :=
    snd (requestOwnershipVerification confirm (Some (mk_profile "v" "landowner"))
           "plotA" st (world0 "v" [])) in
  exists n,
    notifications (w_db w') = (notifications db0 ++ [n])%list
    /\ n_user_id n = Some "u"
    /\ n_message n
       = "v has requested ownership verification for your land: Plot A".
Proof.
  intros st w'.
  destruct (verification_request_notifies (Some (mk_profile "v" "landowner"))
              (land_of db0 (mk_land "plotA" "Plot A" (Some "u") verified))
              "u" st (world0 "v" []))
    as (n & H1 & H2 & _ & _ & H5 & _).
  - reflexivity.
  - left. reflexivity.
  - repeat constructor. intros [].
  - reflexivity.
  - discriminate.
  - reflexivity.
  - reflexivity.
  - exists n. repeat split; assumption.
Defined.

(** X15: clearing the filters leaves only the search text in force: after
    clearFilters, applyFilters keeps the whole fetched list when the search
    text is empty and otherwise exactly the records the admin screen's
    filteredLands keeps for the same text, always a part of the fetched list
    in its order. *)
Theorem cleared_filters_search_only `{Runtime} st :
  let st' := applyFilters (clearFilters st) in
  ps_filteredLands st'
  = (if truthy_string (ps_searchQuery st)
     then filteredLands (ps_lands st) (ps_searchQuery st)
     else ps_lands st)
  /\ ps_lands st' = ps_lands st
  /\ ps_filters st' = no_filters
  /\ incl (filteredLands (ps_lands st) (ps_searchQuery st)) (ps_lands st)
  /\ (forall a b,
        filteredLands (a ++ b) (ps_searchQuery st)
        = (filteredLands a (ps_searchQuery st)
           ++ filteredLands b (ps_searchQuery st))%list).
Proof.
  cbv zeta. split; [|split; [reflexivity|split; [reflexivity|split]]].
  - unfold applyFilters, clearFilters, filtered_lands.
    cbn [ps_filteredLands ps_lands ps_searchQuery ps_filters no_filters
         minPrice maxPrice minSize maxSize f_zoning].
    unfold filter_if. change (truthy_string "") with false. cbv iota.
    destruct (truthy_string (ps_searchQuery st)); reflexivity.
  - intros l Hl. unfold filteredLands in Hl. apply filter_In in Hl. apply Hl.
  - intros a b. unfold filteredLands. apply filter_app.
Qed.

(** ** Dashboard counters *)

Lemma status_partition {A} (f g h : A -> bool) (l : list A) :
  (forall x, (if f x then 1 else 0) + (if g x then 1 else 0)
             + (if h x then 1 else 0) = 1) ->
  length (filter f l) + length (filter g l) + length (filter h l) = length l.
Proof.
  intros Hone. induction l as [|x l IH]; simpl; [reflexivity|].
  specialize (Hone x). destruct (f x), (g x), (h x); simpl in *; lia.
Qed.

(** X16: on the landowner's dashboard the verified, pending and disputed
    counters add up to the total, and on the landowner's documents screen the
    approved, pending and rejected counters do: every record counts once. *)
Theorem counters_add_up (ld : LandownerDashboard.state)
    (dd : LandownerDocumentsScreen.state) :
  let s := LandownerDashboard.dashboard_stats ld in
  let t := LandownerDocumentsScreen.documents_stats dd in
  LandownerDashboard.n_verified s + LandownerDashboard.n_pending s
  + LandownerDashboard.n_disputed s = LandownerDashboard.total s
  /\ LandownerDashboard.total s = length (LandownerDashboard.ld_lands ld)
  /\ LandownerDocumentsScreen.n_approved t
     + LandownerDocumentsScreen.n_pending t
     + LandownerDocumentsScreen.n_rejected t
     = LandownerDocumentsScreen.total t
  /\ LandownerDocumentsScreen.total t
     = length (LandownerDocumentsScreen.dd_documents dd).
Proof.
  cbv zeta. unfold LandownerDashboard.dashboard_stats,
    LandownerDocumentsScreen.documents_stats. simpl.
  split; [|split; [reflexivity|split; [|reflexivity]]].
  - apply status_partition. intros x. unfold LandownerDashboard.has_status.
    destruct (lr_ownership_status x); reflexivity.
  - apply status_partition. intros x.
    unfold LandownerDocumentsScreen.has_status, status_eqb.
    destruct (od_status (doc_row x)); reflexivity.
Qed.

(** ** The authentication provider, over whole runs *)

Lemma react_keeps_agreement st e st' :
  react st e = Some st' ->
  a_user st = option_map s_user (a_session st) ->
  a_user st' = option_map s_user (a_session st').
Proof.
  intros Hr Hi. destruct e as [s| |s| |o]; simpl in Hr.
  - destruct s as [s|]; simpl in Hr; injection Hr as <-; reflexivity.
  - injection Hr as <-. exact Hi.
  - destruct s as [s|]; simpl in Hr; injection Hr as <-; reflexivity.
  - injection Hr as <-. exact Hi.
  - destruct (a_fetching st); [discriminate|]. injection Hr as <-.
    destruct o; exact Hi.
Qed.

(** X17: whatever the provider has reacted to since it started, its user
    cell holds the user of its session cell, and none when there is no
    session. *)
Theorem session_user_agree es st :
  run initial es = Some st ->
  a_user st = option_map s_user (a_session st).
Proof.
  assert (Hgen : forall es st0 st,
             a_user st0 = option_map s_user (a_session st0) ->
             run st0 es = Some st ->
             a_user st = option_map s_user (a_session st)).
  { clear. induction es as [|e es IH]; intros st0 st Hi Hr; simpl in Hr.
    - injection Hr as <-. exact Hi.
    - destruct (react st0 e) as [st1|] eqn:E; [|discriminate].
      apply (IH st1 st); [|exact Hr].
      apply (react_keeps_agreement st0 e st1 E Hi). }
  apply Hgen. reflexivity.
Qed.

Lemma session_user_agree_sample :
  a_user {| a_session := Some {| s_user := {| u_id := "u" |} |};
            a_user := Some {| u_id := "u" |};
            a_profile := Some (mk_profile "u" "landowner");
            a_loading := false; a_fetching := 0 |}
  = Some {| u_id := "u" |}.
Proof.
  apply (session_user_agree
           [SessionResolved (Some {| s_user := {| u_id := "u" |} |});
            ProfileFetchSettled (Fetched (mk_profile "u" "landowner"))]).
  reflexivity.
Defined.

Lemma signed_out_step st e st' :
  carries_user e = false ->
  react st e = Some st' ->
  a_session st = None /\ a_user st = None ->
  a_session st' = None /\ a_user st' = None.
Proof.
  intros He E (Hs & Hu). destruct e as [s| |s| |o]; simpl in E.
  - destruct s; [discriminate He|]. injection E as <-. split; reflexivity.
  - injection E as <-. split; assumption.
  - destruct s; [discriminate He|]. injection E as <-. split; reflexivity.
  - injection E as <-. split; assumption.
  - destruct (a_fetching st); [discriminate|]. injection E as <-.
    destruct o; split; assumption.
Qed.

Lemma not_loading_step st e st' :
  e <> ProfileUpdated ->
  carries_user e = false ->
  react st e = Some st' ->
  a_loading st = false ->
  a_loading st' = false.
Proof.
  intros Hne He E Hl. destruct e as [s| |s| |o]; simpl in E.
  - destruct s; [discriminate He|]. injection E as <-. reflexivity.
  - injection E as <-. reflexivity.
  - destruct s; [discriminate He|]. injection E as <-. reflexivity.
  - contradiction Hne. reflexivity.
  - destruct (a_fetching st); [discriminate|]. injection E as <-.
    reflexivity.
Qed.

Lemma signed_out_run es : forall st st',
  Forall (fun e => carries_user e = false) es ->
  run st es = Some st' ->
  a_session st = None /\ a_user st = None ->
  (a_session st' = None /\ a_user st' = None)
  /\ (~ In ProfileUpdated es -> a_loading st = false -> a_loading st' = false).
Proof.
  induction es as [|e es IH]; intros st st' Hes Hr Hinv; simpl in Hr.
  - injection Hr as <-. split; [exact Hinv|]. intros _ Hl. exact Hl.
  - inversion Hes as [|? ? He Hes']; subst.
    destruct (react st e) as [st1|] eqn:E; [|discriminate].
    destruct (IH st1 st' Hes' Hr (signed_out_step st e st1 He E Hinv))
      as [Hout Hload].
    split; [exact Hout|]. intros Hno Hl. apply Hload.
    + intros Hin. apply Hno. right. exact Hin.
    + apply (not_loading_step st e st1); try assumption.
      intros ->. apply Hno. left. reflexivity.
Qed.

(** X18: a session change without a user clears session, user and profile
    and ends loading; from then on, as long as no event brings a session with
    a user, there is no session and no user, and the index screen never
    redirects to the screens of a role: once loading has ended it redirects
    to the authentication screen, also when a profile fetch started earlier
    has settled in between, and loading has ended unless updateProfile has
    started a re-fetch of the profile since. *)
Theorem signed_out_stays_out st :
  exists st0,
    react st (AuthStateChange None) = Some st0
    /\ a_profile st0 = None
    /\ forall es st',
         Forall (fun e => carries_user e = false) es ->
         run st0 es = Some st' ->
         a_session st' = None /\ a_user st' = None
         /\ (forall r, snd (IndexScreen st') = Some r -> r = auth_)
         /\ (a_loading st' = false ->
             IndexScreen st' = (Spinner "Redirecting...", Some auth_))
         /\ (~ In ProfileUpdated es ->
             IndexScreen st' = (Spinner "Redirecting...", Some auth_)).
Proof.
  eexists. split; [reflexivity|]. split; [reflexivity|].
  intros es st' Hes Hr.
  destruct (signed_out_run es _ st' Hes Hr) as [[Hs Hu] Hload];
    [split; reflexivity|].
  assert (Hidle : a_loading st' = false ->
                  IndexScreen st' = (Spinner "Redirecting...", Some auth_)).
  { intros Hl. unfold IndexScreen, render, redirect. rewrite Hl, Hs.
    reflexivity. }
  split; [exact Hs|]. split; [exact Hu|]. split; [|split].
  - intros r. unfold IndexScreen, redirect. cbn [snd]. rewrite Hs.
    destruct (a_loading st'); [discriminate|].
    intros Hr'. injection Hr' as <-. reflexivity.
  - exact Hidle.
  - intros Hno. apply Hidle, Hload; [exact Hno|reflexivity].
Qed.

(** A profile fetch that was in flight at the sign-out brings the profile
    back, and the index screen still redirects to the authentication screen;
    a profile update that was in flight at the sign-out starts a fetch, and
    the index screen shows its loading spinner until that fetch settles. *)
Example stale_fetch_after_sign_out :
  let s := {| s_user := {| u_id := "u" |} |} in
  let p := mk_profile "u" "admin" in
  (exists st,
     run initial [SessionResolved (Some s); AuthStateChange None;
                  ProfileFetchSettled (Fetched p)] = Some st
     /\ a_profile st = Some p
     /\ IndexScreen st = (Spinner "Redirecting...", Some auth_))
  /\ option_map IndexScreen
       (run initial [SessionResolved (Some s); ProfileFetchSettled (Fetched p);
                     AuthStateChange None; ProfileUpdated])
     = Some (Spinner "Loading...", None)
  /\ option_map IndexScreen
       (run initial [SessionResolved (Some s); ProfileFetchSettled (Fetched p);
                     AuthStateChange None; ProfileUpdated;
                     ProfileFetchSettled (Fetched p)])
     = Some (Spinner "Redirecting...", Some auth_).
Proof. split; [eexists; repeat split|split; reflexivity]. Qed.

Lemma react_profile_origin st e st' p :
  react st e = Some st' ->
  a_profile st' = Some p ->
  a_profile st = Some p \/ e = ProfileFetchSettled (Fetched p).
Proof.
  intros E Hp. destruct e as [s| |s| |o]; simpl in E.
  - destruct s; injection E as <-; left; exact Hp.
  - injection E as <-. left. exact Hp.
  - destruct s; injection E as <-; [left; exact Hp|discriminate Hp].
  - injection E as <-. left. exact Hp.
  - destruct (a_fetching st); [discriminate|]. injection E as <-.
    destruct o as [d| |]; simpl in Hp.
    + right. injection Hp as ->. reflexivity.
    + left. exact Hp.
    + left. exact Hp.
Qed.

Lemma run_profile_origin es : forall st st' p,
  run st es = Some st' ->
  a_profile st' = Some p ->
  a_profile st = Some p \/ In (ProfileFetchSettled (Fetched p)) es.
Proof.
  induction es as [|e es IH]; intros st st' p Hr Hp; simpl in Hr.
  - injection Hr as <-. left. exact Hp.
  - destruct (react st e) as [st1|] eqn:E; [|discriminate].
    destruct (IH st1 st' p Hr Hp) as [H1|Hin].
    + destruct (react_profile_origin st e st1 p E H1) as [H0| ->].
      * left. exact H0.
      * right. left. reflexivity.
    + right. right. exact Hin.
Qed.

(** X19: when, after any run of the provider from its initial state, the
    index screen redirects to another route than the authentication screen,
    the provider holds a profile that a profile query of this run returned,
    there is a session, and the route is the group named after the
    profile's role. *)
Theorem role_route_from_fetched_profile es st r :
  run initial es = Some st ->
  snd (IndexScreen st) = Some r ->
  r <> auth_ ->
  exists p s,
    In (ProfileFetchSettled (Fetched p)) es
    /\ a_profile st = Some p
    /\ a_session st = Some s
    /\ path r = "/(" ++ p_role p ++ ")".
Proof.
  intros Hr Hroute Hna. unfold IndexScreen, redirect in Hroute.
  simpl in Hroute.
  destruct (a_loading st); [discriminate|].
  destruct (a_session st) as [s|] eqn:Hs;
    [|injection Hroute as <-; contradiction].
  destruct (a_profile st) as [p|] eqn:Hp;
    [|injection Hroute as <-; contradiction].
  exists p, s.
  destruct (run_profile_origin es initial st p Hr Hp) as [H0|Hin];
    [discriminate H0|].
  split; [exact Hin|]. split; [reflexivity|]. split; [reflexivity|].
  destruct (String.eqb (p_role p) "admin") eqn:E1.
  { injection Hroute as <-. apply String.eqb_eq in E1. rewrite E1.
    reflexivity. }
  destruct (String.eqb (p_role p) "landowner") eqn:E2.
  { injection Hroute as <-. apply String.eqb_eq in E2. rewrite E2.
    reflexivity. }
  destruct (String.eqb (p_role p) "public") eqn:E3.
  { injection Hroute as <-. apply String.eqb_eq in E3. rewrite E3.
    reflexivity. }
  injection Hroute as <-. contradiction.
Qed.

Lemma role_route_from_fetched_profile_sample :
  exists p s,
    In (ProfileFetchSettled (Fetched p))
       [SessionResolved (Some {| s_user := {| u_id := "u" |} |});
        ProfileFetchSettled (Fetched (mk_profile "u" "landowner"))]
    /\ Some (mk_profile "u" "landowner") = Some p
    /\ Some {| s_user := {| u_id := "u" |} |} = Some s
    /\ path landowner_ = "/(" ++ p_role p ++ ")".
Proof.
  apply (role_route_from_fetched_profile
           [SessionResolved (Some {| s_user := {| u_id := "u" |} |});
            ProfileFetchSettled (Fetched (mk_profile "u" "landowner"))]
           {| a_session := Some {| s_user := {| u_id := "u" |} |};
              a_user := Some {| u_id := "u" |};
              a_profile := Some (mk_profile "u" "landowner");
              a_loading := false; a_fetching := 0 |}
           landowner_).
  - reflexivity.
  - reflexivity.
  - discriminate.
Defined.

(** X20: a session change with a user starts a profile query, and when that
    query settles the provider is no longer loading; the profile is the
    fetched one when the query returned a row, and the one held before when
    it failed or threw, and the index screen routes by that profile. *)
Theorem sign_in_then_fetch st s o :
  let kept := match o with
              | Fetched p => Some p
              | Refused | Thrown => a_profile st
              end in
  exists st',
    run st [AuthStateChange (Some s); ProfileFetchSettled o] = Some st'
    /\ a_session st' = Some s
    /\ a_user st' = Some (s_user s)
    /\ a_profile st' = kept
    /\ a_loading st' = false
    /\ a_fetching st' = a_fetching st
    /\ IndexScreen st'
       = (Spinner "Redirecting...", redirect false (Some s) kept).
Proof.
  intros kept. eexists. split; [reflexivity|].
  subst kept. destruct o; repeat split.
Qed.

(** A failed profile query after a change of account leaves the profile of
    the account before, and the index screen routes by it. *)
Example stale_profile_routes :
  let admin := {| s_user := {| u_id := "a" |} |} in
  let other := {| s_user := {| u_id := "b" |} |} in
  exists st,
    run initial [SessionResolved (Some admin);
                 ProfileFetchSettled (Fetched (mk_profile "a" "admin"));
                 AuthStateChange (Some other);
                 ProfileFetchSettled Refused] = Some st
    /\ a_user st = Some {| u_id := "b" |}
    /\ option_map p_id (a_profile st) = Some "a"
    /\ snd (IndexScreen st) = Some admin_.
Proof. eexists. repeat split. Qed.

(** ** The landowner's screens: what is submitted comes back *)

Lemma has_land_record_in db lr :
  In lr (land_records db) -> has_land_record db (lr_id lr) = true.
Proof.
  intros Hin. unfold has_land_record. apply existsb_exists.
  exists lr. split; [exact Hin|apply String.eqb_refl].
Qed.

Lemma own_document_inserted srv uid db i lr :
  odi_submitted_by i = Some uid ->
  odi_land_record_id i = Some (lr_id lr) ->
  odi_reviewed_by i = None ->
  In lr (land_records db) ->
  lr_owner_id lr = Some uid ->
  has_profile db uid = true ->
  ownership_documents_pkey db (ownership_document_row srv i) = true ->
  insert_ownership_document srv uid db i
  = Data (with_ownership_documents db
            (ownership_documents db ++ [ownership_document_row srv i])%list).
Proof.
  intros Hby Hland Hrev Hin Hown Hprof Hpk. unfold insert_ownership_document.
  cbv zeta.
  assert (Hc : rls_check ownership_documents_policies INSERT uid db
                 (ownership_document_row srv i) = true).
  { apply documents_insert_check. right. split; [exact Hby|].
    exists lr. repeat split; assumption. }
  rewrite Hc, Hpk. cbn [negb].
  unfold ownership_documents_fkeys. cbn [ownership_document_row od_land_record_id
    od_submitted_by od_reviewed_by].
  rewrite Hland, Hby, Hrev. cbn [references].
  rewrite (has_land_record_in db lr Hin), Hprof. reflexivity.
Qed.

Lemma own_documents_readable uid db t :
  rls_select ownership_documents_policies uid db
             (fun d => sql_eq (od_submitted_by d) (Some uid)) t
  = filter (fun d => sql_eq (od_submitted_by d) (Some uid)) t.
Proof.
  unfold rls_select. apply filter_ext. intros d. unfold rls_using. cbn.
  destruct (sql_eq (od_submitted_by d) (Some uid)); reflexivity.
Qed.

(** X21: a landowner who submits, for a land record of their own, a document
    with a URL, the requests delivered and the id drawn by the server unused,
    gets it stored as one new row, pending and submitted by them; the modal
    is closed, the form reset, success reported, and the list then shown is
    the caller's own submissions from the table, latest first, the new one
    among them. *)
Theorem submitted_document_listed p lr st w :
  w_net w = [] ->
  p_id p = w_uid w ->
  has_profile (w_db w) (w_uid w) = true ->
  In lr (land_records (w_db w)) ->
  lr_owner_id lr = Some (w_uid w) ->
  LandownerDocumentsScreen.df_land_record_id
    (LandownerDocumentsScreen.dd_formData st) = lr_id lr ->
  truthy_string (lr_id lr) = true ->
  truthy_string (LandownerDocumentsScreen.df_document_url
                   (LandownerDocumentsScreen.dd_formData st)) = true ->
  ownership_documents_pkey (w_db w)
    (ownership_document_row (w_server w)
       (LandownerDocumentsScreen.new_document
          (Some p) (LandownerDocumentsScreen.dd_formData st))) = true ->
  let d := ownership_document_row (w_server w)
             (LandownerDocumentsScreen.new_document
                (Some p) (LandownerDocumentsScreen.dd_formData st)) in
  let r := LandownerDocumentsScreen.handleSubmitDocument (Some p) st w in
  ownership_documents (w_db (snd r))
  = (ownership_documents (w_db w) ++ [d])%list
  /\ od_status d = doc_pending
  /\ od_submitted_by d = Some (w_uid w)
  /\ map doc_row (LandownerDocumentsScreen.dd_documents (fst r))
     = order_desc od_created_at
         (filter (fun d' => sql_eq (od_submitted_by d') (Some (w_uid w)))
                 (ownership_documents (w_db w) ++ [d]))
  /\ In d (map doc_row (LandownerDocumentsScreen.dd_documents (fst r)))
  /\ LandownerDocumentsScreen.dd_showAddModal (fst r) = false
  /\ LandownerDocumentsScreen.dd_formData (fst r)
     = LandownerDocumentsScreen.resetForm
  /\ alerts (trace_of w r) = [("Success", "Document submitted for review")].
Proof.
  intros Hnet Hp Hprof Hin Hown Hland Hid Hurl Hpk d r.
  assert (Hby : od_submitted_by d = Some (w_uid w)).
  { unfold d. cbn. rewrite Hp. reflexivity. }
  assert (Hins : insert_ownership_document (w_server w) (w_uid w) (w_db w)
                   (LandownerDocumentsScreen.new_document
                      (Some p) (LandownerDocumentsScreen.dd_formData st))
                 = Data (with_ownership_documents (w_db w)
                           (ownership_documents (w_db w) ++ [d])%list)).
  { apply (own_document_inserted _ _ _ _ lr); try assumption;
      cbn; rewrite ?Hland; reflexivity. }
  assert (Hshown :
    map doc_row
      (map (fun d' =>
              {| doc_row := d';
                 doc_land_records :=
                   embed_land (w_uid w)
                     (with_ownership_documents (w_db w)
                        (ownership_documents (w_db w) ++ [d])%list)
                     (od_land_record_id d');
                 doc_profiles := None |})
           (order_desc od_created_at
              (rls_select ownership_documents_policies (w_uid w)
                 (with_ownership_documents (w_db w)
                    (ownership_documents (w_db w) ++ [d])%list)
                 (fun d' => sql_eq (od_submitted_by d') (Some (w_uid w)))
                 (ownership_documents (w_db w) ++ [d])%list)))
    = order_desc od_created_at
        (filter (fun d' => sql_eq (od_submitted_by d') (Some (w_uid w)))
                (ownership_documents (w_db w) ++ [d])%list)).
  { rewrite map_map. cbn [doc_row]. rewrite map_id.
    rewrite own_documents_readable. reflexivity. }
  assert (Hr : r = (LandownerDocumentsScreen.with_documents
                      {| LandownerDocumentsScreen.dd_documents :=
                           LandownerDocumentsScreen.dd_documents st;
                         LandownerDocumentsScreen.dd_myLands :=
                           LandownerDocumentsScreen.dd_myLands st;
                         LandownerDocumentsScreen.dd_loading :=
                           LandownerDocumentsScreen.dd_loading st;
                         LandownerDocumentsScreen.dd_showAddModal := false;
                         LandownerDocumentsScreen.dd_formData :=
                           LandownerDocumentsScreen.resetForm |}
                      (map (fun d' =>
                              {| doc_row := d';
                                 doc_land_records :=
                                   embed_land (w_uid w)
                                     (with_ownership_documents (w_db w)
                                        (ownership_documents (w_db w) ++ [d])%list)
                                     (od_land_record_id d');
                                 doc_profiles := None |})
                         (order_desc od_created_at
                            (rls_select ownership_documents_policies (w_uid w)
                               (with_ownership_documents (w_db w)
                                  (ownership_documents (w_db w) ++ [d])%list)
                               (fun d' => sql_eq (od_submitted_by d')
                                                 (Some (w_uid w)))
                               (ownership_documents (w_db w) ++ [d])%list)))
                      false,
                    sent "ownership_documents" SELECT
                      (log (Alert "Success" "Document submitted for review")
                         (store (with_ownership_documents (w_db w)
                                   (ownership_documents (w_db w) ++ [d])%list)
                            (sent "ownership_documents" INSERT w))))).
  { unfold r, LandownerDocumentsScreen.handleSubmitDocument.
    rewrite Hland, Hid, Hurl. cbn [negb orb]. unfold mutate.
    rewrite Hnet. cbn [hd]. rewrite Hins.
    unfold LandownerDocumentsScreen.fetchDocuments, query.
    cbn [w_net log store sent]. rewrite Hnet. cbn [tl hd].
    cbn [option_map LandownerDocumentsScreen.select_my_documents
         w_uid w_db log store sent].
    rewrite Hp. reflexivity. }
  rewrite Hr. cbn [fst snd LandownerDocumentsScreen.with_documents
                   LandownerDocumentsScreen.dd_documents
                   LandownerDocumentsScreen.dd_showAddModal
                   LandownerDocumentsScreen.dd_formData].
  rewrite Hshown.
  split; [reflexivity|]. split; [reflexivity|]. split; [exact Hby|].
  split; [reflexivity|]. split.
  { apply In_order_desc. apply filter_In. split.
    - apply in_or_app. right. left. reflexivity.
    - rewrite Hby. apply sql_eq_some. reflexivity. }
  split; [reflexivity|]. split; [reflexivity|].
  unfold trace_of. cbn [snd w_log log store sent].
  rewrite <- !app_assoc. rewrite skipn_length_app. reflexivity.
Qed.

Lemma submitted_document_listed_sample :
  let st :=
    {| LandownerDocumentsScreen.dd_documents := [];
       LandownerDocumentsScreen.dd_myLands := [];
       LandownerDocumentsScreen.dd_loading := false;
       LandownerDocumentsScreen.dd_showAddModal := true;
       LandownerDocumentsScreen.dd_formData :=
         {| LandownerDocumentsScreen.df_land_record_id := "plotA";
            LandownerDocumentsScreen.df_document_type := survey;
            LandownerDocumentsScreen.df_document_url := "https://files/s.pdf";
            LandownerDocumentsScreen.df_notes := "" |} |} in
  let r :=
    LandownerDocumentsScreen.handleSubmitDocument
      (Some (mk_profile "u" "landowner")) st (world0 "u" []) in
  map od_id (ownership_documents (w_db (snd r))) = ["deedA"; "new"]
  /\ map (fun v => od_id (doc_row v))
         (LandownerDocumentsScreen.dd_documents (fst r)) = ["new"; "deedA"].
Proof.
  intros st r.
  destruct (submitted_document_listed (mk_profile "u" "landowner")
              (mk_land "plotA" "Plot A" (Some "u") pending) st (world0 "u" []))
    as (Hdb & _ & _ & Hshown & _);
    [reflexivity|reflexivity|reflexivity|left; reflexivity|reflexivity
    |reflexivity|reflexivity|reflexivity|reflexivity|].
  split.
  - unfold r. rewrite Hdb. reflexivity.
  - unfold r. rewrite <- map_map, Hshown. reflexivity.
Defined.

Lemma land_records_insert_check uid db lr :
  rls_check land_records_policies INSERT uid db lr
  = is_admin uid db || sql_eq (lr_owner_id lr) (Some uid).
Proof.
  unfold rls_check. cbn. rewrite orb_false_r.
  destruct (is_admin uid db), (sql_eq (lr_owner_id lr) (Some uid));
    reflexivity.
Qed.

Lemma land_records_readable uid db where_ t :
  rls_select land_records_policies uid db where_ t = filter where_ t.
Proof.
  unfold rls_select. apply filter_ext. intros lr. unfold rls_using. cbn.
  apply andb_true_r.
Qed.

Lemma own_land_inserted srv uid db i sz :
  lri_size i = Some sz ->
  lri_owner_id i = Some uid ->
  lri_verified_by i = None ->
  has_profile db uid = true ->
  has_land_record db (or_default (lri_id i) (gen_random_uuid srv)) = false ->
  insert_land_record srv uid db i
  = Data (with_land_records db
            (land_records db ++ [land_record_row srv i sz])%list).
Proof.
  intros Hsz Hown Hvb Hprof Hfresh. unfold insert_land_record.
  rewrite Hsz. cbv zeta. rewrite land_records_insert_check.
  unfold land_records_fkeys.
  cbn [land_record_row lr_owner_id lr_verified_by lr_id].
  rewrite Hown, Hvb, Hfresh. cbn [references sql_eq].
  rewrite String.eqb_refl, orb_true_r, Hprof. reflexivity.
Qed.

(** X22: a landowner who adds a land record with a complete form whose size
    parses to a finite number, the requests delivered and the id drawn by the
    server unused, gets it stored as one new row with that size, owned by
    them; the modal is closed, the form reset, success reported, and the list
    then shown is the caller's own land records from the table, latest first,
    the new one among them. *)
Theorem added_land_listed `{Runtime} p sz (st : LandownerDashboard.state) w :
  w_net w = [] ->
  p_id p = w_uid w ->
  has_profile (w_db w) (w_uid w) = true ->
  incomplete (LandownerDashboard.ld_formData st) = false ->
  json_number (parseFloat (size (LandownerDashboard.ld_formData st)))
  = Some sz ->
  has_land_record (w_db w) (gen_random_uuid (w_server w)) = false ->
  let lr := land_record_row (w_server w)
              (LandownerDashboard.new_land
                 (Some p) (LandownerDashboard.ld_formData st)) sz in
  let r := LandownerDashboard.handleAddLand (Some p) st w in
  land_records (w_db (snd r)) = (land_records (w_db w) ++ [lr])%list
  /\ lr_size lr = sz
  /\ lr_owner_id lr = Some (w_uid w)
  /\ LandownerDashboard.ld_lands (fst r)
     = order_desc lr_created_at
         (filter (fun l => sql_eq (lr_owner_id l) (Some (w_uid w)))
                 (land_records (w_db w) ++ [lr]))
  /\ In lr (LandownerDashboard.ld_lands (fst r))
  /\ LandownerDashboard.ld_showAddModal (fst r) = false
  /\ LandownerDashboard.ld_formData (fst r) = resetForm
  /\ alerts (trace_of w r)
     = [("Success", "Land record submitted for verification")].
Proof.
  intros Hnet Hp Hprof Hinc Hsz Hfresh lr r.
  assert (Hown : lr_owner_id lr = Some (w_uid w)).
  { unfold lr. cbn. rewrite Hp. reflexivity. }
  assert (Hins : insert_land_record (w_server w) (w_uid w) (w_db w)
                   (LandownerDashboard.new_land
                      (Some p) (LandownerDashboard.ld_formData st))
                 = Data (with_land_records (w_db w)
                           (land_records (w_db w) ++ [lr])%list)).
  { apply own_land_inserted; try assumption; cbn; rewrite ?Hp; reflexivity. }
  assert (Hr : r = ({| LandownerDashboard.ld_lands :=
                         order_desc lr_created_at
                           (filter (fun l => sql_eq (lr_owner_id l)
                                                    (Some (w_uid w)))
                                   (land_records (w_db w) ++ [lr]));
                       LandownerDashboard.ld_loading := false;
                       LandownerDashboard.ld_showAddModal := false;
                       LandownerDashboard.ld_formData := resetForm |},
                    sent "land_records" SELECT
                      (log (Alert "Success"
                                  "Land record submitted for verification")
                         (store (with_land_records (w_db w)
                                   (land_records (w_db w) ++ [lr])%list)
                            (sent "land_records" INSERT w))))).
  { unfold r, LandownerDashboard.handleAddLand.
    rewrite Hinc. unfold mutate. rewrite Hnet. cbn [hd]. rewrite Hins.
    unfold LandownerDashboard.fetchMyLands, query.
    cbn [w_net log store sent]. rewrite Hnet. cbn [tl hd].
    cbn [option_map LandownerDashboard.select_my_lands
         w_uid w_db log store sent
         LandownerDashboard.ld_showAddModal LandownerDashboard.ld_formData].
    rewrite Hp, land_records_readable. reflexivity. }
  rewrite Hr. cbn [fst snd LandownerDashboard.ld_lands
                   LandownerDashboard.ld_showAddModal
                   LandownerDashboard.ld_formData].
  split; [reflexivity|]. split; [reflexivity|]. split; [exact Hown|].
  split; [reflexivity|]. split.
  { apply In_order_desc. apply filter_In. split.
    - apply in_or_app. right. left. reflexivity.
    - rewrite Hown. apply sql_eq_some. reflexivity. }
  split; [reflexivity|]. split; [reflexivity|].
  unfold trace_of. cbn [snd w_log log store sent].
  rewrite <- !app_assoc. rewrite skipn_length_app. reflexivity.
Qed.

Lemma added_land_listed_sample :
  let st :=
    {| LandownerDashboard.ld_lands := []; LandownerDashboard.ld_loading := false;
       LandownerDashboard.ld_showAddModal := true;
       LandownerDashboard.ld_formData := mk_form "Plot B" "3" "" |} in
  let r :=
    @LandownerDashboard.handleAddLand ascii_runtime
      (Some (mk_profile "u" "landowner")) st (world0 "u" []) in
  map lr_id (land_records (w_db (snd r))) = ["plotA"; "new"]
  /\ map lr_id (LandownerDashboard.ld_lands (fst r)) = ["new"; "plotA"].
Proof.
  intros st r.
  destruct (@added_land_listed ascii_runtime (mk_profile "u" "landowner")
              3%float st (world0 "u" []))
    as (Hdb & _ & _ & Hshown & _);
    [reflexivity|reflexivity|reflexivity|reflexivity|reflexivity|reflexivity|].
  split.
  - unfold r. rewrite Hdb. reflexivity.
  - unfold r. rewrite Hshown. reflexivity.
Defined.

(** X23: the form check of both add-land screens only asks for a non-empty
    size.  When that size does not parse to a finite number, the request, if
    delivered, is refused for the missing size: no table changes, the screen
    keeps its state with the modal and the form as they were, and the error
    is written to the console and shown in an alert. *)
Theorem unparsable_size_refused `{Runtime} profile
    (ld : LandownerDashboard.state) (al : AdminLandsScreen.state) w :
  incomplete (LandownerDashboard.ld_formData ld) = false ->
  json_number (parseFloat (size (LandownerDashboard.ld_formData ld))) = None ->
  al_formData al = LandownerDashboard.ld_formData ld ->
  hd None (w_net w) = None ->
  (let r := LandownerDashboard.handleAddLand profile ld w in
   fst r = ld /\ w_db (snd r) = w_db w
   /\ exists m, trace_of w r
                = [Request "land_records" INSERT;
                   ConsoleError "Error adding land:"; Alert "Error" m])
  /\ (let r := AdminLandsScreen.handleAddLand profile al w in
      fst r = al /\ w_db (snd r) = w_db w
      /\ exists m, trace_of w r
                   = [Request "land_records" INSERT;
                      ConsoleError "Error adding land:"; Alert "Error" m]).
Proof.
  intros Hinc Hsz Hform Hnet. split; intros r.
  - assert (Hins : forall uid db,
               insert_land_record (w_server w) uid db
                 (LandownerDashboard.new_land
                    profile (LandownerDashboard.ld_formData ld))
               = Error "null value in column size violates not-null constraint").
    { intros uid db. unfold insert_land_record.
      change (lri_size (LandownerDashboard.new_land
                          profile (LandownerDashboard.ld_formData ld)))
        with (json_number
                (parseFloat (size (LandownerDashboard.ld_formData ld)))).
      rewrite Hsz. reflexivity. }
    unfold r, LandownerDashboard.handleAddLand. rewrite Hinc.
    unfold mutate. rewrite Hnet, Hins.
    split; [reflexivity|]. split; [reflexivity|].
    eexists. unfold trace_of. cbn [snd w_log log sent].
    rewrite <- !app_assoc. apply skipn_length_app.
  - assert (Hins : forall uid db,
               insert_land_record (w_server w) uid db
                 (AdminLandsScreen.new_land profile (al_formData al))
               = Error "null value in column size violates not-null constraint").
    { intros uid db. unfold insert_land_record.
      change (lri_size (AdminLandsScreen.new_land profile (al_formData al)))
        with (json_number (parseFloat (size (al_formData al)))).
      rewrite Hform, Hsz. reflexivity. }
    rewrite <- Hform in Hinc.
    unfold r, AdminLandsScreen.handleAddLand. rewrite Hinc. unfold mutate. rewrite Hnet, Hins.
    split; [reflexivity|]. split; [reflexivity|].
    eexists. unfold trace_of. cbn [snd w_log log sent].
    rewrite <- !app_assoc. apply skipn_length_app.
Qed.

Lemma unparsable_size_refused_sample :
  let ld :=
    {| LandownerDashboard.ld_lands := []; LandownerDashboard.ld_loading := false;
       LandownerDashboard.ld_showAddModal := true;
       LandownerDashboard.ld_formData := mk_form "Plot B" "abc" "" |} in
  let r :=
    @LandownerDashboard.handleAddLand ascii_runtime
      (Some (mk_profile "u" "landowner")) ld (world0 "u" []) in
  fst r = ld /\ w_db (snd r) = db0
  /\ exists m, trace_of (world0 "u" []) r
               = [Request "land_records" INSERT;
                  ConsoleError "Error adding land:"; Alert "Error" m].
Proof.
  intros ld r.
  apply (@unparsable_size_refused ascii_runtime
           (Some (mk_profile "u" "landowner")) ld
           {| al_lands := []; al_loading := false; al_showAddModal := true;
              al_formData := mk_form "Plot B" "abc" "" |} (world0 "u" []));
    reflexivity.
Defined.

(** ** The admin's document screen, used without the admin role *)

Lemma with_ownership_documents_same db :
  with_ownership_documents db (ownership_documents db) = db.
Proof. destruct db. reflexivity. Qed.

Lemma non_admin_reviews_nothing uid db where_ set :
  is_admin uid db = false ->
  update_ownership_documents uid db where_ set = Data db.
Proof.
  intros Hna. unfold update_ownership_documents.
  rewrite rls_update_untouched.
  - simpl. rewrite with_ownership_documents_same. reflexivity.
  - intros d _. unfold touched, reachable.
    assert (Hu : rls_using ownership_documents_policies UPDATE uid db d = false).
    { unfold rls_using. cbn. rewrite Hna. reflexivity. }
    rewrite Hu, !andb_false_r. reflexivity.
Qed.

(** X24: when a caller without the admin role runs handleDocumentAction on a
    document of the list and the requests are delivered, no document changes
    and no error comes back: success is reported, the list is fetched again,
    and the notification telling the submitter that the document was approved
    or rejected is stored all the same. *)
Theorem document_action_by_non_admin profile a notes st w doc :
  w_net w = [] ->
  is_admin (w_uid w) (w_db w) = false ->
  In doc (ad_documents st) ->
  NoDup (map (fun d => od_id (doc_row d)) (ad_documents st)) ->
  references (has_profile (w_db w)) (od_submitted_by (doc_row doc)) = true ->
  existsb (fun n => String.eqb (n_id n) (gen_random_uuid (w_server w)))
          (notifications (w_db w)) = false ->
  let r := handleDocumentAction profile (od_id (doc_row doc)) a notes st w in
  ownership_documents (w_db (snd r)) = ownership_documents (w_db w)
  /\ notifications (w_db (snd r))
     = (notifications (w_db w)
        ++ [notification_row (w_server w) (notification_for a doc)])%list
  /\ trace_of w r
     = [Request "ownership_documents" UPDATE;
        Alert "Success" ("Document " ++ action_text a ++ " successfully");
        Request "ownership_documents" SELECT;
        Request "notifications" INSERT].
Proof.
  intros Hnet Hna Hin Hnd Hsub Hfresh r.
  assert (Hr : snd r
               = {| w_uid := w_uid w;
                    w_db :=
                      with_notifications (w_db w)
                        (notifications (w_db w)
                         ++ [notification_row (w_server w)
                               (notification_for a doc)])%list;
                    w_server := w_server w;
                    w_net := [];
                    w_log :=
                      (w_log w
                       ++ [Request "ownership_documents" UPDATE;
                           Alert "Success"
                                 ("Document " ++ action_text a
                                  ++ " successfully");
                           Request "ownership_documents" SELECT;
                           Request "notifications" INSERT])%list |}).
  { unfold r. destruct w as [uid db srv net lg]. simpl in *. subst net.
    unfold handleDocumentAction, mutate at 1. simpl.
    rewrite (non_admin_reviews_nothing uid db _ _ Hna).
    unfold AdminDocumentsScreen.fetchDocuments, query. simpl.
    rewrite (find_by_id _ _ Hin Hnd).
    unfold mutate. simpl. unfold insert_notification.
    rewrite notifications_insert_check. simpl.
    rewrite Hfresh. simpl. rewrite Hsub.
    cbn [negb snd fst w_db store sent log notifications with_notifications
         w_log w_uid w_server w_net tl].
    unfold store, sent, log. simpl. rewrite <- !app_assoc. reflexivity. }
  unfold trace_of. rewrite Hr. cbn [w_db w_log notifications with_notifications
                                    ownership_documents].
  split; [reflexivity|]. split; [reflexivity|]. apply skipn_length_app.
Qed.

Lemma document_action_by_non_admin_sample :
  let st :=
    {| ad_documents := [document_of "u" db0
                          (mk_doc "deedA" (Some "plotA") (Some "u") doc_pending)];
       ad_loading := false; ad_filter := all |} in
  let r :=
    handleDocumentAction (Some (mk_profile "u" "landowner")) "deedA" approved
      None st (world0 "u" []) in
  map od_status (ownership_documents (w_db (snd r))) = [doc_pending]
  /\ map (fun n => (n_user_id n, n_title n)) (notifications (w_db (snd r)))
     = [(Some "u", "Document approved"); (Some "v", "Document approved");
        (Some "u", "Document approved"); (Some "u", "Document approved")].
Proof.
  intros st r.
  destruct (document_action_by_non_admin (Some (mk_profile "u" "landowner"))
              approved None st (world0 "u" [])
              (document_of "u" db0
                 (mk_doc "deedA" (Some "plotA") (Some "u") doc_pending)))
    as (Hd & Hn & _).
  - reflexivity.
  - reflexivity.
  - left. reflexivity.
  - repeat constructor. simpl. intros [].
  - reflexivity.
  - reflexivity.
  - split.
    + unfold r. change "deedA" with
        (od_id (doc_row (document_of "u" db0
           (mk_doc "deedA" (Some "plotA") (Some "u") doc_pending)))) at 1.
      rewrite Hd. reflexivity.
    + unfold r. change "deedA" with
        (od_id (doc_row (document_of "u" db0
           (mk_doc "deedA" (Some "plotA") (Some "u") doc_pending)))) at 1.
      rewrite Hn. reflexivity.
Defined.
